(** * go-whatsapp: outbound validation and webhook dispatch

  A shallow embedding of the parts of the library that authenticate,
  decode and dispatch webhook deliveries ([pkg/webhook/handler.go],
  [pkg/client/client.go]) and that validate outbound send requests
  (the message-sending file of package [client]), together with the properties the
  specification states about them; and of the HTTP layer, the media and
  account operations, the configuration loader and the message
  builders, with further properties of the code. *)

From Stdlib Require Import ZArith List Strings.String Strings.Ascii Strings.Byte Bool Lia.
From Stdlib Require Import Floats.SpecFloat Numbers.DecimalString.
Import ListNotations.

Open Scope string_scope.
Open Scope list_scope.

Set Implicit Arguments.

(* ===================================================================== *)
(** ** Go standard library: crypto/sha256, crypto/hmac, encoding/hex      *)
(* ===================================================================== *)

(** [VerifyWebhookSignature] calls [hmac.New(sha256.New, key)],
  [mac.Write], [mac.Sum(nil)] and [hex.EncodeToString].  These are
  written out here (FIPS 180-4, RFC 2104) so that the verification
  function computes on concrete deliveries.  A [[]byte] is a
  [list byte]; 32-bit words are [Z] with the wrap-around explicit. *)

Module sha256.
Local Open Scope Z_scope.

Definition Size : nat := 32.
Definition BlockSize : nat := 64.

Definition wrap32 (x : Z) : Z := x mod 2 ^ 32.
Definition add32 (x y : Z) : Z := wrap32 (x + y).
Definition rotr (n x : Z) : Z :=
  Z.lor (Z.shiftr x n) (wrap32 (Z.shiftl x (32 - n))).
Definition not32 (x : Z) : Z := Z.lxor x 0xFFFFFFFF.

Definition Ch (x y z : Z) := Z.lxor (Z.land x y) (Z.land (not32 x) z).
Definition Maj (x y z : Z) :=
  Z.lxor (Z.lxor (Z.land x y) (Z.land x z)) (Z.land y z).
Definition bsig0 x := Z.lxor (Z.lxor (rotr 2 x) (rotr 13 x)) (rotr 22 x).
Definition bsig1 x := Z.lxor (Z.lxor (rotr 6 x) (rotr 11 x)) (rotr 25 x).
Definition ssig0 x := Z.lxor (Z.lxor (rotr 7 x) (rotr 18 x)) (Z.shiftr x 3).
Definition ssig1 x := Z.lxor (Z.lxor (rotr 17 x) (rotr 19 x)) (Z.shiftr x 10).

(** The round constants: the first 32 bits of the fractional parts of
    the cube roots of the first 64 primes. *)
Definition K : list Z :=
  [1116352408; 1899447441; 3049323471; 3921009573; 961987163; 1508970993;
   2453635748; 2870763221; 3624381080; 310598401; 607225278; 1426881987;
   1925078388; 2162078206; 2614888103; 3248222580; 3835390401; 4022224774;
   264347078; 604807628; 770255983; 1249150122; 1555081692; 1996064986;
   2554220882; 2821834349; 2952996808; 3210313671; 3336571891; 3584528711;
   113926993; 338241895; 666307205; 773529912; 1294757372; 1396182291;
   1695183700; 1986661051; 2177026350; 2456956037; 2730485921; 2820302411;
   3259730800; 3345764771; 3516065817; 3600352804; 4094571909; 275423344;
   430227734; 506948616; 659060556; 883997877; 958139571; 1322822218;
   1537002063; 1747873779; 1955562222; 2024104815; 2227730452; 2361852424;
   2428436474; 2756734187; 3204031479; 3329325298].

(** The eight chaining values. *)
Record digest := Digest {
  h0 : Z; h1 : Z; h2 : Z; h3 : Z; h4 : Z; h5 : Z; h6 : Z; h7 : Z }.

(** The initial value: the first 32 bits of the fractional parts of the
    square roots of the first 8 primes. *)
Definition init : digest :=
  Digest 1779033703 3144134277 1013904242 2773480762
         1359893119 2600822924 528734635 1541459225.

Definition byteZ (b : byte) : Z := Z.of_N (Byte.to_N b).
Definition Zbyte (z : Z) : byte :=
  match Byte.of_N (Z.to_N (z mod 256)) with
  | Some b => b
  | None => x00
  end.

(** Big-endian packing of bytes into 32-bit words and back. *)
Fixpoint words (bs : list byte) : list Z :=
  match bs with
  | a :: b :: c :: d :: rest =>
      Z.lor (Z.shiftl (byteZ a) 24)
        (Z.lor (Z.shiftl (byteZ b) 16)
           (Z.lor (Z.shiftl (byteZ c) 8) (byteZ d))) :: words rest
  | _ => []
  end.

Definition word_bytes (w : Z) : list byte :=
  [Zbyte (Z.shiftr w 24); Zbyte (Z.shiftr w 16); Zbyte (Z.shiftr w 8); Zbyte w].

(** Message schedule; [recent] holds the words computed so far, newest
    first, so W[t-2], W[t-7], W[t-15], W[t-16] sit at 1, 6, 14, 15. *)
Fixpoint schedule (n : nat) (recent : list Z) : list Z :=
  match n with
  | O => recent
  | S n' =>
      let w := add32 (add32 (ssig1 (nth 1 recent 0)) (nth 6 recent 0))
                     (add32 (ssig0 (nth 14 recent 0)) (nth 15 recent 0)) in
      schedule n' (w :: recent)
  end.

Definition round (s : digest) (kw : Z * Z) : digest :=
  let '(k, w) := kw in
  let t1 := add32 (add32 (add32 (add32 (h7 s) (bsig1 (h4 s)))
                                (Ch (h4 s) (h5 s) (h6 s))) k) w in
  let t2 := add32 (bsig0 (h0 s)) (Maj (h0 s) (h1 s) (h2 s)) in
  Digest (add32 t1 t2) (h0 s) (h1 s) (h2 s)
         (add32 (h3 s) t1) (h4 s) (h5 s) (h6 s).

Definition block (s : digest) (blk : list byte) : digest :=
  let w := rev (schedule 48 (rev (words blk))) in
  let r := fold_left round (combine K w) s in
  Digest (add32 (h0 s) (h0 r)) (add32 (h1 s) (h1 r))
         (add32 (h2 s) (h2 r)) (add32 (h3 s) (h3 r))
         (add32 (h4 s) (h4 r)) (add32 (h5 s) (h5 r))
         (add32 (h6 s) (h6 r)) (add32 (h7 s) (h7 r)).

(** Padding: 0x80, zeros up to 56 mod 64, then the bit length on 8 bytes. *)
Definition pad (msg : list byte) : list byte :=
  let len := Z.of_nat (List.length msg) in
  let zeros := Z.to_nat ((55 - len) mod 64) in
  let bits := len * 8 in
  msg ++ x80 :: repeat x00 zeros
      ++ word_bytes (Z.shiftr bits 32) ++ word_bytes bits.

Fixpoint chunks (n : nat) (bs : list byte) : list (list byte) :=
  match n with
  | O => []
  | S n' => firstn BlockSize bs :: chunks n' (skipn BlockSize bs)
  end.

Definition Sum256 (msg : list byte) : list byte :=
  let p := pad msg in
  let d := fold_left block (chunks (List.length p / BlockSize) p) init in
  word_bytes (h0 d) ++ word_bytes (h1 d) ++ word_bytes (h2 d)
    ++ word_bytes (h3 d) ++ word_bytes (h4 d) ++ word_bytes (h5 d)
    ++ word_bytes (h6 d) ++ word_bytes (h7 d).
End sha256.

Module hmac.
(** [hmac.New(sha256.New, key)] followed by [Write] and [Sum(nil)]:
    keys longer than the block size are hashed first, then padded with
    zeros to the block size. *)
Definition block_key (key : list byte) : list byte :=
  let k := if Nat.ltb sha256.BlockSize (List.length key)
           then sha256.Sum256 key else key in
  k ++ repeat x00 (sha256.BlockSize - List.length k).

Definition xor_byte (c : Z) (b : byte) : byte :=
  sha256.Zbyte (Z.lxor (sha256.byteZ b) c).

Definition Sum (key msg : list byte) : list byte :=
  let k := block_key key in
  let ipad := map (xor_byte 0x36) k in
  let opad := map (xor_byte 0x5c) k in
  sha256.Sum256 (opad ++ sha256.Sum256 (ipad ++ msg)).

(** [hmac.Equal] is a constant-time comparison; its result is plain
    equality of the two byte strings. *)
Definition Equal (a b : string) : bool := String.eqb a b.
End hmac.

Module hex.
Local Open Scope Z_scope.

Definition hextable : string := "0123456789abcdef".

Definition digit (z : Z) : ascii :=
  match String.get (Z.to_nat z) hextable with
  | Some c => c
  | None => "0"%char
  end.

Fixpoint EncodeToString (src : list byte) : string :=
  match src with
  | [] => EmptyString
  | v :: rest =>
      String (digit (Z.shiftr (sha256.byteZ v) 4))
        (String (digit (Z.land (sha256.byteZ v) 0x0f)) (EncodeToString rest))
  end.
End hex.

(* ===================================================================== *)
(** ** Package models                                                      *)
(* ===================================================================== *)

(** Go structs are records, pointers that may be nil are [option],
    slices are lists (a nil slice is [[]]), [int] is [Z] and [float64]
    is an IEEE 754 binary64 value ([spec_float]).  Projections carry
    the struct name as a prefix, since Go field names repeat. *)

Module models.

Definition MessagingProduct : string := "whatsapp".

Definition MessageType := string.
Definition MessageTypeText : MessageType := "text".
Definition MessageTypeImage : MessageType := "image".
Definition MessageTypeAudio : MessageType := "audio".
Definition MessageTypeVideo : MessageType := "video".
Definition MessageTypeDocument : MessageType := "document".
Definition MessageTypeSticker : MessageType := "sticker".
Definition MessageTypeLocation : MessageType := "location".
Definition MessageTypeContacts : MessageType := "contacts".
Definition MessageTypeInteractive : MessageType := "interactive".
Definition MessageTypeTemplate : MessageType := "template".
Definition MessageTypeReaction : MessageType := "reaction".

Definition MessageStatus := string.
Definition StatusSent : MessageStatus := "sent".
Definition StatusDelivered : MessageStatus := "delivered".
Definition StatusRead : MessageStatus := "read".
Definition StatusFailed : MessageStatus := "failed".

Definition float64 := spec_float.

(** [x == 0] on float64: true for +0 and -0, false for NaN. *)
Definition float64_is_zero (x : float64) : bool :=
  SFeqb x (S754_zero false).

Record Context := { Context_MessageID : string }.

Record TextContent := {
  TextContent_Body : string;
  TextContent_PreviewURL : bool }.

Record MediaContent := {
  MediaContent_ID : string;
  MediaContent_Link : string;
  MediaContent_Caption : string }.

Record DocumentContent := {
  DocumentContent_ID : string;
  DocumentContent_Link : string;
  DocumentContent_Caption : string;
  DocumentContent_Filename : string }.

Record LocationContent := {
  LocationContent_Latitude : float64;
  LocationContent_Longitude : float64;
  LocationContent_Name : string;
  LocationContent_Address : string }.

Record ContactName := {
  ContactName_FormattedName : string;
  ContactName_FirstName : string;
  ContactName_LastName : string;
  ContactName_MiddleName : string;
  ContactName_Prefix : string;
  ContactName_Suffix : string }.

Record ContactAddress := {
  ContactAddress_Type : string;
  ContactAddress_Street : string;
  ContactAddress_City : string;
  ContactAddress_State : string;
  ContactAddress_Zip : string;
  ContactAddress_Country : string;
  ContactAddress_CountryCode : string }.

Record ContactEmail := {
  ContactEmail_Type : string;
  ContactEmail_Email : string }.

Record ContactPhone := {
  ContactPhone_Type : string;
  ContactPhone_Phone : string;
  ContactPhone_WaID : string }.

Record ContactOrg := {
  ContactOrg_Company : string;
  ContactOrg_Department : string;
  ContactOrg_Title : string }.

Record ContactURL := {
  ContactURL_Type : string;
  ContactURL_URL : string }.

Record ContactContent := {
  ContactContent_Addresses : list ContactAddress;
  ContactContent_Birthday : string;
  ContactContent_Emails : list ContactEmail;
  ContactContent_Name : ContactName;
  ContactContent_Org : option ContactOrg;
  ContactContent_Phones : list ContactPhone;
  ContactContent_URLs : list ContactURL }.

Record ReactionContent := {
  ReactionContent_MessageID : string;
  ReactionContent_Emoji : string }.

Definition InteractiveType := string.
Definition InteractiveTypeButton : InteractiveType := "button".
Definition InteractiveTypeList : InteractiveType := "list".
Definition InteractiveTypeProduct : InteractiveType := "product".
Definition InteractiveTypeProductList : InteractiveType := "product_list".
Definition InteractiveTypeFlow : InteractiveType := "flow".
Definition InteractiveTypeCTA : InteractiveType := "cta_url".

Record InteractiveHeader := {
  InteractiveHeader_Type : string;
  InteractiveHeader_Text : string;
  InteractiveHeader_Image : option MediaContent;
  InteractiveHeader_Video : option MediaContent;
  InteractiveHeader_Document : option MediaContent }.

Record InteractiveBody := { InteractiveBody_Text : string }.

Record InteractiveFooter := { InteractiveFooter_Text : string }.

Record InteractiveReply := {
  InteractiveReply_ID : string;
  InteractiveReply_Title : string }.

Record InteractiveButton := {
  InteractiveButton_Type : string;
  InteractiveButton_Reply : InteractiveReply }.

Record InteractiveRow := {
  InteractiveRow_ID : string;
  InteractiveRow_Title : string;
  InteractiveRow_Description : string }.

Record InteractiveSection := {
  InteractiveSection_Title : string;
  InteractiveSection_Rows : list InteractiveRow }.

Record CTAParameters := {
  CTAParameters_DisplayText : string;
  CTAParameters_URL : string }.

Record InteractiveAction := {
  InteractiveAction_Buttons : list InteractiveButton;
  InteractiveAction_Button : string;
  InteractiveAction_Sections : list InteractiveSection;
  InteractiveAction_Name : string;
  InteractiveAction_Parameters : option CTAParameters;
  InteractiveAction_CatalogID : string;
  InteractiveAction_ProductRetailerID : string }.

Record InteractiveContent := {
  InteractiveContent_Type : InteractiveType;
  InteractiveContent_Header : option InteractiveHeader;
  InteractiveContent_Body : InteractiveBody;
  InteractiveContent_Footer : option InteractiveFooter;
  InteractiveContent_Action : InteractiveAction }.

Record TemplateLanguage := { TemplateLanguage_Code : string }.

Record CurrencyParam := {
  CurrencyParam_FallbackValue : string;
  CurrencyParam_Code : string;
  CurrencyParam_Amount1000 : Z }.

Record DateTimeParam := { DateTimeParam_FallbackValue : string }.

Definition TemplateComponentHeader : string := "header".
Definition TemplateComponentBody : string := "body".
Definition TemplateComponentButton : string := "button".

Definition TemplateParamText : string := "text".
Definition TemplateParamImage : string := "image".
Definition TemplateParamPayload : string := "payload".

Record TemplateParameter := {
  TemplateParameter_Type : string;
  TemplateParameter_Text : string;
  TemplateParameter_Currency : option CurrencyParam;
  TemplateParameter_DateTime : option DateTimeParam;
  TemplateParameter_Image : option MediaContent;
  TemplateParameter_Document : option DocumentContent;
  TemplateParameter_Video : option MediaContent;
  TemplateParameter_Payload : string }.

Record TemplateComponent := {
  TemplateComponent_Type : string;
  TemplateComponent_SubType : string;
  TemplateComponent_Index : string;
  TemplateComponent_Parameters : list TemplateParameter }.

Record TemplateContent := {
  TemplateContent_Name : string;
  TemplateContent_Language : TemplateLanguage;
  TemplateContent_Components : list TemplateComponent }.

Record MessageRequest := {
  MessageRequest_MessagingProduct : string;
  MessageRequest_RecipientType : string;
  MessageRequest_To : string;
  MessageRequest_Type : MessageType;
  MessageRequest_Context : option Context;
  MessageRequest_Text : option TextContent;
  MessageRequest_Image : option MediaContent;
  MessageRequest_Audio : option MediaContent;
  MessageRequest_Video : option MediaContent;
  MessageRequest_Document : option DocumentContent;
  MessageRequest_Sticker : option MediaContent;
  MessageRequest_Location : option LocationContent;
  MessageRequest_Contacts : list ContactContent;
  MessageRequest_Interactive : option InteractiveContent;
  MessageRequest_Template : option TemplateContent;
  MessageRequest_Reaction : option ReactionContent }.

Record ContactInfo := {
  ContactInfo_Input : string;
  ContactInfo_WaID : string }.

Record MessageInfo := {
  MessageInfo_ID : string;
  MessageInfo_MessageStatus : string }.

Record APIErrorPayload := {
  APIErrorPayload_Message : string;
  APIErrorPayload_Type : string;
  APIErrorPayload_Code : Z;
  APIErrorPayload_ErrorSubcode : Z;
  APIErrorPayload_FBTraceID : string }.

Record MessageResponse := {
  MessageResponse_MessagingProduct : string;
  MessageResponse_Contacts : list ContactInfo;
  MessageResponse_Messages : list MessageInfo;
  MessageResponse_Error : option APIErrorPayload }.

(** *** Media and account data *)

Record MediaUploadResponse := { MediaUploadResponse_ID : string }.

Record MediaURLResponse := {
  MediaURLResponse_URL : string;
  MediaURLResponse_MimeType : string;
  MediaURLResponse_SHA256 : string;
  MediaURLResponse_FileSize : Z;
  MediaURLResponse_ID : string;
  MediaURLResponse_MessagingProduct : string }.

Record BusinessProfile := {
  BusinessProfile_MessagingProduct : string;
  BusinessProfile_About : string;
  BusinessProfile_Address : string;
  BusinessProfile_Description : string;
  BusinessProfile_Email : string;
  BusinessProfile_ProfilePictureURL : string;
  BusinessProfile_Websites : list string;
  BusinessProfile_Vertical : string }.

Record BusinessProfileResponse := {
  BusinessProfileResponse_Data : list BusinessProfile }.

Record PhoneNumber := {
  PhoneNumber_ID : string;
  PhoneNumber_DisplayPhoneNumber : string;
  PhoneNumber_VerifiedName : string;
  PhoneNumber_QualityRating : string;
  PhoneNumber_CodeVerificationStatus : string }.

Record Cursors := {
  Cursors_Before : string;
  Cursors_After : string }.

Record Paging := {
  Paging_Cursors : Cursors;
  Paging_Next : string }.

Record TemplateButtonDef := {
  TemplateButtonDef_Type : string;
  TemplateButtonDef_Text : string;
  TemplateButtonDef_URL : string;
  TemplateButtonDef_PhoneNumber : string }.

Record TemplateExample := {
  TemplateExample_HeaderText : list string;
  TemplateExample_BodyText : list (list string);
  TemplateExample_HeaderHandle : list string }.

Record TemplateComponentDef := {
  TemplateComponentDef_Type : string;
  TemplateComponentDef_Format : string;
  TemplateComponentDef_Text : string;
  TemplateComponentDef_Buttons : list TemplateButtonDef;
  TemplateComponentDef_Example : option TemplateExample }.

Record Template := {
  Template_ID : string;
  Template_Name : string;
  Template_Status : string;
  Template_Category : string;
  Template_Language : string;
  Template_Components : list TemplateComponentDef }.

Record TemplatesResponse := {
  TemplatesResponse_Data : list Template;
  TemplatesResponse_Paging : option Paging }.

(** *** Webhook events *)

Record WebhookError := {
  WebhookError_Code : Z;
  WebhookError_Title : string;
  WebhookError_Message : string;
  WebhookError_Details : string }.

Record WebhookMetadata := {
  WebhookMetadata_DisplayPhoneNumber : string;
  WebhookMetadata_PhoneNumberID : string }.

Record ContactProfile := { ContactProfile_Name : string }.

Record WebhookContact := {
  WebhookContact_WaID : string;
  WebhookContact_Profile : ContactProfile }.

Record MessageContext := {
  MessageContext_From : string;
  MessageContext_ID : string;
  MessageContext_Forwarded : bool }.

Record IncomingText := { IncomingText_Body : string }.

Record IncomingMedia := {
  IncomingMedia_ID : string;
  IncomingMedia_MimeType : string;
  IncomingMedia_SHA256 : string;
  IncomingMedia_Caption : string }.

Record IncomingDocument := {
  IncomingDocument_ID : string;
  IncomingDocument_MimeType : string;
  IncomingDocument_SHA256 : string;
  IncomingDocument_Filename : string;
  IncomingDocument_Caption : string }.

Record InteractiveListReply := {
  InteractiveListReply_ID : string;
  InteractiveListReply_Title : string;
  InteractiveListReply_Description : string }.

Record IncomingInteractive := {
  IncomingInteractive_Type : string;
  IncomingInteractive_ButtonReply : option InteractiveReply;
  IncomingInteractive_ListReply : option InteractiveListReply }.

Record IncomingButton := {
  IncomingButton_Text : string;
  IncomingButton_Payload : string }.

Record IncomingReaction := {
  IncomingReaction_MessageID : string;
  IncomingReaction_Emoji : string }.

Record Referral := {
  Referral_SourceURL : string;
  Referral_SourceType : string;
  Referral_SourceID : string;
  Referral_Headline : string;
  Referral_Body : string;
  Referral_MediaType : string;
  Referral_ImageURL : string;
  Referral_VideoURL : string;
  Referral_ThumbnailURL : string }.

Record SystemMessage := {
  SystemMessage_Type : string;
  SystemMessage_Body : string;
  SystemMessage_NewWaID : string;
  SystemMessage_Identity : string }.

Record IncomingMessage := {
  IncomingMessage_ID : string;
  IncomingMessage_From : string;
  IncomingMessage_Timestamp : string;
  IncomingMessage_Type : MessageType;
  IncomingMessage_Context : option MessageContext;
  IncomingMessage_Errors : list WebhookError;
  IncomingMessage_Text : option IncomingText;
  IncomingMessage_Image : option IncomingMedia;
  IncomingMessage_Audio : option IncomingMedia;
  IncomingMessage_Video : option IncomingMedia;
  IncomingMessage_Document : option IncomingDocument;
  IncomingMessage_Sticker : option IncomingMedia;
  IncomingMessage_Location : option LocationContent;
  IncomingMessage_Contacts : list ContactContent;
  IncomingMessage_Interactive : option IncomingInteractive;
  IncomingMessage_Button : option IncomingButton;
  IncomingMessage_Reaction : option IncomingReaction;
  IncomingMessage_Referral : option Referral;
  IncomingMessage_System : option SystemMessage }.

Record ConversationOrigin := { ConversationOrigin_Type : string }.

Record Conversation := {
  Conversation_ID : string;
  Conversation_Origin : ConversationOrigin;
  Conversation_ExpirationTimestamp : string }.

Record Pricing := {
  Pricing_PricingModel : string;
  Pricing_Billable : bool;
  Pricing_Category : string }.

Record MessageStatusUpdate := {
  MessageStatusUpdate_ID : string;
  MessageStatusUpdate_Status : MessageStatus;
  MessageStatusUpdate_Timestamp : string;
  MessageStatusUpdate_RecipientID : string;
  MessageStatusUpdate_Conversation : option Conversation;
  MessageStatusUpdate_Pricing : option Pricing;
  MessageStatusUpdate_Errors : list WebhookError }.

Record WebhookValue := {
  WebhookValue_MessagingProduct : string;
  WebhookValue_Metadata : WebhookMetadata;
  WebhookValue_Contacts : list WebhookContact;
  WebhookValue_Messages : list IncomingMessage;
  WebhookValue_Statuses : list MessageStatusUpdate;
  WebhookValue_Errors : list WebhookError }.

Record WebhookChange := {
  WebhookChange_Value : WebhookValue;
  WebhookChange_Field : string }.

Record WebhookEntry := {
  WebhookEntry_ID : string;
  WebhookEntry_Changes : list WebhookChange }.

Record WebhookPayload := {
  WebhookPayload_Object : string;
  WebhookPayload_Entry : list WebhookEntry }.

End models.

(* ===================================================================== *)
(** ** Package config                                                      *)
(* ===================================================================== *)

Module config.

Record Config := {
  BusinessAccountID : string;
  PhoneNumberID : string;
  AccessToken : string;
  WebhookVerifyToken : string;
  AppSecret : string;
  APIVersion : string;
  BaseURL : string;
  WebhookPort : string }.

(** [Validate] and [ValidateForWebhook] return a Go [error]: [None] is
    nil, [Some msg] is [errors.New(msg)]. *)
Definition Validate (c : Config) : option string :=
  if PhoneNumberID c =? "" then Some "WHATSAPP_PHONE_NUMBER_ID is required"
  else if AccessToken c =? "" then Some "WHATSAPP_ACCESS_TOKEN is required"
  else None.

Definition ValidateForWebhook (c : Config) : option string :=
  match Validate c with
  | Some err => Some err
  | None =>
      if WebhookVerifyToken c =? ""
      then Some "WHATSAPP_WEBHOOK_VERIFY_TOKEN is required for webhooks"
      else None
  end.

Definition GetAPIURL (c : Config) : string :=
  (BaseURL c ++ "/" ++ APIVersion c)%string.

Definition GetMessagesURL (c : Config) : string :=
  (GetAPIURL c ++ "/" ++ PhoneNumberID c ++ "/messages")%string.

Definition GetMediaURL (c : Config) : string :=
  (GetAPIURL c ++ "/" ++ PhoneNumberID c ++ "/media")%string.

Definition GetBusinessProfileURL (c : Config) : string :=
  (GetAPIURL c ++ "/" ++ PhoneNumberID c ++ "/whatsapp_business_profile")%string.

Definition DefaultConfig : Config := {|
  BusinessAccountID := ""; PhoneNumberID := ""; AccessToken := "";
  WebhookVerifyToken := ""; AppSecret := "";
  APIVersion := "v18.0";
  BaseURL := "https://graph.facebook.com";
  WebhookPort := "8080" |}.

(** [LoadFromEnv]: [getenv] is [os.Getenv] once [godotenv.Load] has
    run (an unset variable reads as the empty string).  The error
    returned is always nil. *)
Definition LoadFromEnv (getenv : string -> string) : Config * option string :=
  let cfg := DefaultConfig in
  let apiVersion := getenv "WHATSAPP_API_VERSION" in
  let webhookPort := getenv "WEBHOOK_PORT" in
  ({| BusinessAccountID := getenv "WHATSAPP_BUSINESS_ACCOUNT_ID";
      PhoneNumberID := getenv "WHATSAPP_PHONE_NUMBER_ID";
      AccessToken := getenv "WHATSAPP_ACCESS_TOKEN";
      WebhookVerifyToken := getenv "WHATSAPP_WEBHOOK_VERIFY_TOKEN";
      AppSecret := getenv "WHATSAPP_APP_SECRET";
      APIVersion := if apiVersion =? "" then APIVersion cfg else apiVersion;
      BaseURL := BaseURL cfg;
      WebhookPort := if webhookPort =? "" then WebhookPort cfg else webhookPort |},
   None).

End config.

(* ===================================================================== *)
(** ** Package errors                                                      *)
(* ===================================================================== *)

Module errors.

Record ErrorData := {
  ErrorData_MessagingProduct : string;
  ErrorData_Details : string }.

Record APIError := {
  APIError_Code : Z;
  APIError_Message : string;
  APIError_Type : string;
  APIError_ErrorSubcode : Z;
  APIError_FBTraceID : string;
  APIError_ErrorData : option ErrorData;
  APIError_HTTPStatusCode : Z }.

Record ValidationError := {
  Field : string;
  Message : string }.

Definition NewValidationError (field message : string) : ValidationError :=
  {| Field := field; Message := message |}.

(** The classification predicates of [APIError]. *)
Definition IsRateLimit (e : APIError) : bool :=
  (APIError_Code e =? 80007)%Z || (APIError_Code e =? 130429)%Z.

Definition IsAuthError (e : APIError) : bool :=
  (APIError_Code e =? 190)%Z || (APIError_Type e =? "OAuthException").

Definition IsPermissionError (e : APIError) : bool :=
  (APIError_Code e =? 10)%Z || (APIError_Code e =? 200)%Z.

(** The dynamic type behind a non-nil Go [error] returned by the client:
    a [ValidationError], an [APIError], or an error built by
    [fmt.Errorf] (marshalling and transport failures). *)
Inductive error :=
| IsValidationError (e : ValidationError)
| IsAPIError (e : APIError)
| Errorf (msg : string).

End errors.

(* ===================================================================== *)
(** ** Go standard library: path/filepath                                  *)
(* ===================================================================== *)

Module filepath.

(** [Ext] scans the path from its end: the suffix starting at the last
    dot of the last element, empty when a separator comes first or
    there is no dot.  The separator is that of Unix. *)
Fixpoint scanExt (before : list ascii) (suffix : list ascii) : string :=
  match before with
  | [] => ""
  | ch :: before' =>
      if Ascii.eqb ch "/" then ""
      else if Ascii.eqb ch "." then string_of_list_ascii (ch :: suffix)
      else scanExt before' (ch :: suffix)
  end.

Definition Ext (path : string) : string :=
  scanExt (rev (list_ascii_of_string path)) [].

End filepath.

(* ===================================================================== *)
(** ** Package client                                                      *)
(* ===================================================================== *)

Module client.
Import models config errors.

(** The [httpClient] field is the transport of section [Transport]. *)
Record Client := { Client_config : Config }.

(** *** Webhook signature verification *)

Definition VerifyWebhookSignature (c : Client) (payload : list byte)
  (signature : string) : bool :=
  if AppSecret (Client_config c) =? "" then false
  else
    (* Remove "sha256=" prefix if present *)
    let signature :=
      if (7 <? String.length signature)%nat
         && (substring 0 7 signature =? "sha256=")
      then substring 7 (String.length signature - 7) signature
      else signature in
    let expectedMAC :=
      hex.EncodeToString
        (hmac.Sum (list_byte_of_string (AppSecret (Client_config c))) payload) in
    hmac.Equal signature expectedMAC.

(** The specification's wording of the comparison: the supplied
    signature "after stripping a literal sha256= prefix if present"
    must equal the lowercase hex HMAC-SHA256 of the raw body under the
    app secret.  [signatureMatches] follows these words, not the code. *)
Definition stripSignaturePrefix (signature : string) : string :=
  if prefix "sha256=" signature
  then substring 7 (String.length signature - 7) signature
  else signature.

Definition expectedSignature (secret : string) (body : list byte) : string :=
  hex.EncodeToString (hmac.Sum (list_byte_of_string secret) body).

Definition signatureMatches (secret : string) (body : list byte)
  (signature : string) : Prop :=
  stripSignaturePrefix signature = expectedSignature secret body.

(** *** Outbound calls

    A send function returns a response pointer and an [error]; exactly
    one of the two is non-nil. *)
Inductive result (A : Type) :=
| Ok (a : A)
| Err (e : error).
Arguments Ok {A} a.
Arguments Err {A} e.

(** A request handed to net/http by [doRequest]. *)
Record NetCall := {
  NetCall_Method : string;
  NetCall_URL : string;
  NetCall_Body : MessageRequest }.

(** Computations that may perform network calls: the state is the log
    of the requests issued so far, oldest first. *)
Definition M (A : Type) : Type := list NetCall -> A * list NetCall.

Definition ret {A} (a : A) : M A := fun log => (a, log).

Definition bind {A B} (m : M A) (k : A -> M B) : M B :=
  fun log => let '(a, log') := m log in k a log'.

Notation "x <- m ;; k" := (bind m (fun x => k))
  (at level 61, m at next level, right associativity).

(** What the HTTP exchange produced, as [doRequestJSON] reports it: a
    decoded 2xx/3xx response, an [APIError] parsed from a status of 400
    or more, or a transport / decoding failure. *)
Inductive PostOutcome :=
| PostOK (resp : MessageResponse)
| PostAPIError (e : APIError)
| PostFailed (msg : string).

(** [json.Marshal] rejects NaN and the infinities with an
    [UnsupportedValueError]; the only floats of a [MessageRequest] are
    the coordinates of its location, encoded latitude first. *)
Definition unsupportedFloat (x : float64) : option string :=
  match x with
  | S754_nan => Some "NaN"
  | S754_infinity false => Some "+Inf"
  | S754_infinity true => Some "-Inf"
  | S754_zero _ | S754_finite _ _ _ => None
  end.

Definition json_Marshal_error (req : MessageRequest) : option string :=
  match MessageRequest_Location req with
  | Some l =>
      match unsupportedFloat (LocationContent_Latitude l) with
      | Some v => Some ("json: unsupported value: " ++ v)%string
      | None =>
          match unsupportedFloat (LocationContent_Longitude l) with
          | Some v => Some ("json: unsupported value: " ++ v)%string
          | None => None
          end
      end
  | None => None
  end.

Definition outcomeResult (o : PostOutcome) : result MessageResponse :=
  match o with
  | PostOK resp => Ok resp
  | PostAPIError e => Err (IsAPIError e)
  | PostFailed msg => Err (Errorf msg)
  end.

Definition postCall (url : string) (body : MessageRequest) : NetCall :=
  {| NetCall_Method := "POST"; NetCall_URL := url; NetCall_Body := body |}.

Section Transport.

(** [http.NewRequestWithContext(ctx, method, url, body)]: the error it
    returns, if any (an invalid method, a URL that does not parse). *)
Variable newRequest : string -> string -> option string.

(** The remote end: [httpClient.Do] and the reading and decoding of
    the response. *)
Variable httpDo : NetCall -> PostOutcome.

(** [c.Post(ctx, url, body, &resp)] through [doRequestJSON],
    [doRequestRaw] and [doRequest]: the body is marshalled first, then
    the request is created, and only then is it issued. *)
Definition Post (c : Client) (url : string) (body : MessageRequest)
  : M (result MessageResponse) :=
  match json_Marshal_error body with
  | Some err =>
      ret (Err (Errorf ("failed to marshal request body: " ++ err)%string))
  | None =>
      match newRequest "POST" url with
      | Some err =>
          ret (Err (Errorf ("failed to create request: " ++ err)%string))
      | None =>
          fun log => (outcomeResult (httpDo (postCall url body)),
                      log ++ [postCall url body])
      end
  end.

(** sendMessage is the internal method that actually sends the message. *)
Definition sendMessage (c : Client) (req : MessageRequest)
  : M (result MessageResponse) :=
  if MessageRequest_To req =? "" then
    ret (Err (IsValidationError
      (NewValidationError "to" "recipient phone number is required")))
  else
    r <- Post c (GetMessagesURL (Client_config c)) req ;;
    match r with
    | Err err => ret (Err err)
    | Ok resp => ret (Ok resp)
    end.

Definition SendMessage (c : Client) (req : MessageRequest) := sendMessage c req.

Definition invalid {A} (field message : string) : M (result A) :=
  ret (Err (IsValidationError (NewValidationError field message))).

(** The request literal shared by the send functions. *)
Definition request (to : string) (type : MessageType) : MessageRequest := {|
  MessageRequest_MessagingProduct := MessagingProduct;
  MessageRequest_RecipientType := "individual";
  MessageRequest_To := to;
  MessageRequest_Type := type;
  MessageRequest_Context := None;
  MessageRequest_Text := None;
  MessageRequest_Image := None;
  MessageRequest_Audio := None;
  MessageRequest_Video := None;
  MessageRequest_Document := None;
  MessageRequest_Sticker := None;
  MessageRequest_Location := None;
  MessageRequest_Contacts := [];
  MessageRequest_Interactive := None;
  MessageRequest_Template := None;
  MessageRequest_Reaction := None |}.

(** Field assignments of the composite literals. *)
Definition set_Context (x : option Context) (r : MessageRequest) :=
  let 'Build_MessageRequest mp rt to ty _ tx im au vi dc st lo co ia te re := r in
  Build_MessageRequest mp rt to ty x tx im au vi dc st lo co ia te re.
Definition set_Text (x : option TextContent) (r : MessageRequest) :=
  let 'Build_MessageRequest mp rt to ty cx _ im au vi dc st lo co ia te re := r in
  Build_MessageRequest mp rt to ty cx x im au vi dc st lo co ia te re.
Definition set_Image (x : option MediaContent) (r : MessageRequest) :=
  let 'Build_MessageRequest mp rt to ty cx tx _ au vi dc st lo co ia te re := r in
  Build_MessageRequest mp rt to ty cx tx x au vi dc st lo co ia te re.
Definition set_Audio (x : option MediaContent) (r : MessageRequest) :=
  let 'Build_MessageRequest mp rt to ty cx tx im _ vi dc st lo co ia te re := r in
  Build_MessageRequest mp rt to ty cx tx im x vi dc st lo co ia te re.
Definition set_Video (x : option MediaContent) (r : MessageRequest) :=
  let 'Build_MessageRequest mp rt to ty cx tx im au _ dc st lo co ia te re := r in
  Build_MessageRequest mp rt to ty cx tx im au x dc st lo co ia te re.
Definition set_Document (x : option DocumentContent) (r : MessageRequest) :=
  let 'Build_MessageRequest mp rt to ty cx tx im au vi _ st lo co ia te re := r in
  Build_MessageRequest mp rt to ty cx tx im au vi x st lo co ia te re.
Definition set_Sticker (x : option MediaContent) (r : MessageRequest) :=
  let 'Build_MessageRequest mp rt to ty cx tx im au vi dc _ lo co ia te re := r in
  Build_MessageRequest mp rt to ty cx tx im au vi dc x lo co ia te re.
Definition set_Location (x : option LocationContent) (r : MessageRequest) :=
  let 'Build_MessageRequest mp rt to ty cx tx im au vi dc st _ co ia te re := r in
  Build_MessageRequest mp rt to ty cx tx im au vi dc st x co ia te re.
Definition set_Contacts (x : list ContactContent) (r : MessageRequest) :=
  let 'Build_MessageRequest mp rt to ty cx tx im au vi dc st lo _ ia te re := r in
  Build_MessageRequest mp rt to ty cx tx im au vi dc st lo x ia te re.
Definition set_Interactive (x : option InteractiveContent) (r : MessageRequest) :=
  let 'Build_MessageRequest mp rt to ty cx tx im au vi dc st lo co _ te re := r in
  Build_MessageRequest mp rt to ty cx tx im au vi dc st lo co x te re.
Definition set_Template (x : option TemplateContent) (r : MessageRequest) :=
  let 'Build_MessageRequest mp rt to ty cx tx im au vi dc st lo co ia _ re := r in
  Build_MessageRequest mp rt to ty cx tx im au vi dc st lo co ia x re.
Definition set_Reaction (x : option ReactionContent) (r : MessageRequest) :=
  let 'Build_MessageRequest mp rt to ty cx tx im au vi dc st lo co ia te _ := r in
  Build_MessageRequest mp rt to ty cx tx im au vi dc st lo co ia te x.

(** *** Text messages *)

Definition text_request (to body : string) (previewURL : bool) :=
  set_Text (Some {| TextContent_Body := body;
                    TextContent_PreviewURL := previewURL |})
    (request to MessageTypeText).

Definition SendText (c : Client) (to body : string) (previewURL : bool)
  : M (result MessageResponse) :=
  if to =? "" then invalid "to" "recipient phone number is required"
  else if body =? "" then invalid "body" "message body is required"
  else sendMessage c (text_request to body previewURL).

Definition SendTextReply (c : Client) (to body replyToMessageID : string)
  : M (result MessageResponse) :=
  if replyToMessageID =? "" then
    invalid "replyToMessageID" "message ID to reply to is required"
  else
    sendMessage c
      (set_Text (Some {| TextContent_Body := body;
                         TextContent_PreviewURL := false |})
         (set_Context (Some {| Context_MessageID := replyToMessageID |})
            (request to MessageTypeText))).

(** *** Media messages *)

Definition validateMediaContent (media : option MediaContent)
  : option ValidationError :=
  match media with
  | None => Some (NewValidationError "media" "media content is required")
  | Some m =>
      if (MediaContent_ID m =? "") && (MediaContent_Link m =? "")
      then Some (NewValidationError "media" "either ID or Link is required")
      else None
  end.

Definition SendImage (c : Client) (to : string) (media : option MediaContent)
  : M (result MessageResponse) :=
  match validateMediaContent media with
  | Some err => ret (Err (IsValidationError err))
  | None => sendMessage c (set_Image media (request to MessageTypeImage))
  end.

Definition SendVideo (c : Client) (to : string) (media : option MediaContent)
  : M (result MessageResponse) :=
  match validateMediaContent media with
  | Some err => ret (Err (IsValidationError err))
  | None => sendMessage c (set_Video media (request to MessageTypeVideo))
  end.

Definition SendAudio (c : Client) (to : string) (media : option MediaContent)
  : M (result MessageResponse) :=
  match validateMediaContent media with
  | Some err => ret (Err (IsValidationError err))
  | None => sendMessage c (set_Audio media (request to MessageTypeAudio))
  end.

Definition SendDocument (c : Client) (to : string) (doc : option DocumentContent)
  : M (result MessageResponse) :=
  match doc with
  | None => invalid "document" "document content is required"
  | Some d =>
      if (DocumentContent_ID d =? "") && (DocumentContent_Link d =? "")
      then invalid "document" "either ID or Link is required"
      else sendMessage c (set_Document doc (request to MessageTypeDocument))
  end.

Definition SendSticker (c : Client) (to : string) (media : option MediaContent)
  : M (result MessageResponse) :=
  match validateMediaContent media with
  | Some err => ret (Err (IsValidationError err))
  | None => sendMessage c (set_Sticker media (request to MessageTypeSticker))
  end.

(** *** Location messages *)

Definition location_request (to : string) (location : LocationContent) :=
  set_Location (Some location) (request to MessageTypeLocation).

Definition SendLocation (c : Client) (to : string)
  (location : option LocationContent) : M (result MessageResponse) :=
  match location with
  | None => invalid "location" "location content is required"
  | Some l =>
      if float64_is_zero (LocationContent_Latitude l)
         && float64_is_zero (LocationContent_Longitude l)
      then invalid "location" "latitude and longitude are required"
      else sendMessage c (location_request to l)
  end.

(** *** Contact messages *)

(** [fmt.Sprintf("%d", i)] for a slice index. *)
Definition itoa (i : nat) : string :=
  NilZero.string_of_uint (Nat.to_uint i).

(** The range loop of [SendContacts]: the first contact without a
    formatted name stops the function with an error naming its index. *)
Fixpoint checkContacts (i : nat) (contacts : list ContactContent)
  : option ValidationError :=
  match contacts with
  | [] => None
  | contact :: rest =>
      if ContactName_FormattedName (ContactContent_Name contact) =? ""
      then Some (NewValidationError "contacts"
                   ("contact " ++ itoa i ++ ": formatted_name is required")%string)
      else checkContacts (S i) rest
  end.

Definition SendContacts (c : Client) (to : string)
  (contacts : list ContactContent) : M (result MessageResponse) :=
  if (List.length contacts =? 0)%nat then
    invalid "contacts" "at least one contact is required"
  else
    match checkContacts 0 contacts with
    | Some err => ret (Err (IsValidationError err))
    | None => sendMessage c (set_Contacts contacts (request to MessageTypeContacts))
    end.

(** *** Reaction messages *)

Definition SendReaction (c : Client) (to messageID emoji : string)
  : M (result MessageResponse) :=
  if messageID =? "" then invalid "messageID" "message ID is required"
  else
    sendMessage c
      (set_Reaction (Some {| ReactionContent_MessageID := messageID;
                             ReactionContent_Emoji := emoji |})
         (request to MessageTypeReaction)).

Definition RemoveReaction (c : Client) (to messageID : string)
  : M (result MessageResponse) :=
  SendReaction c to messageID "".

(** *** Interactive messages *)

Record InteractiveOptions := {
  InteractiveOptions_Header : option InteractiveHeader;
  InteractiveOptions_Footer : string }.

(** The [if opts != nil { ... }] block of the three interactive
    constructors: a non-nil header and a non-empty footer are copied. *)
Definition applyOptions (opts : option InteractiveOptions)
  (interactive : InteractiveContent) : InteractiveContent :=
  match opts with
  | None => interactive
  | Some o =>
      {| InteractiveContent_Type := InteractiveContent_Type interactive;
         InteractiveContent_Header :=
           match InteractiveOptions_Header o with
           | Some hd => Some hd
           | None => InteractiveContent_Header interactive
           end;
         InteractiveContent_Body := InteractiveContent_Body interactive;
         InteractiveContent_Footer :=
           if InteractiveOptions_Footer o =? ""
           then InteractiveContent_Footer interactive
           else Some {| InteractiveFooter_Text := InteractiveOptions_Footer o |};
         InteractiveContent_Action := InteractiveContent_Action interactive |}
  end.

Definition interactive_request (to : string) (interactive : InteractiveContent) :=
  set_Interactive (Some interactive) (request to MessageTypeInteractive).

Definition buttons_request (to bodyText : string)
  (buttons : list InteractiveButton) (opts : option InteractiveOptions) :=
  interactive_request to (applyOptions opts {|
    InteractiveContent_Type := InteractiveTypeButton;
    InteractiveContent_Header := None;
    InteractiveContent_Body := {| InteractiveBody_Text := bodyText |};
    InteractiveContent_Footer := None;
    InteractiveContent_Action := {|
      InteractiveAction_Buttons := buttons;
      InteractiveAction_Button := "";
      InteractiveAction_Sections := [];
      InteractiveAction_Name := "";
      InteractiveAction_Parameters := None;
      InteractiveAction_CatalogID := "";
      InteractiveAction_ProductRetailerID := "" |} |}).

Definition SendInteractiveButtons (c : Client) (to bodyText : string)
  (buttons : list InteractiveButton) (opts : option InteractiveOptions)
  : M (result MessageResponse) :=
  if (List.length buttons =? 0)%nat then
    invalid "buttons" "at least one button is required"
  else if (3 <? List.length buttons)%nat then
    invalid "buttons" "maximum 3 buttons allowed"
  else sendMessage c (buttons_request to bodyText buttons opts).

Definition list_request (to bodyText buttonText : string)
  (sections : list InteractiveSection) (opts : option InteractiveOptions) :=
  interactive_request to (applyOptions opts {|
    InteractiveContent_Type := InteractiveTypeList;
    InteractiveContent_Header := None;
    InteractiveContent_Body := {| InteractiveBody_Text := bodyText |};
    InteractiveContent_Footer := None;
    InteractiveContent_Action := {|
      InteractiveAction_Buttons := [];
      InteractiveAction_Button := buttonText;
      InteractiveAction_Sections := sections;
      InteractiveAction_Name := "";
      InteractiveAction_Parameters := None;
      InteractiveAction_CatalogID := "";
      InteractiveAction_ProductRetailerID := "" |} |}).

Definition SendInteractiveList (c : Client) (to bodyText buttonText : string)
  (sections : list InteractiveSection) (opts : option InteractiveOptions)
  : M (result MessageResponse) :=
  if (List.length sections =? 0)%nat then
    invalid "sections" "at least one section is required"
  else if buttonText =? "" then
    invalid "buttonText" "button text is required"
  else sendMessage c (list_request to bodyText buttonText sections opts).

Definition SendCTAButton (c : Client) (to bodyText displayText url : string)
  (opts : option InteractiveOptions) : M (result MessageResponse) :=
  if displayText =? "" then invalid "displayText" "display text is required"
  else if url =? "" then invalid "url" "URL is required"
  else
    sendMessage c (interactive_request to (applyOptions opts {|
      InteractiveContent_Type := InteractiveTypeCTA;
      InteractiveContent_Header := None;
      InteractiveContent_Body := {| InteractiveBody_Text := bodyText |};
      InteractiveContent_Footer := None;
      InteractiveContent_Action := {|
        InteractiveAction_Buttons := [];
        InteractiveAction_Button := "";
        InteractiveAction_Sections := [];
        InteractiveAction_Name := "cta_url";
        InteractiveAction_Parameters :=
          Some {| CTAParameters_DisplayText := displayText;
                  CTAParameters_URL := url |};
        InteractiveAction_CatalogID := "";
        InteractiveAction_ProductRetailerID := "" |} |})).

(** *** Template messages *)

Definition SendTemplate (c : Client) (to : string)
  (template : option TemplateContent) : M (result MessageResponse) :=
  match template with
  | None => invalid "template" "template content is required"
  | Some t =>
      if TemplateContent_Name t =? "" then
        invalid "template.name" "template name is required"
      else if TemplateLanguage_Code (TemplateContent_Language t) =? "" then
        invalid "template.language.code" "language code is required"
      else sendMessage c (set_Template template (request to MessageTypeTemplate))
  end.

Definition SendSimpleTemplate (c : Client) (to templateName languageCode : string)
  : M (result MessageResponse) :=
  SendTemplate c to (Some {|
    TemplateContent_Name := templateName;
    TemplateContent_Language := {| TemplateLanguage_Code := languageCode |};
    TemplateContent_Components := [] |}).

(** *** The send operations as one interface

    One constructor per exported send method, carrying its arguments;
    [invoke] performs the call.  [SendMessage] is taken with a non-nil
    request. *)
Inductive SendCall :=
| CallSendText (to body : string) (previewURL : bool)
| CallSendTextReply (to body replyToMessageID : string)
| CallSendImage (to : string) (media : option MediaContent)
| CallSendVideo (to : string) (media : option MediaContent)
| CallSendAudio (to : string) (media : option MediaContent)
| CallSendDocument (to : string) (doc : option DocumentContent)
| CallSendSticker (to : string) (media : option MediaContent)
| CallSendLocation (to : string) (location : option LocationContent)
| CallSendContacts (to : string) (contacts : list ContactContent)
| CallSendReaction (to messageID emoji : string)
| CallRemoveReaction (to messageID : string)
| CallSendInteractiveButtons (to bodyText : string)
    (buttons : list InteractiveButton) (opts : option InteractiveOptions)
| CallSendInteractiveList (to bodyText buttonText : string)
    (sections : list InteractiveSection) (opts : option InteractiveOptions)
| CallSendCTAButton (to bodyText displayText url : string)
    (opts : option InteractiveOptions)
| CallSendTemplate (to : string) (template : option TemplateContent)
| CallSendSimpleTemplate (to templateName languageCode : string)
| CallSendMessage (req : MessageRequest).

Definition invoke (c : Client) (op : SendCall) : M (result MessageResponse) :=
  match op with
  | CallSendText to body previewURL => SendText c to body previewURL
  | CallSendTextReply to body r => SendTextReply c to body r
  | CallSendImage to media => SendImage c to media
  | CallSendVideo to media => SendVideo c to media
  | CallSendAudio to media => SendAudio c to media
  | CallSendDocument to doc => SendDocument c to doc
  | CallSendSticker to media => SendSticker c to media
  | CallSendLocation to location => SendLocation c to location
  | CallSendContacts to contacts => SendContacts c to contacts
  | CallSendReaction to messageID emoji => SendReaction c to messageID emoji
  | CallRemoveReaction to messageID => RemoveReaction c to messageID
  | CallSendInteractiveButtons to bodyText buttons opts =>
      SendInteractiveButtons c to bodyText buttons opts
  | CallSendInteractiveList to bodyText buttonText sections opts =>
      SendInteractiveList c to bodyText buttonText sections opts
  | CallSendCTAButton to bodyText displayText url opts =>
      SendCTAButton c to bodyText displayText url opts
  | CallSendTemplate to template => SendTemplate c to template
  | CallSendSimpleTemplate to n l => SendSimpleTemplate c to n l
  | CallSendMessage req => SendMessage c req
  end.

End Transport.

(** *** Construction *)

(** [New(cfg, opts...)]: the configuration is validated first.  The
    options only touch the HTTP client, which is the transport here. *)
Definition New (cfg : Config) : sum string Client :=
  match Validate cfg with
  | Some err => inl err
  | None => inr {| Client_config := cfg |}
  end.

(** *** HTTP methods and error parsing *)

(** The request bodies of the operations below: a Go map with string
    values, as its entries. *)
Inductive Body :=
| MapBody (entries : list (string * string)).

(** The body of an outgoing request: none, marshalled JSON, or the
    parts of a multipart form in the order written. *)
Inductive FormPart :=
| FormField (name value : string)
| FormFile (fieldname filename : string) (data : list byte).

Inductive RequestBody :=
| NoBody
| JSONBody (jsonBody : list byte)
| MultipartBody (parts : list FormPart).

Record HTTPRequest := {
  HTTPRequest_Method : string;
  HTTPRequest_URL : string;
  HTTPRequest_Header : list (string * string);
  HTTPRequest_Body : RequestBody }.

(** A response: its status, and what [io.ReadAll(resp.Body)] returns,
    the bytes read and the read error if there was one. *)
Record HTTPResponse := {
  HTTPResponse_StatusCode : Z;
  HTTPResponse_Body : list byte * option string }.

(** The anonymous struct of [ErrorResponse.Error]. *)
Record ErrorResponse := {
  ErrorResponse_Message : string;
  ErrorResponse_Type : string;
  ErrorResponse_Code : Z;
  ErrorResponse_ErrorSubcode : Z;
  ErrorResponse_FBTraceID : string;
  ErrorResponse_ErrorData : option ErrorData }.

(** An opened file: what [file.Stat()] gives ([fileInfo.Name()], or an
    error) and what reading the file to its end gives. *)
Record File := {
  File_Stat : sum string string;
  File_Content : sum string (list byte) }.

(** What the client's code cannot decide by itself.  [json_Marshal] and
    the [json_Unmarshal_] fields are encoding/json at the types used
    ([inl] carries the error text); [newRequestError] is the error of
    [http.NewRequestWithContext] for a method and URL, if any;
    [roundTrip] is [httpClient.Do], which may depend on the requests
    made before; [formDataContentType] is the content type of the
    multipart writer, with its boundary; [os_Open] is [os.Open]. *)
Record Env := {
  json_Marshal : Body -> sum string (list byte);
  newRequestError : string -> string -> option string;
  roundTrip : list HTTPRequest -> HTTPRequest -> sum string HTTPResponse;
  formDataContentType : string;
  os_Open : string -> sum string File;
  json_Unmarshal_ErrorResponse : list byte -> option ErrorResponse;
  json_Unmarshal_MediaUploadResponse : list byte -> sum string MediaUploadResponse;
  json_Unmarshal_MediaURLResponse : list byte -> sum string MediaURLResponse;
  json_Unmarshal_Success : list byte -> sum string bool;
  json_Unmarshal_BusinessProfileResponse :
    list byte -> sum string BusinessProfileResponse;
  json_Unmarshal_PhoneNumber : list byte -> sum string PhoneNumber;
  json_Unmarshal_TemplatesResponse : list byte -> sum string TemplatesResponse }.

(** Computations over the log of the requests given to
    [httpClient.Do], oldest first. *)
Definition R (A : Type) : Type := list HTTPRequest -> A * list HTTPRequest.

Definition parseError (env : Env) (body : list byte) (statusCode : Z) : APIError :=
  match json_Unmarshal_ErrorResponse env body with
  | None =>
      {| APIError_Code := statusCode;
         APIError_Message := string_of_list_byte body;
         APIError_Type := "";
         APIError_ErrorSubcode := 0;
         APIError_FBTraceID := "";
         APIError_ErrorData := None;
         APIError_HTTPStatusCode := statusCode |}
  | Some errResp =>
      {| APIError_Code := ErrorResponse_Code errResp;
         APIError_Message := ErrorResponse_Message errResp;
         APIError_Type := ErrorResponse_Type errResp;
         APIError_ErrorSubcode := ErrorResponse_ErrorSubcode errResp;
         APIError_FBTraceID := ErrorResponse_FBTraceID errResp;
         APIError_ErrorData :=
           match ErrorResponse_ErrorData errResp with
           | Some d =>
               Some {| ErrorData_MessagingProduct := ErrorData_MessagingProduct d;
                       ErrorData_Details := ErrorData_Details d |}
           | None => None
           end;
         APIError_HTTPStatusCode := statusCode |}
  end.

(** [req.Header.Set("Authorization", "Bearer "+c.config.AccessToken)] *)
Definition bearer (c : Client) : string * string :=
  ("Authorization", ("Bearer " ++ AccessToken (Client_config c))%string).

(** The first block of [doRequest]: the body is marshalled if there is
    one. *)
Definition bodyReader (env : Env) (body : option Body) : sum string RequestBody :=
  match body with
  | Some b =>
      match json_Marshal env b with
      | inl err => inl err
      | inr jsonBody => inr (JSONBody jsonBody)
      end
  | None => inr NoBody
  end.

(** [doRequest]: marshal the body if there is one, create the request,
    set the bearer token and the JSON content type, send. *)
Definition doRequest (env : Env) (c : Client) (method url : string)
  (body : option Body) : R (result HTTPResponse) :=
  fun log =>
    match bodyReader env body with
    | inl err =>
        (Err (Errorf ("failed to marshal request body: " ++ err)%string), log)
    | inr bodyReader =>
        match newRequestError env method url with
        | Some err =>
            (Err (Errorf ("failed to create request: " ++ err)%string), log)
        | None =>
            let req := {| HTTPRequest_Method := method;
                          HTTPRequest_URL := url;
                          HTTPRequest_Header :=
                            [bearer c; ("Content-Type", "application/json")];
                          HTTPRequest_Body := bodyReader |} in
            (match roundTrip env log req with
             | inl err => Err (Errorf err)
             | inr resp => Ok resp
             end, log ++ [req])
        end
    end.

Definition doRequestRaw (env : Env) (c : Client) (method url : string)
  (body : option Body) : R (result (list byte)) :=
  fun log =>
    match doRequest env c method url body log with
    | (Err err, log') => (Err err, log')
    | (Ok resp, log') =>
        match HTTPResponse_Body resp with
        | (_, Some err) =>
            (Err (Errorf ("failed to read response body: " ++ err)%string), log')
        | (respBody, None) =>
            if (400 <=? HTTPResponse_StatusCode resp)%Z
            then (Err (IsAPIError
                         (parseError env respBody (HTTPResponse_StatusCode resp))),
                  log')
            else (Ok respBody, log')
        end
    end.

(** [doRequestJSON]: [decode] is [json.Unmarshal] into the result the
    caller passed, [None] when the caller passed nil; the value is what
    was stored through the pointer, if anything. *)
Definition doRequestJSON {T} (env : Env) (c : Client) (method url : string)
  (body : option Body) (decode : option (list byte -> sum string T))
  : R (result (option T)) :=
  fun log =>
    match doRequestRaw env c method url body log with
    | (Err err, log') => (Err err, log')
    | (Ok respBody, log') =>
        match decode with
        | None => (Ok None, log')
        | Some unmarshal =>
            match unmarshal respBody with
            | inr v => (Ok (Some v), log')
            | inl err =>
                (Err (Errorf ("failed to unmarshal response: " ++ err)%string),
                 log')
            end
        end
    end.

Definition Get {T} (env : Env) (c : Client) (url : string)
  (decode : option (list byte -> sum string T)) : R (result (option T)) :=
  doRequestJSON env c "GET" url None decode.

(** [Post] with the request issued through [doRequestJSON]. *)
Definition PostJSON {T} (env : Env) (c : Client) (url : string) (body : Body)
  (decode : option (list byte -> sum string T)) : R (result (option T)) :=
  doRequestJSON env c "POST" url (Some body) decode.

Definition Delete {T} (env : Env) (c : Client) (url : string)
  (decode : option (list byte -> sum string T)) : R (result (option T)) :=
  doRequestJSON env c "DELETE" url None decode.

(** The variable a caller declares with [var result T] and passes by
    pointer: [zero] unless the call stored a decoded value. *)
Definition stored {T} (zero : T) (decoded : option T) : T :=
  match decoded with
  | Some v => v
  | None => zero
  end.

(** *** Media operations *)

Definition ImageMIMETypes : list (string * string) :=
  [(".jpg", "image/jpeg");
   (".jpeg", "image/jpeg");
   (".png", "image/png");
   (".webp", "image/webp")].

Definition DocumentMIMETypes : list (string * string) :=
  [(".pdf", "application/pdf");
   (".doc", "application/msword");
   (".docx", "application/vnd.openxmlformats-officedocument.wordprocessingml.document");
   (".ppt", "application/vnd.ms-powerpoint");
   (".pptx", "application/vnd.openxmlformats-officedocument.presentationml.presentation");
   (".xls", "application/vnd.ms-excel");
   (".xlsx", "application/vnd.openxmlformats-officedocument.spreadsheetml.sheet");
   (".txt", "text/plain")].

Definition AudioMIMETypes : list (string * string) :=
  [(".aac", "audio/aac");
   (".mp3", "audio/mpeg");
   (".m4a", "audio/mp4");
   (".amr", "audio/amr");
   (".ogg", "audio/ogg");
   (".opus", "audio/opus")].

Definition VideoMIMETypes : list (string * string) :=
  [(".mp4", "video/mp4");
   (".3gp", "video/3gpp");
   (".3gpp", "video/3gpp")].

Definition StickerMIMETypes : list (string * string) :=
  [(".webp", "image/webp")].

(** [mt, ok := m[key]] on a map literal, whose keys are distinct. *)
Fixpoint index (m : list (string * string)) (key : string) : option string :=
  match m with
  | [] => None
  | (k, v) :: rest => if k =? key then Some v else index rest key
  end.

(** [for _, mt := range m { if mt == value { ... } }] finds a value. *)
Definition hasValue (m : list (string * string)) (value : string) : bool :=
  existsb (fun kv => snd kv =? value) m.

Definition detectMIMEType (ext : string) : string :=
  match index ImageMIMETypes ext with
  | Some mt => mt
  | None =>
  match index DocumentMIMETypes ext with
  | Some mt => mt
  | None =>
  match index AudioMIMETypes ext with
  | Some mt => mt
  | None =>
  match index VideoMIMETypes ext with
  | Some mt => mt
  | None =>
  match index StickerMIMETypes ext with
  | Some mt => mt
  | None => ""
  end end end end end.

Definition GetMediaTypeFromMIME (mimeType : string) : MessageType :=
  if hasValue ImageMIMETypes mimeType then MessageTypeImage
  else if hasValue DocumentMIMETypes mimeType then MessageTypeDocument
  else if hasValue AudioMIMETypes mimeType then MessageTypeAudio
  else if hasValue VideoMIMETypes mimeType then MessageTypeVideo
  else "".

Definition invalidR {A} (field message : string) : R (result A) :=
  fun log => (Err (IsValidationError (NewValidationError field message)), log).

(** [UploadMediaReader]: [reader] is nil ([None]) or a reader that
    yields its data or fails.  Writing the form into the in-memory
    buffer does not fail. *)
Definition UploadMediaReader (env : Env) (c : Client)
  (reader : option (sum string (list byte))) (filename mimeType : string)
  : R (result MediaUploadResponse) :=
  match reader with
  | None => invalidR "reader" "reader is required"
  | Some content =>
      if mimeType =? "" then invalidR "mimeType" "MIME type is required"
      else
        fun log =>
          match content with
          | inl err =>
              (Err (Errorf ("failed to copy file data: " ++ err)%string), log)
          | inr data =>
              let url := config.GetMediaURL (Client_config c) in
              match newRequestError env "POST" url with
              | Some err =>
                  (Err (Errorf ("failed to create request: " ++ err)%string), log)
              | None =>
                  let req := {|
                    HTTPRequest_Method := "POST";
                    HTTPRequest_URL := url;
                    HTTPRequest_Header :=
                      [bearer c; ("Content-Type", formDataContentType env)];
                    HTTPRequest_Body :=
                      MultipartBody
                        [FormField "messaging_product" MessagingProduct;
                         FormFile "file" filename data;
                         FormField "type" mimeType] |} in
                  (match roundTrip env log req with
                   | inl err =>
                       Err (Errorf ("failed to execute request: " ++ err)%string)
                   | inr resp =>
                       match HTTPResponse_Body resp with
                       | (_, Some err) =>
                           Err (Errorf ("failed to read response: " ++ err)%string)
                       | (respBody, None) =>
                           if (400 <=? HTTPResponse_StatusCode resp)%Z
                           then Err (IsAPIError
                                  (parseError env respBody
                                     (HTTPResponse_StatusCode resp)))
                           else
                             match json_Unmarshal_MediaUploadResponse env respBody with
                             | inl err =>
                                 Err (Errorf
                                   ("failed to unmarshal response: " ++ err)%string)
                             | inr v => Ok v
                             end
                       end
                   end, log ++ [req])
              end
          end
  end.

Definition UploadMedia (env : Env) (c : Client) (filePath : string)
  : R (result MediaUploadResponse) :=
  match os_Open env filePath with
  | inl err =>
      fun log => (Err (Errorf ("failed to open file: " ++ err)%string), log)
  | inr file =>
      match File_Stat file with
      | inl err =>
          fun log => (Err (Errorf ("failed to get file info: " ++ err)%string), log)
      | inr name =>
          let ext := filepath.Ext filePath in
          let mimeType := detectMIMEType ext in
          if mimeType =? "" then
            invalidR "file" ("unsupported file type: " ++ ext)%string
          else
            UploadMediaReader env c (Some (File_Content file)) name mimeType
      end
  end.

Definition UploadMediaBytes (env : Env) (c : Client) (data : list byte)
  (filename mimeType : string) : R (result MediaUploadResponse) :=
  UploadMediaReader env c (Some (inr data)) filename mimeType.

Definition GetMediaURL (env : Env) (c : Client) (mediaID : string)
  : R (result MediaURLResponse) :=
  if mediaID =? "" then invalidR "mediaID" "media ID is required"
  else
    fun log =>
      let url := (GetAPIURL (Client_config c) ++ "/" ++ mediaID)%string in
      match Get env c url (Some (json_Unmarshal_MediaURLResponse env)) log with
      | (Err err, log') => (Err err, log')
      | (Ok decoded, log') =>
          (Ok (stored {| MediaURLResponse_URL := "";
                         MediaURLResponse_MimeType := "";
                         MediaURLResponse_SHA256 := "";
                         MediaURLResponse_FileSize := 0;
                         MediaURLResponse_ID := "";
                         MediaURLResponse_MessagingProduct := "" |} decoded),
           log')
      end.

(** [DownloadMedia] returns the bytes and the error of its last
    [io.ReadAll] as they are; the slice is nil ([[]]) on the other
    error paths. *)
Definition DownloadMedia (env : Env) (c : Client) (mediaURL : string)
  : R (list byte * option error) :=
  fun log =>
    if mediaURL =? "" then
      (([], Some (IsValidationError
                    (NewValidationError "mediaURL" "media URL is required"))),
       log)
    else
      match newRequestError env "GET" mediaURL with
      | Some err =>
          (([], Some (Errorf ("failed to create request: " ++ err)%string)), log)
      | None =>
          let req := {| HTTPRequest_Method := "GET";
                        HTTPRequest_URL := mediaURL;
                        HTTPRequest_Header := [bearer c];
                        HTTPRequest_Body := NoBody |} in
          (match roundTrip env log req with
           | inl err =>
               ([], Some (Errorf ("failed to execute request: " ++ err)%string))
           | inr resp =>
               if (400 <=? HTTPResponse_StatusCode resp)%Z
               then ([], Some (IsAPIError
                                 (parseError env (fst (HTTPResponse_Body resp))
                                    (HTTPResponse_StatusCode resp))))
               else
                 match HTTPResponse_Body resp with
                 | (data, Some err) => (data, Some (Errorf err))
                 | (data, None) => (data, None)
                 end
           end, log ++ [req])
      end.

(** [DownloadMediaByID] returns the data and the MIME type, or an
    error. *)
Definition DownloadMediaByID (env : Env) (c : Client) (mediaID : string)
  : R (result (list byte * string)) :=
  fun log =>
    match GetMediaURL env c mediaID log with
    | (Err err, log') => (Err err, log')
    | (Ok mediaInfo, log') =>
        match DownloadMedia env c (MediaURLResponse_URL mediaInfo) log' with
        | ((_, Some err), log'') => (Err err, log'')
        | ((data, None), log'') =>
            (Ok (data, MediaURLResponse_MimeType mediaInfo), log'')
        end
    end.

(** [DeleteMedia] returns an [error]: [None] is nil. *)
Definition DeleteMedia (env : Env) (c : Client) (mediaID : string)
  : R (option error) :=
  fun log =>
    if mediaID =? "" then
      (Some (IsValidationError
               (NewValidationError "mediaID" "media ID is required")), log)
    else
      let url := (GetAPIURL (Client_config c) ++ "/" ++ mediaID)%string in
      match Delete env c url (Some (json_Unmarshal_Success env)) log with
      | (Err err, log') => (Some err, log')
      | (Ok decoded, log') =>
          if negb (stored false decoded)
          then (Some (Errorf "failed to delete media: API returned success=false"),
                log')
          else (None, log')
      end.

(** *** Business profile, phone numbers, templates *)

(** The loop of [GetBusinessProfile] that appends the field names,
    separated by commas, to the URL. *)
Fixpoint appendFields (i : nat) (fields : list string) (url : string) : string :=
  match fields with
  | [] => url
  | field :: rest =>
      let url := if (0 <? i)%nat then (url ++ ",")%string else url in
      appendFields (S i) rest (url ++ field)%string
  end.

Definition GetBusinessProfile (env : Env) (c : Client) (fields : list string)
  : R (result BusinessProfile) :=
  fun log =>
    let url := GetBusinessProfileURL (Client_config c) in
    let url :=
      if (0 <? List.length fields)%nat
      then appendFields 0 fields (url ++ "?fields=")%string
      else (url ++ "?fields=about,address,description,email,profile_picture_url,websites,vertical")%string in
    match Get env c url (Some (json_Unmarshal_BusinessProfileResponse env)) log with
    | (Err err, log') => (Err err, log')
    | (Ok decoded, log') =>
        match BusinessProfileResponse_Data
                (stored {| BusinessProfileResponse_Data := [] |} decoded) with
        | [] => (Err (Errorf "no business profile data returned"), log')
        | profile :: _ => (Ok profile, log')
        end
    end.

Definition GetPhoneNumber (env : Env) (c : Client) (phoneNumberID : string)
  : R (result PhoneNumber) :=
  fun log =>
    let phoneNumberID :=
      if phoneNumberID =? "" then PhoneNumberID (Client_config c)
      else phoneNumberID in
    let url := (GetAPIURL (Client_config c) ++ "/" ++ phoneNumberID)%string in
    match Get env c url (Some (json_Unmarshal_PhoneNumber env)) log with
    | (Err err, log') => (Err err, log')
    | (Ok decoded, log') =>
        (Ok (stored {| PhoneNumber_ID := "";
                       PhoneNumber_DisplayPhoneNumber := "";
                       PhoneNumber_VerifiedName := "";
                       PhoneNumber_QualityRating := "";
                       PhoneNumber_CodeVerificationStatus := "" |} decoded),
         log')
    end.

Definition GetTemplates (env : Env) (c : Client) : R (result TemplatesResponse) :=
  fun log =>
    if BusinessAccountID (Client_config c) =? "" then
      (Err (Errorf "BusinessAccountID is required for this operation"), log)
    else
      let url := (GetAPIURL (Client_config c) ++ "/"
                  ++ BusinessAccountID (Client_config c)
                  ++ "/message_templates")%string in
      match Get env c url (Some (json_Unmarshal_TemplatesResponse env)) log with
      | (Err err, log') => (Err err, log')
      | (Ok decoded, log') =>
          (Ok (stored {| TemplatesResponse_Data := [];
                         TemplatesResponse_Paging := None |} decoded),
           log')
      end.

(** The range loop of [GetTemplate]: the first template of that name. *)
Fixpoint findTemplate (templates : list Template) (templateName : string)
  : option Template :=
  match templates with
  | [] => None
  | t :: rest =>
      if Template_Name t =? templateName then Some t
      else findTemplate rest templateName
  end.

Definition GetTemplate (env : Env) (c : Client) (templateName : string)
  : R (result Template) :=
  fun log =>
    match GetTemplates env c log with
    | (Err err, log') => (Err err, log')
    | (Ok templates, log') =>
        match findTemplate (TemplatesResponse_Data templates) templateName with
        | Some t => (Ok t, log')
        | None =>
            (Err (Errorf ("template '" ++ templateName ++ "' not found")%string),
             log')
        end
    end.

Definition DeleteTemplate (env : Env) (c : Client) (templateName : string)
  : R (option error) :=
  fun log =>
    if BusinessAccountID (Client_config c) =? "" then
      (Some (Errorf "BusinessAccountID is required for this operation"), log)
    else
      let url := (GetAPIURL (Client_config c) ++ "/"
                  ++ BusinessAccountID (Client_config c)
                  ++ "/message_templates?name=" ++ templateName)%string in
      match Delete env c url (Some (json_Unmarshal_Success env)) log with
      | (Err err, log') => (Some err, log')
      | (Ok decoded, log') =>
          if negb (stored false decoded)
          then (Some (Errorf "failed to delete template"), log')
          else (None, log')
      end.

Definition SetTwoStepVerificationPin (env : Env) (c : Client) (pin : string)
  : R (option error) :=
  fun log =>
    if negb (String.length pin =? 6)%nat then
      (Some (Errorf "PIN must be exactly 6 digits"), log)
    else
      let url := (GetAPIURL (Client_config c) ++ "/"
                  ++ PhoneNumberID (Client_config c))%string in
      let body := MapBody [("pin", pin)] in
      match PostJSON env c url body (Some (json_Unmarshal_Success env)) log with
      | (Err err, log') => (Some err, log')
      | (Ok decoded, log') =>
          if negb (stored false decoded)
          then (Some (Errorf "failed to set two-step verification PIN"), log')
          else (None, log')
      end.

Definition MarkMessageAsRead (env : Env) (c : Client) (messageID : string)
  : R (option error) :=
  fun log =>
    if messageID =? "" then (Some (Errorf "messageID is required"), log)
    else
      let url := GetMessagesURL (Client_config c) in
      let body := MapBody [("messaging_product", MessagingProduct);
                           ("status", "read");
                           ("message_id", messageID)] in
      match PostJSON env c url body (Some (json_Unmarshal_Success env)) log with
      | (Err err, log') => (Some err, log')
      | (Ok decoded, log') =>
          if negb (stored false decoded)
          then (Some (Errorf "failed to mark message as read"), log')
          else (None, log')
      end.

End client.

(* ===================================================================== *)
(** ** Package builders                                                    *)
(* ===================================================================== *)

(** A builder method changes the builder it is called on and returns
    it; here it maps the builder's fields to their new values, and a
    chain of calls is a composition. *)

Module builders.
Import models.

(** *** Text message builder *)

Record TextMessageBuilder := {
  TextMessageBuilder_to : string;
  TextMessageBuilder_body : string;
  TextMessageBuilder_previewURL : bool;
  TextMessageBuilder_replyTo : string }.

Definition NewTextMessage (to : string) : TextMessageBuilder := {|
  TextMessageBuilder_to := to;
  TextMessageBuilder_body := "";
  TextMessageBuilder_previewURL := false;
  TextMessageBuilder_replyTo := "" |}.

Definition TextMessageBuilder_Body (b : TextMessageBuilder) (body : string) := {|
  TextMessageBuilder_to := TextMessageBuilder_to b;
  TextMessageBuilder_body := body;
  TextMessageBuilder_previewURL := TextMessageBuilder_previewURL b;
  TextMessageBuilder_replyTo := TextMessageBuilder_replyTo b |}.

Definition TextMessageBuilder_PreviewURL (b : TextMessageBuilder) (enable : bool) := {|
  TextMessageBuilder_to := TextMessageBuilder_to b;
  TextMessageBuilder_body := TextMessageBuilder_body b;
  TextMessageBuilder_previewURL := enable;
  TextMessageBuilder_replyTo := TextMessageBuilder_replyTo b |}.

Definition TextMessageBuilder_ReplyTo (b : TextMessageBuilder) (messageID : string) := {|
  TextMessageBuilder_to := TextMessageBuilder_to b;
  TextMessageBuilder_body := TextMessageBuilder_body b;
  TextMessageBuilder_previewURL := TextMessageBuilder_previewURL b;
  TextMessageBuilder_replyTo := messageID |}.

Definition TextMessageBuilder_Build (b : TextMessageBuilder) : MessageRequest := {|
  MessageRequest_MessagingProduct := MessagingProduct;
  MessageRequest_RecipientType := "individual";
  MessageRequest_To := TextMessageBuilder_to b;
  MessageRequest_Type := MessageTypeText;
  MessageRequest_Context :=
    if negb (TextMessageBuilder_replyTo b =? "")
    then Some {| Context_MessageID := TextMessageBuilder_replyTo b |}
    else None;
  MessageRequest_Text :=
    Some {| TextContent_Body := TextMessageBuilder_body b;
            TextContent_PreviewURL := TextMessageBuilder_previewURL b |};
  MessageRequest_Image := None;
  MessageRequest_Audio := None;
  MessageRequest_Video := None;
  MessageRequest_Document := None;
  MessageRequest_Sticker := None;
  MessageRequest_Location := None;
  MessageRequest_Contacts := [];
  MessageRequest_Interactive := None;
  MessageRequest_Template := None;
  MessageRequest_Reaction := None |}.

(** *** Interactive button builder *)

Record ButtonMessageBuilder := {
  ButtonMessageBuilder_to : string;
  ButtonMessageBuilder_body : string;
  ButtonMessageBuilder_header : option InteractiveHeader;
  ButtonMessageBuilder_footer : string;
  ButtonMessageBuilder_buttons : list InteractiveButton }.

Definition NewButtonMessage (to : string) : ButtonMessageBuilder := {|
  ButtonMessageBuilder_to := to;
  ButtonMessageBuilder_body := "";
  ButtonMessageBuilder_header := None;
  ButtonMessageBuilder_footer := "";
  ButtonMessageBuilder_buttons := [] |}.

Definition ButtonMessageBuilder_Body (b : ButtonMessageBuilder) (body : string) := {|
  ButtonMessageBuilder_to := ButtonMessageBuilder_to b;
  ButtonMessageBuilder_body := body;
  ButtonMessageBuilder_header := ButtonMessageBuilder_header b;
  ButtonMessageBuilder_footer := ButtonMessageBuilder_footer b;
  ButtonMessageBuilder_buttons := ButtonMessageBuilder_buttons b |}.

Definition ButtonMessageBuilder_Header (b : ButtonMessageBuilder) (text : string) := {|
  ButtonMessageBuilder_to := ButtonMessageBuilder_to b;
  ButtonMessageBuilder_body := ButtonMessageBuilder_body b;
  ButtonMessageBuilder_header :=
    Some {| InteractiveHeader_Type := "text";
            InteractiveHeader_Text := text;
            InteractiveHeader_Image := None;
            InteractiveHeader_Video := None;
            InteractiveHeader_Document := None |};
  ButtonMessageBuilder_footer := ButtonMessageBuilder_footer b;
  ButtonMessageBuilder_buttons := ButtonMessageBuilder_buttons b |}.

Definition ButtonMessageBuilder_HeaderImage (b : ButtonMessageBuilder)
  (mediaID : string) := {|
  ButtonMessageBuilder_to := ButtonMessageBuilder_to b;
  ButtonMessageBuilder_body := ButtonMessageBuilder_body b;
  ButtonMessageBuilder_header :=
    Some {| InteractiveHeader_Type := "image";
            InteractiveHeader_Text := "";
            InteractiveHeader_Image :=
              Some {| MediaContent_ID := mediaID;
                      MediaContent_Link := "";
                      MediaContent_Caption := "" |};
            InteractiveHeader_Video := None;
            InteractiveHeader_Document := None |};
  ButtonMessageBuilder_footer := ButtonMessageBuilder_footer b;
  ButtonMessageBuilder_buttons := ButtonMessageBuilder_buttons b |}.

Definition ButtonMessageBuilder_Footer (b : ButtonMessageBuilder) (footer : string) := {|
  ButtonMessageBuilder_to := ButtonMessageBuilder_to b;
  ButtonMessageBuilder_body := ButtonMessageBuilder_body b;
  ButtonMessageBuilder_header := ButtonMessageBuilder_header b;
  ButtonMessageBuilder_footer := footer;
  ButtonMessageBuilder_buttons := ButtonMessageBuilder_buttons b |}.

(** AddButton adds a reply button (max 3). *)
Definition ButtonMessageBuilder_AddButton (b : ButtonMessageBuilder)
  (id title : string) : ButtonMessageBuilder :=
  if (List.length (ButtonMessageBuilder_buttons b) <? 3)%nat then
    {| ButtonMessageBuilder_to := ButtonMessageBuilder_to b;
       ButtonMessageBuilder_body := ButtonMessageBuilder_body b;
       ButtonMessageBuilder_header := ButtonMessageBuilder_header b;
       ButtonMessageBuilder_footer := ButtonMessageBuilder_footer b;
       ButtonMessageBuilder_buttons :=
         ButtonMessageBuilder_buttons b
         ++ [{| InteractiveButton_Type := "reply";
                InteractiveButton_Reply :=
                  {| InteractiveReply_ID := id;
                     InteractiveReply_Title := title |} |}] |}
  else b.

Definition ButtonMessageBuilder_Build (b : ButtonMessageBuilder) : MessageRequest :=
  let interactive := {|
    InteractiveContent_Type := InteractiveTypeButton;
    InteractiveContent_Header :=
      match ButtonMessageBuilder_header b with
      | Some header => Some header
      | None => None
      end;
    InteractiveContent_Body :=
      {| InteractiveBody_Text := ButtonMessageBuilder_body b |};
    InteractiveContent_Footer :=
      if negb (ButtonMessageBuilder_footer b =? "")
      then Some {| InteractiveFooter_Text := ButtonMessageBuilder_footer b |}
      else None;
    InteractiveContent_Action := {|
      InteractiveAction_Buttons := ButtonMessageBuilder_buttons b;
      InteractiveAction_Button := "";
      InteractiveAction_Sections := [];
      InteractiveAction_Name := "";
      InteractiveAction_Parameters := None;
      InteractiveAction_CatalogID := "";
      InteractiveAction_ProductRetailerID := "" |} |} in
  {| MessageRequest_MessagingProduct := MessagingProduct;
     MessageRequest_RecipientType := "individual";
     MessageRequest_To := ButtonMessageBuilder_to b;
     MessageRequest_Type := MessageTypeInteractive;
     MessageRequest_Context := None;
     MessageRequest_Text := None;
     MessageRequest_Image := None;
     MessageRequest_Audio := None;
     MessageRequest_Video := None;
     MessageRequest_Document := None;
     MessageRequest_Sticker := None;
     MessageRequest_Location := None;
     MessageRequest_Contacts := [];
     MessageRequest_Interactive := Some interactive;
     MessageRequest_Template := None;
     MessageRequest_Reaction := None |}.

(** *** Interactive list builder *)

Record ListMessageBuilder := {
  ListMessageBuilder_to : string;
  ListMessageBuilder_body : string;
  ListMessageBuilder_header : option InteractiveHeader;
  ListMessageBuilder_footer : string;
  ListMessageBuilder_buttonText : string;
  ListMessageBuilder_sections : list InteractiveSection }.

Definition NewListMessage (to : string) : ListMessageBuilder := {|
  ListMessageBuilder_to := to;
  ListMessageBuilder_body := "";
  ListMessageBuilder_header := None;
  ListMessageBuilder_footer := "";
  ListMessageBuilder_buttonText := "";
  ListMessageBuilder_sections := [] |}.

Definition ListMessageBuilder_Body (b : ListMessageBuilder) (body : string) := {|
  ListMessageBuilder_to := ListMessageBuilder_to b;
  ListMessageBuilder_body := body;
  ListMessageBuilder_header := ListMessageBuilder_header b;
  ListMessageBuilder_footer := ListMessageBuilder_footer b;
  ListMessageBuilder_buttonText := ListMessageBuilder_buttonText b;
  ListMessageBuilder_sections := ListMessageBuilder_sections b |}.

Definition ListMessageBuilder_Header (b : ListMessageBuilder) (text : string) := {|
  ListMessageBuilder_to := ListMessageBuilder_to b;
  ListMessageBuilder_body := ListMessageBuilder_body b;
  ListMessageBuilder_header :=
    Some {| InteractiveHeader_Type := "text";
            InteractiveHeader_Text := text;
            InteractiveHeader_Image := None;
            InteractiveHeader_Video := None;
            InteractiveHeader_Document := None |};
  ListMessageBuilder_footer := ListMessageBuilder_footer b;
  ListMessageBuilder_buttonText := ListMessageBuilder_buttonText b;
  ListMessageBuilder_sections := ListMessageBuilder_sections b |}.

Definition ListMessageBuilder_Footer (b : ListMessageBuilder) (footer : string) := {|
  ListMessageBuilder_to := ListMessageBuilder_to b;
  ListMessageBuilder_body := ListMessageBuilder_body b;
  ListMessageBuilder_header := ListMessageBuilder_header b;
  ListMessageBuilder_footer := footer;
  ListMessageBuilder_buttonText := ListMessageBuilder_buttonText b;
  ListMessageBuilder_sections := ListMessageBuilder_sections b |}.

Definition ListMessageBuilder_ButtonText (b : ListMessageBuilder) (text : string) := {|
  ListMessageBuilder_to := ListMessageBuilder_to b;
  ListMessageBuilder_body := ListMessageBuilder_body b;
  ListMessageBuilder_header := ListMessageBuilder_header b;
  ListMessageBuilder_footer := ListMessageBuilder_footer b;
  ListMessageBuilder_buttonText := text;
  ListMessageBuilder_sections := ListMessageBuilder_sections b |}.

Definition ListMessageBuilder_AddSection (b : ListMessageBuilder) (title : string)
  (rows : list InteractiveRow) := {|
  ListMessageBuilder_to := ListMessageBuilder_to b;
  ListMessageBuilder_body := ListMessageBuilder_body b;
  ListMessageBuilder_header := ListMessageBuilder_header b;
  ListMessageBuilder_footer := ListMessageBuilder_footer b;
  ListMessageBuilder_buttonText := ListMessageBuilder_buttonText b;
  ListMessageBuilder_sections :=
    ListMessageBuilder_sections b
    ++ [{| InteractiveSection_Title := title;
           InteractiveSection_Rows := rows |}] |}.

Definition ListMessageBuilder_Build (b : ListMessageBuilder) : MessageRequest :=
  let interactive := {|
    InteractiveContent_Type := InteractiveTypeList;
    InteractiveContent_Header :=
      match ListMessageBuilder_header b with
      | Some header => Some header
      | None => None
      end;
    InteractiveContent_Body :=
      {| InteractiveBody_Text := ListMessageBuilder_body b |};
    InteractiveContent_Footer :=
      if negb (ListMessageBuilder_footer b =? "")
      then Some {| InteractiveFooter_Text := ListMessageBuilder_footer b |}
      else None;
    InteractiveContent_Action := {|
      InteractiveAction_Buttons := [];
      InteractiveAction_Button := ListMessageBuilder_buttonText b;
      InteractiveAction_Sections := ListMessageBuilder_sections b;
      InteractiveAction_Name := "";
      InteractiveAction_Parameters := None;
      InteractiveAction_CatalogID := "";
      InteractiveAction_ProductRetailerID := "" |} |} in
  {| MessageRequest_MessagingProduct := MessagingProduct;
     MessageRequest_RecipientType := "individual";
     MessageRequest_To := ListMessageBuilder_to b;
     MessageRequest_Type := MessageTypeInteractive;
     MessageRequest_Context := None;
     MessageRequest_Text := None;
     MessageRequest_Image := None;
     MessageRequest_Audio := None;
     MessageRequest_Video := None;
     MessageRequest_Document := None;
     MessageRequest_Sticker := None;
     MessageRequest_Location := None;
     MessageRequest_Contacts := [];
     MessageRequest_Interactive := Some interactive;
     MessageRequest_Template := None;
     MessageRequest_Reaction := None |}.

Definition Row (id title description : string) : InteractiveRow := {|
  InteractiveRow_ID := id;
  InteractiveRow_Title := title;
  InteractiveRow_Description := description |}.

(** *** Template message builder *)

Record TemplateMessageBuilder := {
  TemplateMessageBuilder_to : string;
  TemplateMessageBuilder_templateName : string;
  TemplateMessageBuilder_languageCode : string;
  TemplateMessageBuilder_components : list TemplateComponent }.

Definition NewTemplateMessage (to templateName languageCode : string)
  : TemplateMessageBuilder := {|
  TemplateMessageBuilder_to := to;
  TemplateMessageBuilder_templateName := templateName;
  TemplateMessageBuilder_languageCode := languageCode;
  TemplateMessageBuilder_components := [] |}.

(** [b.components = append(b.components, component)] *)
Definition appendComponent (b : TemplateMessageBuilder)
  (component : TemplateComponent) : TemplateMessageBuilder := {|
  TemplateMessageBuilder_to := TemplateMessageBuilder_to b;
  TemplateMessageBuilder_templateName := TemplateMessageBuilder_templateName b;
  TemplateMessageBuilder_languageCode := TemplateMessageBuilder_languageCode b;
  TemplateMessageBuilder_components :=
    TemplateMessageBuilder_components b ++ [component] |}.

(** A parameter literal that sets [Type], [Text], [Image] and
    [Payload]; the other fields are zero. *)
Definition parameter (type text : string) (image : option MediaContent)
  (payload : string) : TemplateParameter := {|
  TemplateParameter_Type := type;
  TemplateParameter_Text := text;
  TemplateParameter_Currency := None;
  TemplateParameter_DateTime := None;
  TemplateParameter_Image := image;
  TemplateParameter_Document := None;
  TemplateParameter_Video := None;
  TemplateParameter_Payload := payload |}.

Definition TemplateMessageBuilder_AddHeaderText (b : TemplateMessageBuilder)
  (text : string) : TemplateMessageBuilder :=
  appendComponent b {|
    TemplateComponent_Type := TemplateComponentHeader;
    TemplateComponent_SubType := "";
    TemplateComponent_Index := "";
    TemplateComponent_Parameters := [parameter TemplateParamText text None ""] |}.

Definition TemplateMessageBuilder_AddHeaderImage (b : TemplateMessageBuilder)
  (mediaID : string) : TemplateMessageBuilder :=
  appendComponent b {|
    TemplateComponent_Type := TemplateComponentHeader;
    TemplateComponent_SubType := "";
    TemplateComponent_Index := "";
    TemplateComponent_Parameters :=
      [parameter TemplateParamImage ""
         (Some {| MediaContent_ID := mediaID;
                  MediaContent_Link := "";
                  MediaContent_Caption := "" |}) ""] |}.

Definition TemplateMessageBuilder_AddBodyParams (b : TemplateMessageBuilder)
  (params : list string) : TemplateMessageBuilder :=
  let parameters := map (fun p => parameter TemplateParamText p None "") params in
  appendComponent b {|
    TemplateComponent_Type := TemplateComponentBody;
    TemplateComponent_SubType := "";
    TemplateComponent_Index := "";
    TemplateComponent_Parameters := parameters |}.

Definition TemplateMessageBuilder_AddButtonPayload (b : TemplateMessageBuilder)
  (index payload : string) : TemplateMessageBuilder :=
  appendComponent b {|
    TemplateComponent_Type := TemplateComponentButton;
    TemplateComponent_SubType := "quick_reply";
    TemplateComponent_Index := index;
    TemplateComponent_Parameters :=
      [parameter TemplateParamPayload "" None payload] |}.

Definition TemplateMessageBuilder_Build (b : TemplateMessageBuilder)
  : MessageRequest := {|
  MessageRequest_MessagingProduct := MessagingProduct;
  MessageRequest_RecipientType := "individual";
  MessageRequest_To := TemplateMessageBuilder_to b;
  MessageRequest_Type := MessageTypeTemplate;
  MessageRequest_Context := None;
  MessageRequest_Text := None;
  MessageRequest_Image := None;
  MessageRequest_Audio := None;
  MessageRequest_Video := None;
  MessageRequest_Document := None;
  MessageRequest_Sticker := None;
  MessageRequest_Location := None;
  MessageRequest_Contacts := [];
  MessageRequest_Interactive := None;
  MessageRequest_Template :=
    Some {| TemplateContent_Name := TemplateMessageBuilder_templateName b;
            TemplateContent_Language :=
              {| TemplateLanguage_Code := TemplateMessageBuilder_languageCode b |};
            TemplateContent_Components := TemplateMessageBuilder_components b |};
  MessageRequest_Reaction := None |}.

(** *** Contact builder *)

Record ContactBuilder := { ContactBuilder_contact : ContactContent }.

Definition NewContact (formattedName : string) : ContactBuilder := {|
  ContactBuilder_contact := {|
    ContactContent_Addresses := [];
    ContactContent_Birthday := "";
    ContactContent_Emails := [];
    ContactContent_Name := {|
      ContactName_FormattedName := formattedName;
      ContactName_FirstName := "";
      ContactName_LastName := "";
      ContactName_MiddleName := "";
      ContactName_Prefix := "";
      ContactName_Suffix := "" |};
    ContactContent_Org := None;
    ContactContent_Phones := [];
    ContactContent_URLs := [] |} |}.

(** [b.contact.Name = name] *)
Definition set_Name (name : ContactName) (contact : ContactContent) := {|
  ContactContent_Addresses := ContactContent_Addresses contact;
  ContactContent_Birthday := ContactContent_Birthday contact;
  ContactContent_Emails := ContactContent_Emails contact;
  ContactContent_Name := name;
  ContactContent_Org := ContactContent_Org contact;
  ContactContent_Phones := ContactContent_Phones contact;
  ContactContent_URLs := ContactContent_URLs contact |}.

Definition ContactBuilder_FirstName (b : ContactBuilder) (name : string) := {|
  ContactBuilder_contact :=
    let contact := ContactBuilder_contact b in
    set_Name {|
      ContactName_FormattedName :=
        ContactName_FormattedName (ContactContent_Name contact);
      ContactName_FirstName := name;
      ContactName_LastName := ContactName_LastName (ContactContent_Name contact);
      ContactName_MiddleName := ContactName_MiddleName (ContactContent_Name contact);
      ContactName_Prefix := ContactName_Prefix (ContactContent_Name contact);
      ContactName_Suffix := ContactName_Suffix (ContactContent_Name contact) |}
      contact |}.

Definition ContactBuilder_LastName (b : ContactBuilder) (name : string) := {|
  ContactBuilder_contact :=
    let contact := ContactBuilder_contact b in
    set_Name {|
      ContactName_FormattedName :=
        ContactName_FormattedName (ContactContent_Name contact);
      ContactName_FirstName := ContactName_FirstName (ContactContent_Name contact);
      ContactName_LastName := name;
      ContactName_MiddleName := ContactName_MiddleName (ContactContent_Name contact);
      ContactName_Prefix := ContactName_Prefix (ContactContent_Name contact);
      ContactName_Suffix := ContactName_Suffix (ContactContent_Name contact) |}
      contact |}.

Definition ContactBuilder_AddPhone (b : ContactBuilder) (phoneType phone : string) := {|
  ContactBuilder_contact :=
    let contact := ContactBuilder_contact b in
    {| ContactContent_Addresses := ContactContent_Addresses contact;
       ContactContent_Birthday := ContactContent_Birthday contact;
       ContactContent_Emails := ContactContent_Emails contact;
       ContactContent_Name := ContactContent_Name contact;
       ContactContent_Org := ContactContent_Org contact;
       ContactContent_Phones :=
         ContactContent_Phones contact
         ++ [{| ContactPhone_Type := phoneType;
                ContactPhone_Phone := phone;
                ContactPhone_WaID := "" |}];
       ContactContent_URLs := ContactContent_URLs contact |} |}.

Definition ContactBuilder_AddEmail (b : ContactBuilder) (emailType email : string) := {|
  ContactBuilder_contact :=
    let contact := ContactBuilder_contact b in
    {| ContactContent_Addresses := ContactContent_Addresses contact;
       ContactContent_Birthday := ContactContent_Birthday contact;
       ContactContent_Emails :=
         ContactContent_Emails contact
         ++ [{| ContactEmail_Type := emailType;
                ContactEmail_Email := email |}];
       ContactContent_Name := ContactContent_Name contact;
       ContactContent_Org := ContactContent_Org contact;
       ContactContent_Phones := ContactContent_Phones contact;
       ContactContent_URLs := ContactContent_URLs contact |} |}.

Definition ContactBuilder_Organization (b : ContactBuilder)
  (company department title : string) := {|
  ContactBuilder_contact :=
    let contact := ContactBuilder_contact b in
    {| ContactContent_Addresses := ContactContent_Addresses contact;
       ContactContent_Birthday := ContactContent_Birthday contact;
       ContactContent_Emails := ContactContent_Emails contact;
       ContactContent_Name := ContactContent_Name contact;
       ContactContent_Org :=
         Some {| ContactOrg_Company := company;
                 ContactOrg_Department := department;
                 ContactOrg_Title := title |};
       ContactContent_Phones := ContactContent_Phones contact;
       ContactContent_URLs := ContactContent_URLs contact |} |}.

Definition ContactBuilder_Birthday (b : ContactBuilder) (date : string) := {|
  ContactBuilder_contact :=
    let contact := ContactBuilder_contact b in
    {| ContactContent_Addresses := ContactContent_Addresses contact;
       ContactContent_Birthday := date;
       ContactContent_Emails := ContactContent_Emails contact;
       ContactContent_Name := ContactContent_Name contact;
       ContactContent_Org := ContactContent_Org contact;
       ContactContent_Phones := ContactContent_Phones contact;
       ContactContent_URLs := ContactContent_URLs contact |} |}.

Definition ContactBuilder_Build (b : ContactBuilder) : ContactContent :=
  ContactBuilder_contact b.

End builders.

(* ===================================================================== *)
(** ** Go standard library: net/http, as far as the handler uses it       *)
(* ===================================================================== *)

Module http.

Definition MethodGet : string := "GET".
Definition MethodPost : string := "POST".

Definition StatusOK : Z := 200.
Definition StatusBadRequest : Z := 400.
Definition StatusForbidden : Z := 403.
Definition StatusMethodNotAllowed : Z := 405.

(** [url.Values] and [http.Header] as the key/value pairs in the order
    received; [Get] returns the first value of the key, or the empty
    string when the key is missing.  Header keys are in canonical form. *)
Fixpoint Get (kvs : list (string * string)) (key : string) : string :=
  match kvs with
  | [] => ""
  | (k, v) :: rest => if k =? key then v else Get rest key
  end.

(** An incoming request.  [Request_Body] is what [io.ReadAll(r.Body)]
    returns: [None] when reading fails. *)
Record Request := {
  Request_Method : string;
  Request_Query : list (string * string);
  Request_Header : list (string * string);
  Request_Body : option (list byte) }.

(** What the handler wrote to the [ResponseWriter]. *)
Record Response := {
  Response_StatusCode : Z;
  Response_Body : string }.

(** [http.Error(w, msg, code)] writes the status and the message
    followed by a newline. *)
Definition Error (msg : string) (code : Z) : Response :=
  {| Response_StatusCode := code;
     Response_Body := (msg ++ String "010"%char EmptyString)%string |}.

End http.

(* ===================================================================== *)
(** ** Package webhook                                                     *)
(* ===================================================================== *)

Module webhook.
Import models config.

(** *** Event types *)

Record BaseMessageEvent := {
  BaseMessageEvent_MessageID : string;
  BaseMessageEvent_From : string;
  BaseMessageEvent_ContactName : string;
  BaseMessageEvent_Timestamp : string;
  BaseMessageEvent_PhoneNumber : string;
  BaseMessageEvent_PhoneID : string;
  BaseMessageEvent_Context : option MessageContext }.

Definition IsReply (e : BaseMessageEvent) : bool :=
  match BaseMessageEvent_Context e with
  | Some ctx => negb (MessageContext_ID ctx =? "")
  | None => false
  end.

Record TextMessageEvent := {
  TextMessageEvent_Base : BaseMessageEvent;
  TextMessageEvent_Body : string }.

Record MediaMessageEvent := {
  MediaMessageEvent_Base : BaseMessageEvent;
  MediaMessageEvent_MediaID : string;
  MediaMessageEvent_MimeType : string;
  MediaMessageEvent_SHA256 : string;
  MediaMessageEvent_Caption : string }.

Record DocumentMessageEvent := {
  DocumentMessageEvent_Base : BaseMessageEvent;
  DocumentMessageEvent_MediaID : string;
  DocumentMessageEvent_MimeType : string;
  DocumentMessageEvent_SHA256 : string;
  DocumentMessageEvent_Filename : string;
  DocumentMessageEvent_Caption : string }.

Record LocationMessageEvent := {
  LocationMessageEvent_Base : BaseMessageEvent;
  LocationMessageEvent_Latitude : float64;
  LocationMessageEvent_Longitude : float64;
  LocationMessageEvent_Name : string;
  LocationMessageEvent_Address : string }.

Record ContactsMessageEvent := {
  ContactsMessageEvent_Base : BaseMessageEvent;
  ContactsMessageEvent_Contacts : list ContactContent }.

Record ButtonReplyEvent := {
  ButtonReplyEvent_Base : BaseMessageEvent;
  ButtonReplyEvent_ButtonID : string;
  ButtonReplyEvent_ButtonTitle : string }.

Record ListReplyEvent := {
  ListReplyEvent_Base : BaseMessageEvent;
  ListReplyEvent_RowID : string;
  ListReplyEvent_RowTitle : string;
  ListReplyEvent_RowDescription : string }.

Record ReactionMessageEvent := {
  ReactionMessageEvent_Base : BaseMessageEvent;
  ReactionMessageEvent_ReactedMessageID : string;
  ReactionMessageEvent_Emoji : string }.

Record MessageStatusEvent := {
  MessageStatusEvent_MessageID : string;
  MessageStatusEvent_Status : MessageStatus;
  MessageStatusEvent_Timestamp : string;
  MessageStatusEvent_RecipientID : string;
  MessageStatusEvent_PhoneNumber : string;
  MessageStatusEvent_PhoneID : string;
  MessageStatusEvent_ConversationID : string;
  MessageStatusEvent_ConversationType : string;
  MessageStatusEvent_Billable : bool;
  MessageStatusEvent_PricingCategory : string;
  MessageStatusEvent_Errors : list WebhookError }.

Record WebhookErrorEvent := {
  WebhookErrorEvent_Error : WebhookError;
  WebhookErrorEvent_Metadata : WebhookMetadata }.

(** *** Handlers

    A field of [EventHandlers] is a Go func value or nil.  The
    embedding records whether the field is set, and represents an
    invocation of a set handler by a [Call] carrying the argument it
    receives; a dispatch yields the sequence of its invocations, in
    order. *)
Record EventHandlers := {
  OnTextMessage : bool;
  OnImageMessage : bool;
  OnVideoMessage : bool;
  OnAudioMessage : bool;
  OnDocumentMessage : bool;
  OnStickerMessage : bool;
  OnLocationMessage : bool;
  OnContactsMessage : bool;
  OnButtonReply : bool;
  OnListReply : bool;
  OnReactionMessage : bool;
  OnMessageSent : bool;
  OnMessageDelivered : bool;
  OnMessageRead : bool;
  OnMessageFailed : bool;
  OnError : bool;
  OnRawWebhook : bool }.

Inductive Call :=
| CallOnTextMessage (msg : TextMessageEvent)
| CallOnImageMessage (msg : MediaMessageEvent)
| CallOnVideoMessage (msg : MediaMessageEvent)
| CallOnAudioMessage (msg : MediaMessageEvent)
| CallOnDocumentMessage (msg : DocumentMessageEvent)
| CallOnStickerMessage (msg : MediaMessageEvent)
| CallOnLocationMessage (msg : LocationMessageEvent)
| CallOnContactsMessage (msg : ContactsMessageEvent)
| CallOnButtonReply (msg : ButtonReplyEvent)
| CallOnListReply (msg : ListReplyEvent)
| CallOnReactionMessage (msg : ReactionMessageEvent)
| CallOnMessageSent (status : MessageStatusEvent)
| CallOnMessageDelivered (status : MessageStatusEvent)
| CallOnMessageRead (status : MessageStatusEvent)
| CallOnMessageFailed (status : MessageStatusEvent)
| CallOnError (err : WebhookErrorEvent)
| CallOnRawWebhook (payload : WebhookPayload).

(** [&EventHandlers{}]: every field nil. *)
Definition noHandlers : EventHandlers := {|
  OnTextMessage := false; OnImageMessage := false; OnVideoMessage := false;
  OnAudioMessage := false; OnDocumentMessage := false;
  OnStickerMessage := false; OnLocationMessage := false;
  OnContactsMessage := false; OnButtonReply := false; OnListReply := false;
  OnReactionMessage := false; OnMessageSent := false;
  OnMessageDelivered := false; OnMessageRead := false;
  OnMessageFailed := false; OnError := false; OnRawWebhook := false |}.

(** *** The handler

    [client] and [handlers] are pointers and may be nil.  The mutex and
    the logger are left out: the lock only guards the read of
    [handlers], and log lines are not observable by the caller. *)
Record Handler := {
  Handler_config : Config;
  Handler_client : option client.Client;
  Handler_handlers : option EventHandlers;
  Handler_verifyToken : string;
  Handler_validateSig : bool }.

Inductive Option :=
| WithLogger
| WithSignatureValidation (validate : bool).

Definition applyOption (h : Handler) (opt : Option) : Handler :=
  match opt with
  | WithLogger => h
  | WithSignatureValidation validate =>
      {| Handler_config := Handler_config h;
         Handler_client := Handler_client h;
         Handler_handlers := Handler_handlers h;
         Handler_verifyToken := Handler_verifyToken h;
         Handler_validateSig := validate |}
  end.

Definition NewHandler (cfg : Config) (waClient : option client.Client)
  (opts : list Option) : sum string Handler :=
  match ValidateForWebhook cfg with
  | Some err => inl err
  | None =>
      inr (fold_left applyOption opts
             {| Handler_config := cfg;
                Handler_client := waClient;
                Handler_handlers := Some noHandlers;
                Handler_verifyToken := WebhookVerifyToken cfg;
                Handler_validateSig := true |})
  end.

Definition SetHandlers (h : Handler) (handlers : option EventHandlers) : Handler :=
  {| Handler_config := Handler_config h;
     Handler_client := Handler_client h;
     Handler_handlers := handlers;
     Handler_verifyToken := Handler_verifyToken h;
     Handler_validateSig := Handler_validateSig h |}.

(** *** Event processing *)

(** The contact loop of [processMessage]: the first contact whose
    [WaID] is the sender, nil when there is none. *)
Fixpoint findContact (contacts : list WebhookContact) (from : string)
  : option WebhookContact :=
  match contacts with
  | [] => None
  | c :: rest =>
      if WebhookContact_WaID c =? from then Some c else findContact rest from
  end.

Definition set_ContactName (name : string) (e : BaseMessageEvent) :=
  {| BaseMessageEvent_MessageID := BaseMessageEvent_MessageID e;
     BaseMessageEvent_From := BaseMessageEvent_From e;
     BaseMessageEvent_ContactName := name;
     BaseMessageEvent_Timestamp := BaseMessageEvent_Timestamp e;
     BaseMessageEvent_PhoneNumber := BaseMessageEvent_PhoneNumber e;
     BaseMessageEvent_PhoneID := BaseMessageEvent_PhoneID e;
     BaseMessageEvent_Context := BaseMessageEvent_Context e |}.

Definition baseEvent (msg : IncomingMessage) (value : WebhookValue)
  : BaseMessageEvent :=
  let contact := findContact (WebhookValue_Contacts value)
                   (IncomingMessage_From msg) in
  let baseEvent := {|
    BaseMessageEvent_MessageID := IncomingMessage_ID msg;
    BaseMessageEvent_From := IncomingMessage_From msg;
    BaseMessageEvent_ContactName := "";
    BaseMessageEvent_Timestamp := IncomingMessage_Timestamp msg;
    BaseMessageEvent_PhoneNumber :=
      WebhookMetadata_DisplayPhoneNumber (WebhookValue_Metadata value);
    BaseMessageEvent_PhoneID :=
      WebhookMetadata_PhoneNumberID (WebhookValue_Metadata value);
    BaseMessageEvent_Context := IncomingMessage_Context msg |} in
  match contact with
  | Some c =>
      set_ContactName (ContactProfile_Name (WebhookContact_Profile c)) baseEvent
  | None => baseEvent
  end.

(** [if handlers.OnX != nil && payload != nil { handlers.OnX(ctx, ev) }] *)
Definition dispatch {P} (set : bool) (payload : option P) (call : P -> Call)
  : list Call :=
  match payload with
  | Some p => if set then [call p] else []
  | None => []
  end.

Definition processMessage (handlers : EventHandlers) (msg : IncomingMessage)
  (value : WebhookValue) : list Call :=
  let baseEvent := baseEvent msg value in
  let type := IncomingMessage_Type msg in
  if type =? MessageTypeText then
    dispatch (OnTextMessage handlers) (IncomingMessage_Text msg) (fun text =>
      CallOnTextMessage {|
        TextMessageEvent_Base := baseEvent;
        TextMessageEvent_Body := IncomingText_Body text |})
  else if type =? MessageTypeImage then
    dispatch (OnImageMessage handlers) (IncomingMessage_Image msg) (fun image =>
      CallOnImageMessage {|
        MediaMessageEvent_Base := baseEvent;
        MediaMessageEvent_MediaID := IncomingMedia_ID image;
        MediaMessageEvent_MimeType := IncomingMedia_MimeType image;
        MediaMessageEvent_SHA256 := IncomingMedia_SHA256 image;
        MediaMessageEvent_Caption := IncomingMedia_Caption image |})
  else if type =? MessageTypeVideo then
    dispatch (OnVideoMessage handlers) (IncomingMessage_Video msg) (fun video =>
      CallOnVideoMessage {|
        MediaMessageEvent_Base := baseEvent;
        MediaMessageEvent_MediaID := IncomingMedia_ID video;
        MediaMessageEvent_MimeType := IncomingMedia_MimeType video;
        MediaMessageEvent_SHA256 := IncomingMedia_SHA256 video;
        MediaMessageEvent_Caption := IncomingMedia_Caption video |})
  else if type =? MessageTypeAudio then
    dispatch (OnAudioMessage handlers) (IncomingMessage_Audio msg) (fun audio =>
      CallOnAudioMessage {|
        MediaMessageEvent_Base := baseEvent;
        MediaMessageEvent_MediaID := IncomingMedia_ID audio;
        MediaMessageEvent_MimeType := IncomingMedia_MimeType audio;
        MediaMessageEvent_SHA256 := IncomingMedia_SHA256 audio;
        MediaMessageEvent_Caption := "" |})
  else if type =? MessageTypeDocument then
    dispatch (OnDocumentMessage handlers) (IncomingMessage_Document msg) (fun doc =>
      CallOnDocumentMessage {|
        DocumentMessageEvent_Base := baseEvent;
        DocumentMessageEvent_MediaID := IncomingDocument_ID doc;
        DocumentMessageEvent_MimeType := IncomingDocument_MimeType doc;
        DocumentMessageEvent_SHA256 := IncomingDocument_SHA256 doc;
        DocumentMessageEvent_Filename := IncomingDocument_Filename doc;
        DocumentMessageEvent_Caption := IncomingDocument_Caption doc |})
  else if type =? MessageTypeSticker then
    dispatch (OnStickerMessage handlers) (IncomingMessage_Sticker msg) (fun sticker =>
      CallOnStickerMessage {|
        MediaMessageEvent_Base := baseEvent;
        MediaMessageEvent_MediaID := IncomingMedia_ID sticker;
        MediaMessageEvent_MimeType := IncomingMedia_MimeType sticker;
        MediaMessageEvent_SHA256 := IncomingMedia_SHA256 sticker;
        MediaMessageEvent_Caption := "" |})
  else if type =? MessageTypeLocation then
    dispatch (OnLocationMessage handlers) (IncomingMessage_Location msg) (fun loc =>
      CallOnLocationMessage {|
        LocationMessageEvent_Base := baseEvent;
        LocationMessageEvent_Latitude := LocationContent_Latitude loc;
        LocationMessageEvent_Longitude := LocationContent_Longitude loc;
        LocationMessageEvent_Name := LocationContent_Name loc;
        LocationMessageEvent_Address := LocationContent_Address loc |})
  else if type =? MessageTypeContacts then
    if OnContactsMessage handlers
       && (0 <? List.length (IncomingMessage_Contacts msg))%nat
    then [CallOnContactsMessage {|
            ContactsMessageEvent_Base := baseEvent;
            ContactsMessageEvent_Contacts := IncomingMessage_Contacts msg |}]
    else []
  else if type =? MessageTypeInteractive then
    match IncomingMessage_Interactive msg with
    | Some interactive =>
        if IncomingInteractive_Type interactive =? "button_reply" then
          dispatch (OnButtonReply handlers)
            (IncomingInteractive_ButtonReply interactive) (fun reply =>
              CallOnButtonReply {|
                ButtonReplyEvent_Base := baseEvent;
                ButtonReplyEvent_ButtonID := InteractiveReply_ID reply;
                ButtonReplyEvent_ButtonTitle := InteractiveReply_Title reply |})
        else if IncomingInteractive_Type interactive =? "list_reply" then
          dispatch (OnListReply handlers)
            (IncomingInteractive_ListReply interactive) (fun reply =>
              CallOnListReply {|
                ListReplyEvent_Base := baseEvent;
                ListReplyEvent_RowID := InteractiveListReply_ID reply;
                ListReplyEvent_RowTitle := InteractiveListReply_Title reply;
                ListReplyEvent_RowDescription :=
                  InteractiveListReply_Description reply |})
        else []
    | None => []
    end
  else if type =? MessageTypeReaction then
    dispatch (OnReactionMessage handlers) (IncomingMessage_Reaction msg) (fun reaction =>
      CallOnReactionMessage {|
        ReactionMessageEvent_Base := baseEvent;
        ReactionMessageEvent_ReactedMessageID := IncomingReaction_MessageID reaction;
        ReactionMessageEvent_Emoji := IncomingReaction_Emoji reaction |})
  else [].

(** The event of [processStatus] before the switch: conversation and
    pricing fields are copied when present; [Errors] stays nil. *)
Definition statusEvent (status : MessageStatusUpdate) (value : WebhookValue)
  : MessageStatusEvent := {|
  MessageStatusEvent_MessageID := MessageStatusUpdate_ID status;
  MessageStatusEvent_Status := MessageStatusUpdate_Status status;
  MessageStatusEvent_Timestamp := MessageStatusUpdate_Timestamp status;
  MessageStatusEvent_RecipientID := MessageStatusUpdate_RecipientID status;
  MessageStatusEvent_PhoneNumber :=
    WebhookMetadata_DisplayPhoneNumber (WebhookValue_Metadata value);
  MessageStatusEvent_PhoneID :=
    WebhookMetadata_PhoneNumberID (WebhookValue_Metadata value);
  MessageStatusEvent_ConversationID :=
    match MessageStatusUpdate_Conversation status with
    | Some conv => Conversation_ID conv
    | None => ""
    end;
  MessageStatusEvent_ConversationType :=
    match MessageStatusUpdate_Conversation status with
    | Some conv => ConversationOrigin_Type (Conversation_Origin conv)
    | None => ""
    end;
  MessageStatusEvent_Billable :=
    match MessageStatusUpdate_Pricing status with
    | Some pricing => Pricing_Billable pricing
    | None => false
    end;
  MessageStatusEvent_PricingCategory :=
    match MessageStatusUpdate_Pricing status with
    | Some pricing => Pricing_Category pricing
    | None => ""
    end;
  MessageStatusEvent_Errors := [] |}.

Definition set_Errors (errs : list WebhookError) (e : MessageStatusEvent) := {|
  MessageStatusEvent_MessageID := MessageStatusEvent_MessageID e;
  MessageStatusEvent_Status := MessageStatusEvent_Status e;
  MessageStatusEvent_Timestamp := MessageStatusEvent_Timestamp e;
  MessageStatusEvent_RecipientID := MessageStatusEvent_RecipientID e;
  MessageStatusEvent_PhoneNumber := MessageStatusEvent_PhoneNumber e;
  MessageStatusEvent_PhoneID := MessageStatusEvent_PhoneID e;
  MessageStatusEvent_ConversationID := MessageStatusEvent_ConversationID e;
  MessageStatusEvent_ConversationType := MessageStatusEvent_ConversationType e;
  MessageStatusEvent_Billable := MessageStatusEvent_Billable e;
  MessageStatusEvent_PricingCategory := MessageStatusEvent_PricingCategory e;
  MessageStatusEvent_Errors := errs |}.

Definition processStatus (handlers : EventHandlers)
  (status : MessageStatusUpdate) (value : WebhookValue) : list Call :=
  let event := statusEvent status value in
  let st := MessageStatusUpdate_Status status in
  if st =? StatusSent then
    if OnMessageSent handlers then [CallOnMessageSent event] else []
  else if st =? StatusDelivered then
    if OnMessageDelivered handlers then [CallOnMessageDelivered event] else []
  else if st =? StatusRead then
    if OnMessageRead handlers then [CallOnMessageRead event] else []
  else if st =? StatusFailed then
    if OnMessageFailed handlers
    then [CallOnMessageFailed
            (set_Errors (MessageStatusUpdate_Errors status) event)]
    else []
  else [].

(** The body of the change loop for one change. *)
Definition processChange (handlers : EventHandlers) (change : WebhookChange)
  : list Call :=
  if negb (WebhookChange_Field change =? "messages") then []
  else
    let value := WebhookChange_Value change in
    flat_map (fun msg => processMessage handlers msg value)
      (WebhookValue_Messages value)
    ++ flat_map (fun status => processStatus handlers status value)
         (WebhookValue_Statuses value)
    ++ flat_map (fun err =>
         if OnError handlers
         then [CallOnError {| WebhookErrorEvent_Error := err;
                              WebhookErrorEvent_Metadata :=
                                WebhookValue_Metadata value |}]
         else [])
         (WebhookValue_Errors value).

(** The entry loop of [processPayload]. *)
Definition processEntries (handlers : EventHandlers) (payload : WebhookPayload)
  : list Call :=
  flat_map (fun entry =>
      flat_map (processChange handlers) (WebhookEntry_Changes entry))
    (WebhookPayload_Entry payload).

(** [processPayload] reads the handler table once.  The result is the
    sequence of handler invocations, or [None] when the table pointer is
    nil and its first use panics. *)
Definition processPayload (h : Handler) (payload : WebhookPayload)
  : option (list Call) :=
  match Handler_handlers h with
  | None => None
  | Some handlers =>
      Some ((if OnRawWebhook handlers then [CallOnRawWebhook payload] else [])
            ++ processEntries handlers payload)
  end.

(** *** HTTP handler *)

(** What serving a request does: the response written, and the payload
    handed to [go h.processPayload(...)] if any; or a panic (which
    net/http recovers by aborting the connection). *)
Inductive Served :=
| Responded (resp : http.Response) (spawned : option WebhookPayload)
| Panicked.

Definition handleVerification (h : Handler) (r : http.Request) : Served :=
  let mode := http.Get (http.Request_Query r) "hub.mode" in
  let token := http.Get (http.Request_Query r) "hub.verify_token" in
  let challenge := http.Get (http.Request_Query r) "hub.challenge" in
  if (mode =? "subscribe") && (token =? Handler_verifyToken h) then
    Responded {| http.Response_StatusCode := http.StatusOK;
                 http.Response_Body := challenge |} None
  else
    Responded (http.Error "Forbidden" http.StatusForbidden) None.

Section Decode.

(** [json.Unmarshal(body, &payload)]: the decoded payload, or [None]
    when decoding fails. *)
Variable json_Unmarshal : list byte -> option WebhookPayload.

(** The part of [handleWebhook] after the signature check. *)
Definition parseAndAcknowledge (body : list byte) : Served :=
  match json_Unmarshal body with
  | None => Responded (http.Error "Bad request" http.StatusBadRequest) None
  | Some payload =>
      Responded {| http.Response_StatusCode := http.StatusOK;
                   http.Response_Body := "" |} (Some payload)
  end.

Definition handleWebhook (h : Handler) (r : http.Request) : Served :=
  match http.Request_Body r with
  | None => Responded (http.Error "Bad request" http.StatusBadRequest) None
  | Some body =>
      if Handler_validateSig h
         && negb (AppSecret (Handler_config h) =? "")
      then
        let signature := http.Get (http.Request_Header r) "X-Hub-Signature-256" in
        match Handler_client h with
        | None => Panicked
        | Some c =>
            if negb (client.VerifyWebhookSignature c body signature)
            then Responded (http.Error "Forbidden" http.StatusForbidden) None
            else parseAndAcknowledge body
        end
      else parseAndAcknowledge body
  end.

Definition ServeHTTP (h : Handler) (r : http.Request) : Served :=
  if http.Request_Method r =? http.MethodGet then handleVerification h r
  else if http.Request_Method r =? http.MethodPost then handleWebhook h r
  else Responded (http.Error "Method not allowed" http.StatusMethodNotAllowed) None.

End Decode.

(** The handler invocations a served request leads to: those of the
    spawned [processPayload], none when nothing was spawned. *)
Definition callbacks (h : Handler) (s : Served) : option (list Call) :=
  match s with
  | Responded _ (Some payload) => processPayload h payload
  | Responded _ None => Some []
  | Panicked => Some []
  end.

End webhook.

(* ===================================================================== *)
(** ** Observations and the specification's predicates                    *)
(* ===================================================================== *)

Import models config errors client webhook.

(** The status code written by a served request. *)
Definition statusOf (s : Served) : option Z :=
  match s with
  | Responded resp _ => Some (http.Response_StatusCode resp)
  | Panicked => None
  end.

(** The response of [http.Error(w, "Forbidden", http.StatusForbidden)]. *)
Definition forbidden : Served :=
  Responded (http.Error "Forbidden" http.StatusForbidden) None.

(** Status 200 with the challenge as the body. *)
Definition challengeResponse (challenge : string) : Served :=
  Responded {| http.Response_StatusCode := http.StatusOK;
               http.Response_Body := challenge |} None.

(** Invocations of the raw handler. *)
Definition isRawCall (c : Call) : bool :=
  match c with
  | CallOnRawWebhook _ => true
  | _ => false
  end.

Definition isNil {A} (o : option A) : bool :=
  match o with
  | None => true
  | Some _ => false
  end.

(** The specification's "declared type T with a nil/absent
    type-specific payload": the payload field that belongs to the
    message's type is nil (for contacts, the list is empty; for
    interactive, the interactive block or the reply named by its type).
    The types are those for which [IncomingMessage] has a payload
    field. *)
Definition payloadAbsent (msg : IncomingMessage) : bool :=
  let t := IncomingMessage_Type msg in
  ((t =? "text") && isNil (IncomingMessage_Text msg))
  || ((t =? "image") && isNil (IncomingMessage_Image msg))
  || ((t =? "video") && isNil (IncomingMessage_Video msg))
  || ((t =? "audio") && isNil (IncomingMessage_Audio msg))
  || ((t =? "document") && isNil (IncomingMessage_Document msg))
  || ((t =? "sticker") && isNil (IncomingMessage_Sticker msg))
  || ((t =? "location") && isNil (IncomingMessage_Location msg))
  || ((t =? "contacts")
      && (List.length (IncomingMessage_Contacts msg) =? 0)%nat)
  || ((t =? "interactive")
      && match IncomingMessage_Interactive msg with
         | None => true
         | Some i =>
             ((IncomingInteractive_Type i =? "button_reply")
              && isNil (IncomingInteractive_ButtonReply i))
             || ((IncomingInteractive_Type i =? "list_reply")
                 && isNil (IncomingInteractive_ListReply i))
         end)
  || ((t =? "reaction") && isNil (IncomingMessage_Reaction msg))
  || ((t =? "button") && isNil (IncomingMessage_Button msg))
  || ((t =? "system") && isNil (IncomingMessage_System msg)).

(** The message types [processMessage] has a case for. *)
Definition dispatchedTypes : list MessageType :=
  [MessageTypeText; MessageTypeImage; MessageTypeVideo; MessageTypeAudio;
   MessageTypeDocument; MessageTypeSticker; MessageTypeLocation;
   MessageTypeContacts; MessageTypeInteractive; MessageTypeReaction].

(** The event a status handler receives. *)
Definition statusEventOf (c : Call) : option MessageStatusEvent :=
  match c with
  | CallOnMessageSent e | CallOnMessageDelivered e
  | CallOnMessageRead e | CallOnMessageFailed e => Some e
  | _ => None
  end.

(** The base event embedded in the event a message handler receives. *)
Definition callBase (c : Call) : option BaseMessageEvent :=
  match c with
  | CallOnTextMessage e => Some (TextMessageEvent_Base e)
  | CallOnImageMessage e | CallOnVideoMessage e
  | CallOnAudioMessage e | CallOnStickerMessage e =>
      Some (MediaMessageEvent_Base e)
  | CallOnDocumentMessage e => Some (DocumentMessageEvent_Base e)
  | CallOnLocationMessage e => Some (LocationMessageEvent_Base e)
  | CallOnContactsMessage e => Some (ContactsMessageEvent_Base e)
  | CallOnButtonReply e => Some (ButtonReplyEvent_Base e)
  | CallOnListReply e => Some (ListReplyEvent_Base e)
  | CallOnReactionMessage e => Some (ReactionMessageEvent_Base e)
  | _ => None
  end.

(** The field of [EventHandlers] a call goes to. *)
Inductive HandlerField :=
| FieldOnTextMessage | FieldOnImageMessage | FieldOnVideoMessage
| FieldOnAudioMessage | FieldOnDocumentMessage | FieldOnStickerMessage
| FieldOnLocationMessage | FieldOnContactsMessage | FieldOnButtonReply
| FieldOnListReply | FieldOnReactionMessage | FieldOnMessageSent
| FieldOnMessageDelivered | FieldOnMessageRead | FieldOnMessageFailed
| FieldOnError | FieldOnRawWebhook.

Definition calledHandler (c : Call) : HandlerField :=
  match c with
  | CallOnTextMessage _ => FieldOnTextMessage
  | CallOnImageMessage _ => FieldOnImageMessage
  | CallOnVideoMessage _ => FieldOnVideoMessage
  | CallOnAudioMessage _ => FieldOnAudioMessage
  | CallOnDocumentMessage _ => FieldOnDocumentMessage
  | CallOnStickerMessage _ => FieldOnStickerMessage
  | CallOnLocationMessage _ => FieldOnLocationMessage
  | CallOnContactsMessage _ => FieldOnContactsMessage
  | CallOnButtonReply _ => FieldOnButtonReply
  | CallOnListReply _ => FieldOnListReply
  | CallOnReactionMessage _ => FieldOnReactionMessage
  | CallOnMessageSent _ => FieldOnMessageSent
  | CallOnMessageDelivered _ => FieldOnMessageDelivered
  | CallOnMessageRead _ => FieldOnMessageRead
  | CallOnMessageFailed _ => FieldOnMessageFailed
  | CallOnError _ => FieldOnError
  | CallOnRawWebhook _ => FieldOnRawWebhook
  end.

(** Whether a field of the handler table is set. *)
Definition isSet (handlers : EventHandlers) (f : HandlerField) : bool :=
  match f with
  | FieldOnTextMessage => OnTextMessage handlers
  | FieldOnImageMessage => OnImageMessage handlers
  | FieldOnVideoMessage => OnVideoMessage handlers
  | FieldOnAudioMessage => OnAudioMessage handlers
  | FieldOnDocumentMessage => OnDocumentMessage handlers
  | FieldOnStickerMessage => OnStickerMessage handlers
  | FieldOnLocationMessage => OnLocationMessage handlers
  | FieldOnContactsMessage => OnContactsMessage handlers
  | FieldOnButtonReply => OnButtonReply handlers
  | FieldOnListReply => OnListReply handlers
  | FieldOnReactionMessage => OnReactionMessage handlers
  | FieldOnMessageSent => OnMessageSent handlers
  | FieldOnMessageDelivered => OnMessageDelivered handlers
  | FieldOnMessageRead => OnMessageRead handlers
  | FieldOnMessageFailed => OnMessageFailed handlers
  | FieldOnError => OnError handlers
  | FieldOnRawWebhook => OnRawWebhook handlers
  end.

(** The handler a message is meant for: the field of the handler table
    that belongs to the message's type (for an interactive message, to
    the kind of reply it carries).  There is none when the payload of
    the type is absent and when the type has no handler field. *)
Definition matchingHandler (msg : IncomingMessage) : option HandlerField :=
  let t := IncomingMessage_Type msg in
  if payloadAbsent msg then None
  else if t =? "text" then Some FieldOnTextMessage
  else if t =? "image" then Some FieldOnImageMessage
  else if t =? "video" then Some FieldOnVideoMessage
  else if t =? "audio" then Some FieldOnAudioMessage
  else if t =? "document" then Some FieldOnDocumentMessage
  else if t =? "sticker" then Some FieldOnStickerMessage
  else if t =? "location" then Some FieldOnLocationMessage
  else if t =? "contacts" then Some FieldOnContactsMessage
  else if t =? "reaction" then Some FieldOnReactionMessage
  else if t =? "interactive" then
    match IncomingMessage_Interactive msg with
    | Some i =>
        if IncomingInteractive_Type i =? "button_reply"
        then Some FieldOnButtonReply
        else if IncomingInteractive_Type i =? "list_reply"
        then Some FieldOnListReply
        else None
    | None => None
    end
  else None.

(** The same batch with another contact list. *)
Definition withContacts (contacts : list WebhookContact) (value : WebhookValue)
  : WebhookValue := {|
  WebhookValue_MessagingProduct := WebhookValue_MessagingProduct value;
  WebhookValue_Metadata := WebhookValue_Metadata value;
  WebhookValue_Contacts := contacts;
  WebhookValue_Messages := WebhookValue_Messages value;
  WebhookValue_Statuses := WebhookValue_Statuses value;
  WebhookValue_Errors := WebhookValue_Errors value |}.

(** The recipient argument of a send operation. *)
Definition recipient (op : SendCall) : string :=
  match op with
  | CallSendText to _ _ | CallSendTextReply to _ _
  | CallSendImage to _ | CallSendVideo to _ | CallSendAudio to _
  | CallSendDocument to _ | CallSendSticker to _ | CallSendLocation to _
  | CallSendContacts to _ | CallSendReaction to _ _
  | CallRemoveReaction to _ | CallSendInteractiveButtons to _ _ _
  | CallSendInteractiveList to _ _ _ _ | CallSendCTAButton to _ _ _ _
  | CallSendTemplate to _ | CallSendSimpleTemplate to _ _ => to
  | CallSendMessage req => MessageRequest_To req
  end.

(** The field tags each send operation validates. *)
Definition validatedFields (op : SendCall) : list string :=
  match op with
  | CallSendText _ _ _ => ["to"; "body"]
  | CallSendTextReply _ _ _ => ["replyToMessageID"; "to"]
  | CallSendImage _ _ | CallSendVideo _ _ | CallSendAudio _ _
  | CallSendSticker _ _ => ["media"; "to"]
  | CallSendDocument _ _ => ["document"; "to"]
  | CallSendLocation _ _ => ["location"; "to"]
  | CallSendContacts _ _ => ["contacts"; "to"]
  | CallSendReaction _ _ _ | CallRemoveReaction _ _ => ["messageID"; "to"]
  | CallSendInteractiveButtons _ _ _ _ => ["buttons"; "to"]
  | CallSendInteractiveList _ _ _ _ _ => ["sections"; "buttonText"; "to"]
  | CallSendCTAButton _ _ _ _ _ => ["displayText"; "url"; "to"]
  | CallSendTemplate _ _ | CallSendSimpleTemplate _ _ _ =>
      ["template"; "template.name"; "template.language.code"; "to"]
  | CallSendMessage _ => ["to"]
  end.

(** The error of [sendMessage] for an empty recipient. *)
Definition missingRecipient : error :=
  IsValidationError
    (NewValidationError "to" "recipient phone number is required").

(** "The request is sent": the call adds one request to the log. *)
Definition sends {A} (m : M A) (log : list NetCall) : Prop :=
  exists call, snd (m log) = log ++ [call].

(** The required-field rules the specification lists for the send
    operations: recipient non-empty, body non-empty, media with an
    identifier or a URL, one to three buttons, at least one list
    section, template name and language code non-empty. *)
Definition violatesRequiredFields (op : SendCall) : bool :=
  (recipient op =? "")
  || match op with
     | CallSendText _ body _ => body =? ""
     | CallSendImage _ media | CallSendVideo _ media
     | CallSendAudio _ media | CallSendSticker _ media =>
         match media with
         | None => true
         | Some m => (MediaContent_ID m =? "") && (MediaContent_Link m =? "")
         end
     | CallSendDocument _ doc =>
         match doc with
         | None => true
         | Some d =>
             (DocumentContent_ID d =? "") && (DocumentContent_Link d =? "")
         end
     | CallSendInteractiveButtons _ _ buttons _ =>
         (List.length buttons =? 0)%nat || (3 <? List.length buttons)%nat
     | CallSendInteractiveList _ _ _ sections _ =>
         (List.length sections =? 0)%nat
     | CallSendTemplate _ template =>
         match template with
         | None => true
         | Some t =>
             (TemplateContent_Name t =? "")
             || (TemplateLanguage_Code (TemplateContent_Language t) =? "")
         end
     | CallSendSimpleTemplate _ templateName languageCode =>
         (templateName =? "") || (languageCode =? "")
     | _ => false
     end.

(** The local checks of each send operation, in the order in which the
    code makes them: the field tag, and whether the argument the tag
    names fails its check.  The recipient comes last: it is checked by
    [sendMessage], except in [SendText]. *)
Definition unnamed (contact : ContactContent) : bool :=
  ContactName_FormattedName (ContactContent_Name contact) =? "".

Definition localChecks (op : SendCall) : list (string * bool) :=
  match op with
  | CallSendText to body _ => [("to", to =? ""); ("body", body =? "")]
  | CallSendTextReply to _ replyToMessageID =>
      [("replyToMessageID", replyToMessageID =? ""); ("to", to =? "")]
  | CallSendImage to media | CallSendVideo to media
  | CallSendAudio to media | CallSendSticker to media =>
      [("media",
        match media with
        | None => true
        | Some m => (MediaContent_ID m =? "") && (MediaContent_Link m =? "")
        end);
       ("to", to =? "")]
  | CallSendDocument to doc =>
      [("document",
        match doc with
        | None => true
        | Some d =>
            (DocumentContent_ID d =? "") && (DocumentContent_Link d =? "")
        end);
       ("to", to =? "")]
  | CallSendLocation to location =>
      [("location",
        match location with
        | None => true
        | Some l =>
            float64_is_zero (LocationContent_Latitude l)
            && float64_is_zero (LocationContent_Longitude l)
        end);
       ("to", to =? "")]
  | CallSendContacts to contacts =>
      [("contacts",
        (List.length contacts =? 0)%nat || existsb unnamed contacts);
       ("to", to =? "")]
  | CallSendReaction to messageID _ | CallRemoveReaction to messageID =>
      [("messageID", messageID =? ""); ("to", to =? "")]
  | CallSendInteractiveButtons to _ buttons _ =>
      [("buttons",
        (List.length buttons =? 0)%nat || (3 <? List.length buttons)%nat);
       ("to", to =? "")]
  | CallSendInteractiveList to _ buttonText sections _ =>
      [("sections", (List.length sections =? 0)%nat);
       ("buttonText", buttonText =? "");
       ("to", to =? "")]
  | CallSendCTAButton to _ displayText url _ =>
      [("displayText", displayText =? ""); ("url", url =? "");
       ("to", to =? "")]
  | CallSendTemplate to template =>
      [("template", isNil template);
       ("template.name",
        match template with
        | Some t => TemplateContent_Name t =? ""
        | None => false
        end);
       ("template.language.code",
        match template with
        | Some t => TemplateLanguage_Code (TemplateContent_Language t) =? ""
        | None => false
        end);
       ("to", to =? "")]
  | CallSendSimpleTemplate to templateName languageCode =>
      [("template.name", templateName =? "");
       ("template.language.code", languageCode =? "");
       ("to", to =? "")]
  | CallSendMessage req => [("to", MessageRequest_To req =? "")]
  end.

(** The offending field of a call: the tag of the first check that
    fails, if any. *)
Definition offendingField (op : SendCall) : option string :=
  option_map fst (find snd (localChecks op)).

(** [k] is the first 32 bits of the fractional part of the [r]-th root
    of [p]: for the integer part [a] of the root, the fixed-point number
    [a * 2^32 + k] is the root of [p] rounded down to 32 fractional bits. *)
Definition isRootFraction (r p k : Z) : bool :=
  ((0 <=? k) && (k <? 2 ^ 32))%Z
  && existsb (fun a =>
       let n := (a * 2 ^ 32 + k)%Z in
       ((n ^ r <=? p * 2 ^ (32 * r)) && (p * 2 ^ (32 * r) <? (n + 1) ^ r))%Z)
       [1; 2; 3; 4; 5; 6]%Z.

Definition firstPrimes : list Z :=
  [2; 3; 5; 7; 11; 13; 17; 19; 23; 29; 31; 37;
   41; 43; 47; 53; 59; 61; 67; 71; 73; 79; 83; 89;
   97; 101; 103; 107; 109; 113; 127; 131; 137; 139; 149; 151;
   157; 163; 167; 173; 179; 181; 191; 193; 197; 199; 211; 223;
   227; 229; 233; 239; 241; 251; 257; 263; 269; 271; 277; 281;
   283; 293; 307; 311]%Z.

(** The value of [validateSig] a list of options asks for: that of the
    last [WithSignatureValidation], [true] when there is none. *)
Definition requestedValidation (opts : list Option) : bool :=
  last (flat_map (fun opt =>
                    match opt with
                    | WithSignatureValidation validate => [validate]
                    | WithLogger => []
                    end) opts) true.

(** The messages, status updates and errors a delivery carries in its
    changes of field [messages]. *)
Definition deliveredItems (payload : WebhookPayload) : nat :=
  list_sum (map (fun entry =>
    list_sum (map (fun change =>
      if WebhookChange_Field change =? "messages" then
        List.length (WebhookValue_Messages (WebhookChange_Value change))
        + List.length (WebhookValue_Statuses (WebhookChange_Value change))
        + List.length (WebhookValue_Errors (WebhookChange_Value change))
      else 0)
      (WebhookEntry_Changes entry)))
    (WebhookPayload_Entry payload)).

(** The message types whose content field is populated in a request. *)
Definition populatedPayloads (req : MessageRequest) : list MessageType :=
  (if isNil (MessageRequest_Text req) then [] else [MessageTypeText])
  ++ (if isNil (MessageRequest_Image req) then [] else [MessageTypeImage])
  ++ (if isNil (MessageRequest_Audio req) then [] else [MessageTypeAudio])
  ++ (if isNil (MessageRequest_Video req) then [] else [MessageTypeVideo])
  ++ (if isNil (MessageRequest_Document req) then [] else [MessageTypeDocument])
  ++ (if isNil (MessageRequest_Sticker req) then [] else [MessageTypeSticker])
  ++ (if isNil (MessageRequest_Location req) then [] else [MessageTypeLocation])
  ++ (if (List.length (MessageRequest_Contacts req) =? 0)%nat
      then [] else [MessageTypeContacts])
  ++ (if isNil (MessageRequest_Interactive req)
      then [] else [MessageTypeInteractive])
  ++ (if isNil (MessageRequest_Template req) then [] else [MessageTypeTemplate])
  ++ (if isNil (MessageRequest_Reaction req) then [] else [MessageTypeReaction]).

(** The send operations that build the request themselves. *)
Definition buildsRequest (op : SendCall) : bool :=
  match op with
  | CallSendMessage _ => false
  | _ => true
  end.

(** A request as [doRequest] sets it up: bearer token and JSON content
    type. *)
Definition jsonRequest (c : Client) (method url : string) (body : RequestBody)
  : HTTPRequest := {|
  HTTPRequest_Method := method;
  HTTPRequest_URL := url;
  HTTPRequest_Header := [bearer c; ("Content-Type", "application/json")];
  HTTPRequest_Body := body |}.

(** The request of [DownloadMedia]: a GET with the bearer token as its
    only header. *)
Definition downloadRequest (c : Client) (url : string) : HTTPRequest := {|
  HTTPRequest_Method := "GET";
  HTTPRequest_URL := url;
  HTTPRequest_Header := [bearer c];
  HTTPRequest_Body := NoBody |}.

(** The request of [GetMediaURL] for a media ID. *)
Definition lookupRequest (c : Client) (mediaID : string) : HTTPRequest :=
  jsonRequest c "GET" (GetAPIURL (Client_config c) ++ "/" ++ mediaID)%string
    NoBody.

(** The request of [UploadMediaReader]. *)
Definition uploadRequest (env : Env) (c : Client) (data : list byte)
  (filename mimeType : string) : HTTPRequest := {|
  HTTPRequest_Method := "POST";
  HTTPRequest_URL := config.GetMediaURL (Client_config c);
  HTTPRequest_Header := [bearer c; ("Content-Type", formDataContentType env)];
  HTTPRequest_Body :=
    MultipartBody [FormField "messaging_product" "whatsapp";
                   FormFile "file" filename data;
                   FormField "type" mimeType] |}.

(** The message types of the media tables. *)
Definition mediaTypes : list MessageType :=
  [MessageTypeImage; MessageTypeDocument; MessageTypeAudio; MessageTypeVideo].

(** The media tables that [GetMediaTypeFromMIME] consults, with the
    message type of each. *)
Definition mediaTables : list (list (string * string) * MessageType) :=
  [(ImageMIMETypes, MessageTypeImage);
   (DocumentMIMETypes, MessageTypeDocument);
   (AudioMIMETypes, MessageTypeAudio);
   (VideoMIMETypes, MessageTypeVideo)].

(** An extension as the media tables list them: a dot followed by
    characters that are neither a dot nor a slash. *)
Definition plainExtension (ext : string) : bool :=
  match ext with
  | String ch rest =>
      Ascii.eqb ch "."
      && forallb (fun ch => negb (Ascii.eqb ch "/") && negb (Ascii.eqb ch "."))
           (list_ascii_of_string rest)
  | EmptyString => false
  end.

(** The query string of [GetBusinessProfile]: the given field names
    joined by commas, or the default list. *)
Definition fieldsQuery (fields : list string) : string :=
  match fields with
  | [] => "about,address,description,email,profile_picture_url,websites,vertical"
  | _ => String.concat "," fields
  end.

(** Calls of the methods of a [ButtonMessageBuilder], and a chain of
    them applied to a builder. *)
Inductive ButtonBuilderCall :=
| ButtonBody (body : string)
| ButtonHeader (text : string)
| ButtonHeaderImage (mediaID : string)
| ButtonFooter (footer : string)
| ButtonAddButton (id title : string).

Definition buttonBuilderCall (b : builders.ButtonMessageBuilder)
  (call : ButtonBuilderCall) : builders.ButtonMessageBuilder :=
  match call with
  | ButtonBody body => builders.ButtonMessageBuilder_Body b body
  | ButtonHeader text => builders.ButtonMessageBuilder_Header b text
  | ButtonHeaderImage mediaID => builders.ButtonMessageBuilder_HeaderImage b mediaID
  | ButtonFooter footer => builders.ButtonMessageBuilder_Footer b footer
  | ButtonAddButton id title => builders.ButtonMessageBuilder_AddButton b id title
  end.

(** The reply buttons a chain of calls asks for, in call order. *)
Definition addedButtons (calls : list ButtonBuilderCall) : list InteractiveButton :=
  flat_map (fun call =>
              match call with
              | ButtonAddButton id title =>
                  [{| InteractiveButton_Type := "reply";
                      InteractiveButton_Reply :=
                        {| InteractiveReply_ID := id;
                           InteractiveReply_Title := title |} |}]
              | _ => []
              end) calls.

(** The header and footer of a builder as the options argument of the
    interactive send functions. *)
Definition buttonOptions (b : builders.ButtonMessageBuilder) : InteractiveOptions := {|
  InteractiveOptions_Header := builders.ButtonMessageBuilder_header b;
  InteractiveOptions_Footer := builders.ButtonMessageBuilder_footer b |}.

Definition listOptions (b : builders.ListMessageBuilder) : InteractiveOptions := {|
  InteractiveOptions_Header := builders.ListMessageBuilder_header b;
  InteractiveOptions_Footer := builders.ListMessageBuilder_footer b |}.

(** Calls of the methods of a [ContactBuilder]. *)
Inductive ContactBuilderCall :=
| ContactFirstName (name : string)
| ContactLastName (name : string)
| ContactAddPhone (phoneType phone : string)
| ContactAddEmail (emailType email : string)
| ContactOrganization (company department title : string)
| ContactBirthday (date : string).

Definition contactBuilderCall (b : builders.ContactBuilder)
  (call : ContactBuilderCall) : builders.ContactBuilder :=
  match call with
  | ContactFirstName name => builders.ContactBuilder_FirstName b name
  | ContactLastName name => builders.ContactBuilder_LastName b name
  | ContactAddPhone phoneType phone =>
      builders.ContactBuilder_AddPhone b phoneType phone
  | ContactAddEmail emailType email =>
      builders.ContactBuilder_AddEmail b emailType email
  | ContactOrganization company department title =>
      builders.ContactBuilder_Organization b company department title
  | ContactBirthday date => builders.ContactBuilder_Birthday b date
  end.

(** [NewContact(name)] followed by a chain of calls and [Build]. *)
Definition builtContact (spec : string * list ContactBuilderCall) : ContactContent :=
  builders.ContactBuilder_Build
    (fold_left contactBuilderCall (snd spec) (builders.NewContact (fst spec))).

(** The handler fields a message of a declared type can reach, and
    those a status update of a given status can reach. *)
Definition handlersOfType (type : MessageType) : list HandlerField :=
  if type =? MessageTypeText then [FieldOnTextMessage]
  else if type =? MessageTypeImage then [FieldOnImageMessage]
  else if type =? MessageTypeVideo then [FieldOnVideoMessage]
  else if type =? MessageTypeAudio then [FieldOnAudioMessage]
  else if type =? MessageTypeDocument then [FieldOnDocumentMessage]
  else if type =? MessageTypeSticker then [FieldOnStickerMessage]
  else if type =? MessageTypeLocation then [FieldOnLocationMessage]
  else if type =? MessageTypeContacts then [FieldOnContactsMessage]
  else if type =? MessageTypeInteractive
       then [FieldOnButtonReply; FieldOnListReply]
  else if type =? MessageTypeReaction then [FieldOnReactionMessage]
  else [].

Definition handlersOfStatus (status : MessageStatus) : list HandlerField :=
  if status =? StatusSent then [FieldOnMessageSent]
  else if status =? StatusDelivered then [FieldOnMessageDelivered]
  else if status =? StatusRead then [FieldOnMessageRead]
  else if status =? StatusFailed then [FieldOnMessageFailed]
  else [].

(** The error of the template operations of a client that has no
    business account ID. *)
Definition accountRequired : error :=
  Errorf "BusinessAccountID is required for this operation".

(** A request carries the access token of the client's configuration
    as a bearer token. *)
Definition authorized (c : Client) (req : HTTPRequest) : Prop :=
  http.Get (HTTPRequest_Header req) "Authorization"
  = ("Bearer " ++ AccessToken (Client_config c))%string.

(** Between [log] and [log'] at most [n] requests were made, all of
    them authorized, and nothing was removed from the log. *)
Definition issues (c : Client) (log log' : list HTTPRequest) (n : nat) : Prop :=
  exists sent,
    log' = log ++ sent
    /\ List.length sent <= n
    /\ Forall (authorized c) sent.

(** The media and account operations as one interface: a constructor
    per method with its arguments, and the request log after the call. *)
Inductive ApiCall :=
| CallUploadMedia (filePath : string)
| CallUploadMediaReader (reader : option (sum string (list byte)))
    (filename mimeType : string)
| CallUploadMediaBytes (data : list byte) (filename mimeType : string)
| CallGetMediaURL (mediaID : string)
| CallDownloadMedia (mediaURL : string)
| CallDownloadMediaByID (mediaID : string)
| CallDeleteMedia (mediaID : string)
| CallGetBusinessProfile (fields : list string)
| CallGetPhoneNumber (phoneNumberID : string)
| CallGetTemplates
| CallGetTemplate (templateName : string)
| CallDeleteTemplate (templateName : string)
| CallSetTwoStepVerificationPin (pin : string)
| CallMarkMessageAsRead (messageID : string).

Definition requestsAfter (env : Env) (c : Client) (op : ApiCall)
  (log : list HTTPRequest) : list HTTPRequest :=
  match op with
  | CallUploadMedia filePath => snd (UploadMedia env c filePath log)
  | CallUploadMediaReader reader filename mimeType =>
      snd (UploadMediaReader env c reader filename mimeType log)
  | CallUploadMediaBytes data filename mimeType =>
      snd (UploadMediaBytes env c data filename mimeType log)
  | CallGetMediaURL mediaID => snd (client.GetMediaURL env c mediaID log)
  | CallDownloadMedia mediaURL => snd (DownloadMedia env c mediaURL log)
  | CallDownloadMediaByID mediaID => snd (DownloadMediaByID env c mediaID log)
  | CallDeleteMedia mediaID => snd (DeleteMedia env c mediaID log)
  | CallGetBusinessProfile fields => snd (GetBusinessProfile env c fields log)
  | CallGetPhoneNumber phoneNumberID =>
      snd (GetPhoneNumber env c phoneNumberID log)
  | CallGetTemplates => snd (GetTemplates env c log)
  | CallGetTemplate templateName => snd (GetTemplate env c templateName log)
  | CallDeleteTemplate templateName =>
      snd (DeleteTemplate env c templateName log)
  | CallSetTwoStepVerificationPin pin =>
      snd (SetTwoStepVerificationPin env c pin log)
  | CallMarkMessageAsRead messageID =>
      snd (MarkMessageAsRead env c messageID log)
  end.

(** Only [DownloadMediaByID] is made of two exchanges. *)
Definition maxRequests (op : ApiCall) : nat :=
  match op with
  | CallDownloadMediaByID _ => 2
  | _ => 1
  end.

(* ===================================================================== *)
(** ** Sample data                                                         *)
(* ===================================================================== *)

(** A delivery used in the examples: secret [s3cret], body [{}] (which
    Go decodes to the zero payload), and its genuine signature. *)
Definition sampleConfig : Config := {|
  BusinessAccountID := "acct"; PhoneNumberID := "100";
  AccessToken := "token"; WebhookVerifyToken := "verify-me";
  AppSecret := "s3cret"; APIVersion := "v18.0";
  BaseURL := "https://graph.facebook.com"; WebhookPort := "8080" |}.

(** The same configuration with another app secret. *)
Definition sampleConfigWithSecret (secret : string) : Config := {|
  BusinessAccountID := "acct"; PhoneNumberID := "100";
  AccessToken := "token"; WebhookVerifyToken := "verify-me";
  AppSecret := secret; APIVersion := "v18.0";
  BaseURL := "https://graph.facebook.com"; WebhookPort := "8080" |}.

Definition sampleClient : Client := {| Client_config := sampleConfig |}.

(** The zero payload, which [{}] decodes to. *)
Definition emptyPayload : WebhookPayload :=
  {| WebhookPayload_Object := ""; WebhookPayload_Entry := [] |}.

(** A decoder that agrees with [json.Unmarshal] on the body [{}] and
    rejects the other bodies used below, none of which is JSON. *)
Definition sampleDecoder (body : list byte) : option WebhookPayload :=
  if string_of_list_byte body =? "{}" then Some emptyPayload else None.

(** A handler as [NewHandler] builds it from [sampleConfig], with the
    given handler table installed. *)
Definition sampleHandler (handlers : EventHandlers) : Handler := {|
  Handler_config := sampleConfig;
  Handler_client := Some sampleClient;
  Handler_handlers := Some handlers;
  Handler_verifyToken := "verify-me";
  Handler_validateSig := true |}.

Definition samplePost (body signature : string) : http.Request := {|
  http.Request_Method := "POST";
  http.Request_Query := [];
  http.Request_Header := [("Content-Type", "application/json");
                          ("X-Hub-Signature-256", signature)];
  http.Request_Body := Some (list_byte_of_string body) |}.

(** [sha256=] followed by the hex HMAC-SHA256 of [{]] under [s3cret]. *)
Definition brokenBodySignature : string :=
  "sha256=ca9ec0dc1f9d11a8fa58d54097159d3fe769656ce87dc08d82dd1c58bc9f159f".

(** The string of one zero byte. *)
Definition zeroByte : string := String (ascii_of_nat 0) EmptyString.

(** [sha256=] followed by the hex HMAC-SHA256 of [{}] under [s3cret]. *)
Definition sampleSignature : string :=
  "sha256=adbde1ce40c89c14215687d5d762a47df6dfaefcfad61e2e86718ffc8498571b".

Definition sampleGet (query : list (string * string)) : http.Request := {|
  http.Request_Method := "GET";
  http.Request_Query := query;
  http.Request_Header := [];
  http.Request_Body := Some [] |}.

(** A table with every handler set. *)
Definition allHandlers : EventHandlers := {|
  OnTextMessage := true; OnImageMessage := true; OnVideoMessage := true;
  OnAudioMessage := true; OnDocumentMessage := true;
  OnStickerMessage := true; OnLocationMessage := true;
  OnContactsMessage := true; OnButtonReply := true; OnListReply := true;
  OnReactionMessage := true; OnMessageSent := true;
  OnMessageDelivered := true; OnMessageRead := true;
  OnMessageFailed := true; OnError := true; OnRawWebhook := true |}.

Definition sampleMetadata : WebhookMetadata := {|
  WebhookMetadata_DisplayPhoneNumber := "1555";
  WebhookMetadata_PhoneNumberID := "100" |}.

Definition alice : WebhookContact := {|
  WebhookContact_WaID := "999";
  WebhookContact_Profile := {| ContactProfile_Name := "Alice" |} |}.

(** A second contact with the same wa_id as [alice]. *)
Definition bob : WebhookContact := {|
  WebhookContact_WaID := "999";
  WebhookContact_Profile := {| ContactProfile_Name := "Bob" |} |}.

(** A message of the given type and sender with every optional payload
    nil, and two ways of filling it in. *)
Definition bareMessage (type from : string) : IncomingMessage := {|
  IncomingMessage_ID := "m1";
  IncomingMessage_From := from;
  IncomingMessage_Timestamp := "1700000000";
  IncomingMessage_Type := type;
  IncomingMessage_Context := None;
  IncomingMessage_Errors := [];
  IncomingMessage_Text := None;
  IncomingMessage_Image := None;
  IncomingMessage_Audio := None;
  IncomingMessage_Video := None;
  IncomingMessage_Document := None;
  IncomingMessage_Sticker := None;
  IncomingMessage_Location := None;
  IncomingMessage_Contacts := [];
  IncomingMessage_Interactive := None;
  IncomingMessage_Button := None;
  IncomingMessage_Reaction := None;
  IncomingMessage_Referral := None;
  IncomingMessage_System := None |}.

Definition textMessage (from body : string) : IncomingMessage := {|
  IncomingMessage_ID := "m1";
  IncomingMessage_From := from;
  IncomingMessage_Timestamp := "1700000000";
  IncomingMessage_Type := "text";
  IncomingMessage_Context := None;
  IncomingMessage_Errors := [];
  IncomingMessage_Text := Some {| IncomingText_Body := body |};
  IncomingMessage_Image := None;
  IncomingMessage_Audio := None;
  IncomingMessage_Video := None;
  IncomingMessage_Document := None;
  IncomingMessage_Sticker := None;
  IncomingMessage_Location := None;
  IncomingMessage_Contacts := [];
  IncomingMessage_Interactive := None;
  IncomingMessage_Button := None;
  IncomingMessage_Reaction := None;
  IncomingMessage_Referral := None;
  IncomingMessage_System := None |}.

Definition interactiveMessage (from : string) (i : IncomingInteractive)
  : IncomingMessage := {|
  IncomingMessage_ID := "m1";
  IncomingMessage_From := from;
  IncomingMessage_Timestamp := "1700000000";
  IncomingMessage_Type := "interactive";
  IncomingMessage_Context := None;
  IncomingMessage_Errors := [];
  IncomingMessage_Text := None;
  IncomingMessage_Image := None;
  IncomingMessage_Audio := None;
  IncomingMessage_Video := None;
  IncomingMessage_Document := None;
  IncomingMessage_Sticker := None;
  IncomingMessage_Location := None;
  IncomingMessage_Contacts := [];
  IncomingMessage_Interactive := Some i;
  IncomingMessage_Button := None;
  IncomingMessage_Reaction := None;
  IncomingMessage_Referral := None;
  IncomingMessage_System := None |}.

Definition sampleValue (contacts : list WebhookContact)
  (messages : list IncomingMessage) (statuses : list MessageStatusUpdate)
  : WebhookValue := {|
  WebhookValue_MessagingProduct := "whatsapp";
  WebhookValue_Metadata := sampleMetadata;
  WebhookValue_Contacts := contacts;
  WebhookValue_Messages := messages;
  WebhookValue_Statuses := statuses;
  WebhookValue_Errors := [] |}.

Definition samplePayload (field : string) (value : WebhookValue)
  : WebhookPayload := {|
  WebhookPayload_Object := "whatsapp_business_account";
  WebhookPayload_Entry :=
    [{| WebhookEntry_ID := "1";
        WebhookEntry_Changes :=
          [{| WebhookChange_Value := value;
              WebhookChange_Field := field |}] |}] |}.

Definition sampleBase (name : string) : BaseMessageEvent := {|
  BaseMessageEvent_MessageID := "m1";
  BaseMessageEvent_From := "999";
  BaseMessageEvent_ContactName := name;
  BaseMessageEvent_Timestamp := "1700000000";
  BaseMessageEvent_PhoneNumber := "1555";
  BaseMessageEvent_PhoneID := "100";
  BaseMessageEvent_Context := None |}.

Definition failedStatus : MessageStatusUpdate := {|
  MessageStatusUpdate_ID := "m1";
  MessageStatusUpdate_Status := "failed";
  MessageStatusUpdate_Timestamp := "1700000001";
  MessageStatusUpdate_RecipientID := "999";
  MessageStatusUpdate_Conversation := None;
  MessageStatusUpdate_Pricing := None;
  MessageStatusUpdate_Errors :=
    [{| WebhookError_Code := 131026;
        WebhookError_Title := "Message undeliverable";
        WebhookError_Message := "";
        WebhookError_Details := "" |}] |}.

Definition deliveredStatus : MessageStatusUpdate := {|
  MessageStatusUpdate_ID := "m1";
  MessageStatusUpdate_Status := "delivered";
  MessageStatusUpdate_Timestamp := "1700000001";
  MessageStatusUpdate_RecipientID := "999";
  MessageStatusUpdate_Conversation := None;
  MessageStatusUpdate_Pricing := None;
  MessageStatusUpdate_Errors :=
    [{| WebhookError_Code := 131026;
        WebhookError_Title := "Message undeliverable";
        WebhookError_Message := "";
        WebhookError_Details := "" |}] |}.

Definition sampleResponse : MessageResponse := {|
  MessageResponse_MessagingProduct := "whatsapp";
  MessageResponse_Contacts :=
    [{| ContactInfo_Input := "15551234567"; ContactInfo_WaID := "15551234567" |}];
  MessageResponse_Messages :=
    [{| MessageInfo_ID := "wamid.1"; MessageInfo_MessageStatus := "" |}];
  MessageResponse_Error := None |}.

(** A net/http that can create a request for every method and URL. *)
Definition validRequest (method url : string) : option string := None.

(** A net/http that cannot create a request, whatever the method and
    the URL, and the error it gives. *)
Definition rejectedRequest (method url : string) : option string :=
  Some "net/url: invalid control character in URL".

(** A remote end that accepts every request. *)
Definition okTransport (call : NetCall) : PostOutcome := PostOK sampleResponse.

(** [GetMessagesURL sampleConfig]. *)
Definition sampleURL : string :=
  "https://graph.facebook.com/v18.0/100/messages".

Definition yesButton : InteractiveButton := {|
  InteractiveButton_Type := "reply";
  InteractiveButton_Reply :=
    {| InteractiveReply_ID := "yes"; InteractiveReply_Title := "Yes" |} |}.

(** A list section without rows. *)
Definition emptySection : InteractiveSection := {|
  InteractiveSection_Title := "Menu";
  InteractiveSection_Rows := [] |}.

(** The float64 values 1.0 and +0. *)
Definition float_one : float64 := S754_finite false 4503599627370496 (-52).

Definition float_zero : float64 := S754_zero false.

Definition sampleLocation (lat lon : float64) : LocationContent := {|
  LocationContent_Latitude := lat;
  LocationContent_Longitude := lon;
  LocationContent_Name := "";
  LocationContent_Address := "" |}.

(** The double quote character, and a JSON object with string values,
    for the bodies of the examples. *)
Definition dquote : string := String (ascii_of_nat 34) EmptyString.

Definition jsonString (s : string) : string := (dquote ++ s ++ dquote)%string.

Fixpoint jsonMembers (fields : list (string * string)) : string :=
  match fields with
  | [] => ""
  | [(k, v)] => (jsonString k ++ ":" ++ jsonString v)%string
  | (k, v) :: rest =>
      (jsonString k ++ ":" ++ jsonString v ++ "," ++ jsonMembers rest)%string
  end.

Definition jsonObject (fields : list (string * string)) : string :=
  ("{" ++ jsonMembers fields ++ "}")%string.

(** [json.Marshal] writes the entries of a map in the order of their
    keys. *)
Fixpoint insertEntry (entry : string * string)
  (sorted : list (string * string)) : list (string * string) :=
  match sorted with
  | [] => [entry]
  | e :: rest =>
      if String.leb (fst entry) (fst e) then entry :: sorted
      else e :: insertEntry entry rest
  end.

Definition sortEntries (entries : list (string * string))
  : list (string * string) :=
  fold_right insertEntry [] entries.

(** The body the API answers a media lookup with, and its decoding. *)
Definition sampleMediaInfoBody : string :=
  jsonObject [("url", "https://cdn.example/m1"); ("mime_type", "image/png")].

Definition sampleMediaInfo : MediaURLResponse := {|
  MediaURLResponse_URL := "https://cdn.example/m1";
  MediaURLResponse_MimeType := "image/png";
  MediaURLResponse_SHA256 := "";
  MediaURLResponse_FileSize := 0;
  MediaURLResponse_ID := "";
  MediaURLResponse_MessagingProduct := "" |}.

Definition emptyMediaInfo : MediaURLResponse := {|
  MediaURLResponse_URL := "";
  MediaURLResponse_MimeType := "";
  MediaURLResponse_SHA256 := "";
  MediaURLResponse_FileSize := 0;
  MediaURLResponse_ID := "";
  MediaURLResponse_MessagingProduct := "" |}.

Definition sync_error : string := "unexpected end of JSON input".

(** The body [{"success":true}]. *)
Definition successBody : string :=
  ("{" ++ jsonString "success" ++ ":true}")%string.

(** A template list with three entries, two of them of the same name,
    and the body that encodes it. *)
Definition sampleTemplate (id name : string) : Template := {|
  Template_ID := id;
  Template_Name := name;
  Template_Status := "";
  Template_Category := "";
  Template_Language := "";
  Template_Components := [] |}.

Definition sampleTemplates : TemplatesResponse := {|
  TemplatesResponse_Data :=
    [sampleTemplate "t1" "hello"; sampleTemplate "t2" "welcome";
     sampleTemplate "t3" "welcome"];
  TemplatesResponse_Paging := None |}.

Definition sampleTemplatesBody : string :=
  ("{" ++ jsonString "data" ++ ":["
   ++ jsonObject [("id", "t1"); ("name", "hello")] ++ ","
   ++ jsonObject [("id", "t2"); ("name", "welcome")] ++ ","
   ++ jsonObject [("id", "t3"); ("name", "welcome")] ++ "]}")%string.

(** A remote end and codecs for the examples.  Every request can be
    created.  A GET of media [m1] is answered with
    [sampleMediaInfoBody], a GET of the URL it names with three bytes,
    a GET of media [m0] and every POST with [{}], a GET of the
    templates of account [acct] with [sampleTemplatesBody], every
    DELETE with [successBody], anything else with 404 and a body that
    is not JSON.  The decoders agree with [json.Unmarshal] on these
    bodies; [{}] decodes to the zero value. *)
Definition sampleEnv : Env := {|
  json_Marshal := fun body =>
    match body with
    | MapBody entries =>
        inr (list_byte_of_string (jsonObject (sortEntries entries)))
    end;
  newRequestError := fun _ _ => None;
  roundTrip := fun _ req =>
    let ok body := inr {| HTTPResponse_StatusCode := 200;
                          HTTPResponse_Body := (list_byte_of_string body, None) |} in
    if HTTPRequest_Method req =? "DELETE" then ok successBody
    else if HTTPRequest_Method req =? "POST" then ok "{}"
    else if HTTPRequest_URL req =? "https://graph.facebook.com/v18.0/m1"
    then ok sampleMediaInfoBody
    else if HTTPRequest_URL req =? "https://cdn.example/m1" then ok "PNG"
    else if HTTPRequest_URL req =? "https://graph.facebook.com/v18.0/m0"
    then ok "{}"
    else if HTTPRequest_URL req
            =? "https://graph.facebook.com/v18.0/acct/message_templates"
    then ok sampleTemplatesBody
    else inr {| HTTPResponse_StatusCode := 404;
                HTTPResponse_Body := (list_byte_of_string "not found", None) |};
  formDataContentType := "multipart/form-data; boundary=0123456789";
  os_Open := fun path =>
    if (path =? "/tmp/photo.png") || (path =? "/tmp/notes.xyz")
    then inr {| File_Stat := inr (substring 5 9 path);
                File_Content := inr (list_byte_of_string "PNG") |}
    else inl ("open " ++ path ++ ": no such file or directory")%string;
  json_Unmarshal_ErrorResponse := fun _ => None;
  json_Unmarshal_MediaUploadResponse := fun body =>
    if string_of_list_byte body =? "{}"
    then inr {| MediaUploadResponse_ID := "" |} else inl sync_error;
  json_Unmarshal_MediaURLResponse := fun body =>
    if string_of_list_byte body =? sampleMediaInfoBody then inr sampleMediaInfo
    else if string_of_list_byte body =? "{}" then inr emptyMediaInfo
    else inl sync_error;
  json_Unmarshal_Success := fun body =>
    if string_of_list_byte body =? successBody then inr true
    else if string_of_list_byte body =? "{}" then inr false
    else inl sync_error;
  json_Unmarshal_BusinessProfileResponse := fun body =>
    if string_of_list_byte body =? "{}"
    then inr {| BusinessProfileResponse_Data := [] |} else inl sync_error;
  json_Unmarshal_PhoneNumber := fun body =>
    if string_of_list_byte body =? "{}"
    then inr {| PhoneNumber_ID := "";
                PhoneNumber_DisplayPhoneNumber := "";
                PhoneNumber_VerifiedName := "";
                PhoneNumber_QualityRating := "";
                PhoneNumber_CodeVerificationStatus := "" |}
    else inl sync_error;
  json_Unmarshal_TemplatesResponse := fun body =>
    if string_of_list_byte body =? sampleTemplatesBody then inr sampleTemplates
    else if string_of_list_byte body =? "{}"
    then inr {| TemplatesResponse_Data := []; TemplatesResponse_Paging := None |}
    else inl sync_error |}.

Definition sampleContact (formattedName : string) : ContactContent :=
  builders.ContactBuilder_Build (builders.NewContact formattedName).

(** An environment with the required variables and an API version. *)
Definition sampleGetenv (key : string) : string :=
  if key =? "WHATSAPP_PHONE_NUMBER_ID" then "100"
  else if key =? "WHATSAPP_ACCESS_TOKEN" then "token"
  else if key =? "WHATSAPP_API_VERSION" then "v19.0"
  else "".

Definition sampleTextBuilder : builders.TextMessageBuilder :=
  builders.TextMessageBuilder_Body (builders.NewTextMessage "15551234567") "hi".

Definition sampleListBuilder : builders.ListMessageBuilder :=
  builders.ListMessageBuilder_AddSection
    (builders.ListMessageBuilder_ButtonText
       (builders.ListMessageBuilder_Body
          (builders.NewListMessage "15551234567") "Pick one") "Open")
    "Menu" [builders.Row "r1" "First" ""].

Definition sampleTemplateBuilder : builders.TemplateMessageBuilder :=
  builders.TemplateMessageBuilder_AddBodyParams
    (builders.NewTemplateMessage "15551234567" "welcome" "en_US") ["Ann"].

(* ===================================================================== *)
(** * Properties                                                           *)
(* ===================================================================== *)

(** ** The hash and its encoding *)

Example sha256_abc :
  hex.EncodeToString (sha256.Sum256 (list_byte_of_string "abc"))
  = "ba7816bf8f01cfea414140de5dae2223b00361a396177a9cb410ff61f20015ad".
Proof. vm_compute. reflexivity. Qed.

Example sha256_two_blocks :
  hex.EncodeToString (sha256.Sum256 (list_byte_of_string
     "abcdbcdecdefdefgefghfghighijhijkijkljklmklmnlmnomnopnopq"))
  = "248d6a61d20638b8e5c026930c3e6039a33ce45964ff2167f6ecedd419db06c1".
Proof. vm_compute. reflexivity. Qed.

Example K_are_cube_root_fractions :
  List.length sha256.K = 64
  /\ forallb (fun pk => isRootFraction 3 (fst pk) (snd pk))
       (combine firstPrimes sha256.K) = true.
Proof. split; vm_compute; reflexivity. Qed.

Example init_are_square_root_fractions :
  forallb (fun pk => isRootFraction 2 (fst pk) (snd pk))
    (combine firstPrimes
       [sha256.h0 sha256.init; sha256.h1 sha256.init; sha256.h2 sha256.init;
        sha256.h3 sha256.init; sha256.h4 sha256.init; sha256.h5 sha256.init;
        sha256.h6 sha256.init; sha256.h7 sha256.init]) = true.
Proof. vm_compute. reflexivity. Qed.

Example hmac_rfc4231_case2 :
  expectedSignature "Jefe" (list_byte_of_string "what do ya want for nothing?")
  = "5bdcc146bf60754e6a042426089575c75a003f089d2739839dec58b964ec3843".
Proof. vm_compute. reflexivity. Qed.

Example long_key_hmac :
  expectedSignature
    "kkkkkkkkkkkkkkkkkkkkkkkkkkkkkkkkkkkkkkkkkkkkkkkkkkkkkkkkkkkkkkkkkkkkkkkkkkkkkkkkkkkkkkkkkkkkkkkkkkkk"
    (list_byte_of_string "{}")
  = "b689e50e5ba4b695d078582251ed84fc1aaacf2dc1dc876a3ad2168121d097c9".
Proof. vm_compute. reflexivity. Qed.

Lemma Sum256_length (msg : list byte) :
  List.length (sha256.Sum256 msg) = sha256.Size.
Proof.
  unfold sha256.Sum256, sha256.word_bytes.
  repeat rewrite length_app. reflexivity.
Qed.

Lemma EncodeToString_length (src : list byte) :
  String.length (hex.EncodeToString src) = 2 * List.length src.
Proof.
  induction src as [|v rest IH]; [reflexivity|].
  cbn [hex.EncodeToString String.length List.length]. rewrite IH. lia.
Qed.

Lemma expectedSignature_length (secret : string) (body : list byte) :
  String.length (expectedSignature secret body) = 64.
Proof.
  unfold expectedSignature, hmac.Sum.
  rewrite EncodeToString_length, Sum256_length. reflexivity.
Qed.

Lemma eqb_false_of_length (a b : string) :
  String.length a <> String.length b -> (a =? b) = false.
Proof.
  intros Hlen. apply String.eqb_neq. intros ->. now apply Hlen.
Qed.

Lemma substring_past_end (n m : nat) (s : string) :
  String.length s <= n -> substring n m s = "".
Proof.
  revert n m. induction s as [|c s IH]; intros n m Hn.
  - destruct n, m; reflexivity.
  - destruct n as [|n]; cbn in Hn; [lia|].
    cbn. apply IH. lia.
Qed.

Lemma prefix_eqb (p s : string) :
  prefix p s = (substring 0 (String.length p) s =? p).
Proof.
  destruct (prefix p s) eqn:Hp.
  - apply prefix_correct in Hp. rewrite Hp. symmetry. apply String.eqb_refl.
  - symmetry. apply String.eqb_neq. intros H.
    apply prefix_correct in H. congruence.
Qed.

(** The code strips the prefix only from signatures longer than seven
    bytes; the decision is nevertheless the one the specification
    words, because the expected value is 64 characters long. *)
Lemma VerifyWebhookSignature_spec (c : Client) (body : list byte)
  (signature : string) :
  AppSecret (Client_config c) <> "" ->
  VerifyWebhookSignature c body signature
  = (stripSignaturePrefix signature
     =? expectedSignature (AppSecret (Client_config c)) body).
Proof.
  intros Hsecret. unfold VerifyWebhookSignature, hmac.Equal.
  apply String.eqb_neq in Hsecret. rewrite Hsecret.
  fold (expectedSignature (AppSecret (Client_config c)) body).
  unfold stripSignaturePrefix. rewrite (prefix_eqb "sha256=" signature).
  change (String.length "sha256=") with 7.
  destruct (7 <? String.length signature)%nat eqn:Hlen; [reflexivity|].
  apply Nat.ltb_ge in Hlen. cbn [andb].
  destruct (substring 0 7 signature =? "sha256="); [|reflexivity].
  rewrite substring_past_end by lia.
  rewrite !eqb_false_of_length; [reflexivity| |];
    rewrite expectedSignature_length; cbn; lia.
Qed.

(** ** Webhook: signature check *)

(** [ServeHTTP] routes GET to the handshake and POST to the delivery
    handler; any other method is answered with 405. *)
Lemma ServeHTTP_routes (dec : list byte -> option WebhookPayload)
  (h : Handler) (r : http.Request) :
  (http.Request_Method r = "GET" ->
     ServeHTTP dec h r = handleVerification h r)
  /\ (http.Request_Method r = "POST" ->
        ServeHTTP dec h r = handleWebhook dec h r)
  /\ (http.Request_Method r <> "GET" -> http.Request_Method r <> "POST" ->
        statusOf (ServeHTTP dec h r) = Some http.StatusMethodNotAllowed).
Proof.
  unfold ServeHTTP. repeat split.
  - now intros ->.
  - now intros ->.
  - intros Hget Hpost.
    apply String.eqb_neq in Hget, Hpost.
    unfold http.MethodGet, http.MethodPost. now rewrite Hget, Hpost.
Qed.

(** C1 (amended). For a POST whose body was read, on a handler with
    signature validation enabled, a non-empty app secret and a client
    that carries the same secret: the request is accepted (answered
    200, its payload decoded and handed to [processPayload], whose
    invocations are the callbacks of the request) exactly when the
    supplied signature, with a literal sha256= prefix stripped if
    present, equals the lowercase hex HMAC-SHA256 of the raw body
    under the secret and the body decodes.  On a signature mismatch
    the answer is 403, nothing is decoded or spawned and no callback
    runs.  A body with a matching signature that does not decode is
    answered 400, and no callback runs either. *)
Theorem webhook_signature_check
  (json_Unmarshal : list byte -> option WebhookPayload)
  (h : Handler) (c : Client) (r : http.Request) (body : list byte) :
  Handler_validateSig h = true ->
  AppSecret (Handler_config h) <> "" ->
  Handler_client h = Some c ->
  AppSecret (Client_config c) = AppSecret (Handler_config h) ->
  http.Request_Method r = "POST" ->
  http.Request_Body r = Some body ->
  let signature := http.Get (http.Request_Header r) "X-Hub-Signature-256" in
  let secret := AppSecret (Handler_config h) in
  let served := ServeHTTP json_Unmarshal h r in
  (forall resp payload,
     served = Responded resp (Some payload)
     <-> signatureMatches secret body signature
         /\ json_Unmarshal body = Some payload
         /\ resp = {| http.Response_StatusCode := http.StatusOK;
                      http.Response_Body := "" |})
  /\ (forall payload,
        signatureMatches secret body signature ->
        json_Unmarshal body = Some payload ->
        callbacks h served = processPayload h payload)
  /\ (statusOf served = Some http.StatusForbidden
      <-> ~ signatureMatches secret body signature)
  /\ (~ signatureMatches secret body signature ->
      served = forbidden /\ callbacks h served = Some [])
  /\ (signatureMatches secret body signature ->
      json_Unmarshal body = None ->
      served = Responded (http.Error "Bad request" http.StatusBadRequest) None
      /\ callbacks h served = Some []).
Proof.
  intros Hval Hsecret Hclient Hshared Hpost Hbody signature secret served.
  assert (Hc : AppSecret (Client_config c) <> "") by now rewrite Hshared.
  assert (Hserved : served =
            if stripSignaturePrefix signature =? expectedSignature secret body
            then parseAndAcknowledge json_Unmarshal body else forbidden).
  { subst served.
    rewrite (proj1 (proj2 (ServeHTTP_routes json_Unmarshal h r)) Hpost).
    unfold handleWebhook. rewrite Hbody, Hval, Hclient.
    apply String.eqb_neq in Hsecret. rewrite Hsecret. cbn [andb negb].
    fold signature. rewrite (VerifyWebhookSignature_spec c body signature Hc).
    rewrite Hshared. fold secret.
    now destruct (stripSignaturePrefix signature =? expectedSignature secret body). }
  unfold signatureMatches. rewrite Hserved. clear Hserved.
  unfold parseAndAcknowledge.
  destruct (String.eqb_spec (stripSignaturePrefix signature)
              (expectedSignature secret body)) as [Heq|Hne].
  - split; [|split; [|split; [|split]]].
    + intros resp payload. split.
      * destruct (json_Unmarshal body) as [p|]; [|discriminate].
        intros [= <- <-]. auto.
      * intros (_ & -> & ->). reflexivity.
    + intros payload _ ->. reflexivity.
    + split; [|intros Hno; now elim Hno].
      destruct (json_Unmarshal body); discriminate.
    + intros Hno. now elim Hno.
    + intros _ ->. split; reflexivity.
  - split; [|split; [|split; [|split]]].
    + intros resp payload. split; [discriminate|].
      intros (Hm & _). now elim Hne.
    + intros payload Hm. now elim Hne.
    + split; [intros _; exact Hne|reflexivity].
    + intros _. split; reflexivity.
    + intros Hm. now elim Hne.
Qed.

Lemma webhook_signature_check_witness :
  ServeHTTP sampleDecoder (sampleHandler allHandlers)
    (samplePost "{}" sampleSignature)
  = Responded {| http.Response_StatusCode := http.StatusOK;
                 http.Response_Body := "" |} (Some emptyPayload)
  /\ callbacks (sampleHandler allHandlers)
       (ServeHTTP sampleDecoder (sampleHandler allHandlers)
          (samplePost "{}" sampleSignature))
     = Some [CallOnRawWebhook emptyPayload].
Proof.
  assert (Hm : signatureMatches "s3cret" (list_byte_of_string "{}")
                 sampleSignature) by (vm_compute; reflexivity).
  pose proof (@webhook_signature_check sampleDecoder
                (sampleHandler allHandlers) sampleClient
                (samplePost "{}" sampleSignature) (list_byte_of_string "{}")
                eq_refl ltac:(discriminate) eq_refl eq_refl eq_refl eq_refl)
    as (Haccept & Hcalls & _).
  split.
  - apply Haccept. split; [exact Hm|]. split; reflexivity.
  - rewrite (Hcalls emptyPayload Hm eq_refl). reflexivity.
Defined.

(** A body that is not JSON, with its genuine signature: the signature
    equals the HMAC, yet the delivery is answered 400 and nothing is
    decoded or dispatched, where C1 as stated promises that a request
    with a matching signature is accepted. *)
Lemma signed_undecodable_not_accepted :
  signatureMatches (AppSecret (Handler_config (sampleHandler allHandlers)))
    (list_byte_of_string "{]") brokenBodySignature
  /\ Handler_validateSig (sampleHandler allHandlers) = true
  /\ AppSecret (Handler_config (sampleHandler allHandlers)) = "s3cret"
  /\ ServeHTTP sampleDecoder (sampleHandler allHandlers)
       (samplePost "{]" brokenBodySignature)
     = Responded (http.Error "Bad request" http.StatusBadRequest) None
  /\ callbacks (sampleHandler allHandlers)
       (ServeHTTP sampleDecoder (sampleHandler allHandlers)
          (samplePost "{]" brokenBodySignature))
     = Some [].
Proof.
  split; [vm_compute; reflexivity|]. split; [reflexivity|].
  split; [reflexivity|]. split; vm_compute; reflexivity.
Qed.

Example signed_delivery_accepted :
  handleWebhook sampleDecoder (sampleHandler noHandlers)
    (samplePost "{}" sampleSignature)
  = Responded {| http.Response_StatusCode := http.StatusOK;
                 http.Response_Body := "" |} (Some emptyPayload).
Proof. vm_compute. reflexivity. Qed.

(** The same signature presented without the prefix is accepted too. *)
Example bare_signature_accepted :
  statusOf (handleWebhook sampleDecoder (sampleHandler noHandlers)
    (samplePost "{}"
       "adbde1ce40c89c14215687d5d762a47df6dfaefcfad61e2e86718ffc8498571b"))
  = Some http.StatusOK.
Proof. vm_compute. reflexivity. Qed.

(** One byte of the body changed, one hex digit of the signature
    changed, upper-case hex digits, or the bare prefix: all rejected. *)
Example mutated_body_rejected :
  handleWebhook sampleDecoder (sampleHandler noHandlers)
    (samplePost "{]" sampleSignature) = forbidden.
Proof. vm_compute. reflexivity. Qed.

Example mutated_signature_rejected :
  handleWebhook sampleDecoder (sampleHandler noHandlers)
    (samplePost "{}"
       "sha256=bdbde1ce40c89c14215687d5d762a47df6dfaefcfad61e2e86718ffc8498571b")
  = forbidden.
Proof. vm_compute. reflexivity. Qed.

(** A mismatch is answered 403 also when handlers are registered, and
    none of them runs. *)
Example mismatch_invokes_nothing :
  callbacks (sampleHandler allHandlers)
    (ServeHTTP sampleDecoder (sampleHandler allHandlers)
       (samplePost "{]" sampleSignature))
  = Some []
  /\ ServeHTTP sampleDecoder (sampleHandler allHandlers)
       (samplePost "{]" sampleSignature) = forbidden.
Proof. split; vm_compute; reflexivity. Qed.

(** The delivery of [signed_delivery_accepted] presented to a handler
    whose secret differs in one byte. *)
Example mutated_secret_rejected :
  handleWebhook sampleDecoder
    {| Handler_config := sampleConfigWithSecret "s3creT";
       Handler_client :=
         Some {| Client_config := sampleConfigWithSecret "s3creT" |};
       Handler_handlers := Some noHandlers;
       Handler_verifyToken := "verify-me";
       Handler_validateSig := true |}
    (samplePost "{}" sampleSignature)
  = forbidden.
Proof. vm_compute. reflexivity. Qed.

(** HMAC pads a key shorter than the block with zero bytes: a handler
    whose secret is [s3cret] followed by one zero byte computes the
    same HMAC, and accepts the signature made with [s3cret]. *)
Example padded_secret_accepted :
  handleWebhook sampleDecoder
    {| Handler_config := sampleConfigWithSecret ("s3cret" ++ zeroByte);
       Handler_client :=
         Some {| Client_config :=
                   sampleConfigWithSecret ("s3cret" ++ zeroByte) |};
       Handler_handlers := Some noHandlers;
       Handler_verifyToken := "verify-me";
       Handler_validateSig := true |}
    (samplePost "{}" sampleSignature)
  = Responded {| http.Response_StatusCode := http.StatusOK;
                 http.Response_Body := "" |} (Some emptyPayload).
Proof. vm_compute. reflexivity. Qed.

Example uppercase_signature_rejected :
  handleWebhook sampleDecoder (sampleHandler noHandlers)
    (samplePost "{}"
       "sha256=ADBDE1CE40C89C14215687D5D762A47DF6DFAEFCFAD61E2E86718FFC8498571B")
  = forbidden.
Proof. vm_compute. reflexivity. Qed.

Example bare_prefix_rejected :
  handleWebhook sampleDecoder (sampleHandler noHandlers)
    (samplePost "{}" "sha256=") = forbidden.
Proof. vm_compute. reflexivity. Qed.

(** The guard reads the secret of the handler's configuration and the
    check reads the secret of the client's configuration.  A client
    without a secret rejects every signature, and a handler without a
    client cannot check at all. *)
Lemma client_without_secret (dec : list byte -> option WebhookPayload)
  (h : Handler) (c : Client) (r : http.Request) (body : list byte) :
  Handler_validateSig h = true ->
  AppSecret (Handler_config h) <> "" ->
  http.Request_Body r = Some body ->
  (Handler_client h = Some c -> AppSecret (Client_config c) = "" ->
     handleWebhook dec h r = forbidden)
  /\ (Handler_client h = None -> handleWebhook dec h r = Panicked).
Proof.
  intros Hval Hsecret Hbody. apply String.eqb_neq in Hsecret.
  unfold handleWebhook. rewrite Hbody, Hval, Hsecret. cbn [andb negb].
  split.
  - intros -> Hc. unfold VerifyWebhookSignature. now rewrite Hc.
  - now intros ->.
Qed.

(** With validation switched off, or with no secret configured, the
    signature is not looked at. *)
Example validation_disabled :
  statusOf (handleWebhook sampleDecoder
    (applyOption (sampleHandler noHandlers) (WithSignatureValidation false))
    (samplePost "{}" "sha256=00"))
  = Some http.StatusOK.
Proof. reflexivity. Qed.

(** ** Webhook: verification handshake *)

Lemma Get_missing (kvs : list (string * string)) (key : string) :
  (forall v, ~ In (key, v) kvs) -> http.Get kvs key = "".
Proof.
  induction kvs as [|[k v] rest IH]; intros Hmiss; [reflexivity|].
  cbn. destruct (String.eqb_spec k key) as [->|_].
  - exfalso. apply (Hmiss v). now left.
  - apply IH. intros v' Hin. apply (Hmiss v'). now right.
Qed.

Lemma applyOption_verifyToken (h : Handler) (opts : list Option) :
  Handler_verifyToken (fold_left applyOption opts h) = Handler_verifyToken h.
Proof.
  revert h. induction opts as [|o opts IH]; intros h; [reflexivity|].
  cbn. rewrite IH. now destruct o.
Qed.

(** A handler built by [NewHandler] has a non-empty verify token. *)
Lemma NewHandler_verifyToken (cfg : Config) (cl : option Client)
  (opts : list Option) (h : Handler) :
  NewHandler cfg cl opts = inr h -> Handler_verifyToken h <> "".
Proof.
  unfold NewHandler, ValidateForWebhook.
  destruct (Validate cfg); [discriminate|].
  destruct (String.eqb_spec (WebhookVerifyToken cfg) ""); [discriminate|].
  intros [= <-]. now rewrite applyOption_verifyToken.
Qed.

(** C2. A verification request is answered with 200 and the value of
    hub.challenge as the body exactly when hub.mode is "subscribe" and
    hub.verify_token equals the configured verify token; every other
    combination is answered with 403.  A parameter missing from the
    query reads as the empty string, so with a non-empty configured
    token (which [NewHandler] enforces) a request lacking hub.mode or
    hub.verify_token is answered with 403. *)
Theorem verification_handshake (h : Handler) (r : http.Request) :
  let mode := http.Get (http.Request_Query r) "hub.mode" in
  let token := http.Get (http.Request_Query r) "hub.verify_token" in
  let challenge := http.Get (http.Request_Query r) "hub.challenge" in
  (handleVerification h r = challengeResponse challenge
     <-> mode = "subscribe" /\ token = Handler_verifyToken h)
  /\ (~ (mode = "subscribe" /\ token = Handler_verifyToken h)
        -> handleVerification h r = forbidden)
  /\ (Handler_verifyToken h <> "" ->
      (forall v, ~ In ("hub.mode", v) (http.Request_Query r))
      \/ (forall v, ~ In ("hub.verify_token", v) (http.Request_Query r)) ->
      handleVerification h r = forbidden).
Proof.
  intros mode token challenge.
  assert (Hcases :
    (mode = "subscribe" /\ token = Handler_verifyToken h
     /\ handleVerification h r = challengeResponse challenge)
    \/ (~ (mode = "subscribe" /\ token = Handler_verifyToken h)
        /\ handleVerification h r = forbidden)).
  { unfold handleVerification. fold mode token challenge.
    destruct (String.eqb_spec mode "subscribe") as [Hm|Hm];
      destruct (String.eqb_spec token (Handler_verifyToken h)) as [Ht|Ht];
      cbn [andb].
    - left. auto.
    - right. split; [tauto|reflexivity].
    - right. split; [tauto|reflexivity].
    - right. split; [tauto|reflexivity]. }
  split; [|split].
  - split.
    + intros H200. destruct Hcases as [(Hm & Ht & _)|(_ & H403)]; [auto|].
      rewrite H403 in H200. discriminate.
    + intros Hok. destruct Hcases as [(_ & _ & H200)|(Hno & _)]; tauto.
  - intros Hno. destruct Hcases as [(Hm & Ht & _)|(_ & H403)]; tauto.
  - intros Htok Hmiss.
    destruct Hcases as [(Hm & Ht & _)|(_ & H403)]; [exfalso|exact H403].
    destruct Hmiss as [Hmiss|Hmiss].
    + subst mode. rewrite (Get_missing _ _ Hmiss) in Hm. discriminate.
    + subst token. rewrite (Get_missing _ _ Hmiss) in Ht. now apply Htok.
Qed.

Lemma verification_handshake_witness :
  handleVerification (sampleHandler noHandlers)
    (sampleGet [("hub.mode", "subscribe"); ("hub.challenge", "1158201444")])
  = forbidden.
Proof.
  refine (proj2 (proj2 (verification_handshake (sampleHandler noHandlers)
    (sampleGet [("hub.mode", "subscribe"); ("hub.challenge", "1158201444")])))
    _ _).
  - discriminate.
  - right. intros v [H|[H|[]]]; discriminate.
Defined.

Example handshake_accepts :
  handleVerification (sampleHandler noHandlers)
    (sampleGet [("hub.mode", "subscribe"); ("hub.verify_token", "verify-me");
                ("hub.challenge", "1158201444")])
  = challengeResponse "1158201444".
Proof. reflexivity. Qed.

Example handshake_wrong_token :
  handleVerification (sampleHandler noHandlers)
    (sampleGet [("hub.mode", "subscribe"); ("hub.verify_token", "verify-mE");
                ("hub.challenge", "1158201444")])
  = forbidden.
Proof. reflexivity. Qed.

Example handshake_wrong_mode :
  handleVerification (sampleHandler noHandlers)
    (sampleGet [("hub.mode", "unsubscribe"); ("hub.verify_token", "verify-me");
                ("hub.challenge", "1158201444")])
  = forbidden.
Proof. reflexivity. Qed.

(** ** Webhook: dispatch *)

(** Case analysis along the branches of a dispatch function. *)
Ltac dispatch_cases :=
  repeat (cbv iota;
          match goal with
          | |- context [if ?b then _ else _] => destruct b eqn:?
          | |- context [match ?o with Some _ => _ | None => _ end] =>
              destruct o eqn:?
          end);
  cbv iota.

Lemma filter_none {A} (f : A -> bool) (l : list A) :
  Forall (fun x => f x = false) l -> filter f l = [].
Proof.
  induction 1 as [|x l Hx _ IH]; [reflexivity|].
  cbn. now rewrite Hx.
Qed.

Lemma flat_map_nil {A B} (f : A -> list B) (l : list A) :
  (forall x, In x l -> f x = []) -> flat_map f l = [].
Proof.
  induction l as [|x l IH]; intros Hf; [reflexivity|].
  cbn. rewrite (Hf x) by now left.
  apply IH. intros y Hy. apply Hf. now right.
Qed.

Lemma processMessage_not_raw handlers msg value :
  Forall (fun c => isRawCall c = false) (processMessage handlers msg value).
Proof.
  unfold processMessage, dispatch. cbv zeta.
  dispatch_cases; repeat constructor.
Qed.

Lemma processStatus_not_raw handlers status value :
  Forall (fun c => isRawCall c = false) (processStatus handlers status value).
Proof.
  unfold processStatus. cbv zeta.
  dispatch_cases; repeat constructor.
Qed.

Lemma processEntries_not_raw handlers payload :
  Forall (fun c => isRawCall c = false) (processEntries handlers payload).
Proof.
  unfold processEntries.
  apply Forall_flat_map, Forall_forall. intros entry _.
  apply Forall_flat_map, Forall_forall. intros change _.
  unfold processChange.
  destruct (negb (WebhookChange_Field change =? "messages")); [constructor|].
  repeat (apply Forall_app; split); apply Forall_flat_map, Forall_forall.
  - intros msg _. apply processMessage_not_raw.
  - intros status _. apply processStatus_not_raw.
  - intros err _. destruct (OnError handlers); repeat constructor.
Qed.

(** C3. When a raw handler is registered, [processPayload] invokes it
    with the payload as the first thing it does; everything the
    traversal of entries and changes dispatches comes after it and
    contains no further raw invocation, so the raw handler runs exactly
    once.  In particular, when no change has field "messages" the raw
    invocation is the only one. *)
Theorem raw_handler_once (h : Handler) (handlers : EventHandlers)
  (payload : WebhookPayload) :
  Handler_handlers h = Some handlers ->
  OnRawWebhook handlers = true ->
  processPayload h payload
    = Some (CallOnRawWebhook payload :: processEntries handlers payload)
  /\ (forall calls, processPayload h payload = Some calls ->
        List.length (filter isRawCall calls) = 1)
  /\ ((forall entry change,
          In entry (WebhookPayload_Entry payload) ->
          In change (WebhookEntry_Changes entry) ->
          WebhookChange_Field change <> "messages") ->
      processPayload h payload = Some [CallOnRawWebhook payload]).
Proof.
  intros Hh Hraw.
  assert (Hrun : processPayload h payload
            = Some (CallOnRawWebhook payload :: processEntries handlers payload)).
  { unfold processPayload. now rewrite Hh, Hraw. }
  split; [exact Hrun|split].
  - intros calls Hcalls. rewrite Hrun in Hcalls. injection Hcalls as <-.
    cbn. now rewrite (filter_none _ (processEntries_not_raw handlers payload)).
  - intros Hfields. rewrite Hrun. do 2 f_equal.
    unfold processEntries. apply flat_map_nil. intros entry Hentry.
    apply flat_map_nil. intros change Hchange.
    unfold processChange.
    destruct (String.eqb_spec (WebhookChange_Field change) "messages") as [Heq|_];
      [|reflexivity].
    exfalso. exact (Hfields entry change Hentry Hchange Heq).
Qed.

Lemma raw_handler_once_witness :
  processPayload (sampleHandler allHandlers)
    (samplePayload "account_update"
       (sampleValue [alice] [textMessage "999" "hi"] []))
  = Some [CallOnRawWebhook
            (samplePayload "account_update"
               (sampleValue [alice] [textMessage "999" "hi"] []))].
Proof.
  refine (proj2 (proj2 (@raw_handler_once (sampleHandler allHandlers)
    allHandlers
    (samplePayload "account_update"
       (sampleValue [alice] [textMessage "999" "hi"] [])) _ _)) _).
  - reflexivity.
  - reflexivity.
  - intros entry change [<-|[]] [<-|[]]. discriminate.
Defined.

(** A type without a case (template, button, system, unknown ones)
    reaches no handler, whatever the message carries. *)
Lemma undispatched_type_skipped (handlers : EventHandlers)
  (msg : IncomingMessage) (value : WebhookValue) :
  ~ In (IncomingMessage_Type msg) dispatchedTypes ->
  processMessage handlers msg value = [].
Proof.
  intros Hnot. unfold processMessage. cbv zeta.
  repeat match goal with
         | |- context [IncomingMessage_Type msg =? ?t] =>
             destruct (String.eqb_spec (IncomingMessage_Type msg) t) as [Heq|_];
             [exfalso; apply Hnot; rewrite Heq; cbn; tauto|]
         end.
  reflexivity.
Qed.

(** C5. A message whose declared type has a nil type-specific payload
    is skipped: [processMessage] returns normally with no handler
    invoked, whatever handlers are registered, so no event reaches any
    handler. *)
Theorem nil_payload_skipped (handlers : EventHandlers) (msg : IncomingMessage)
  (value : WebhookValue) :
  payloadAbsent msg = true -> processMessage handlers msg value = [].
Proof.
  intros Habsent. unfold processMessage. cbv zeta.
  generalize (baseEvent msg value). intros base.
  unfold payloadAbsent in Habsent.
  destruct msg as [id from ts ty ctx errs text image audio video document
                   sticker location contacts interactive button reaction
                   referral system].
  cbn [IncomingMessage_Type IncomingMessage_Text IncomingMessage_Image
       IncomingMessage_Audio IncomingMessage_Video IncomingMessage_Document
       IncomingMessage_Sticker IncomingMessage_Location
       IncomingMessage_Contacts IncomingMessage_Interactive
       IncomingMessage_Reaction IncomingMessage_Button
       IncomingMessage_System] in *.
  unfold MessageTypeText, MessageTypeImage, MessageTypeVideo, MessageTypeAudio,
    MessageTypeDocument, MessageTypeSticker, MessageTypeLocation,
    MessageTypeContacts, MessageTypeInteractive, MessageTypeReaction.
  destruct (String.eqb_spec ty "text") as [->|_].
  { destruct text; [discriminate Habsent|reflexivity]. }
  destruct (String.eqb_spec ty "image") as [->|_].
  { destruct image; [discriminate Habsent|reflexivity]. }
  destruct (String.eqb_spec ty "video") as [->|_].
  { destruct video; [discriminate Habsent|reflexivity]. }
  destruct (String.eqb_spec ty "audio") as [->|_].
  { destruct audio; [discriminate Habsent|reflexivity]. }
  destruct (String.eqb_spec ty "document") as [->|_].
  { destruct document; [discriminate Habsent|reflexivity]. }
  destruct (String.eqb_spec ty "sticker") as [->|_].
  { destruct sticker; [discriminate Habsent|reflexivity]. }
  destruct (String.eqb_spec ty "location") as [->|_].
  { destruct location; [discriminate Habsent|reflexivity]. }
  destruct (String.eqb_spec ty "contacts") as [->|_].
  { destruct contacts; [|discriminate Habsent].
    now rewrite andb_false_r. }
  destruct (String.eqb_spec ty "interactive") as [->|_].
  { destruct interactive as [[ity breply lreply]|]; [|reflexivity].
    cbn [IncomingInteractive_Type IncomingInteractive_ButtonReply
         IncomingInteractive_ListReply] in *.
    destruct (String.eqb_spec ity "button_reply") as [->|_].
    - destruct breply; [discriminate Habsent|reflexivity].
    - destruct (String.eqb_spec ity "list_reply") as [->|_]; [|reflexivity].
      destruct lreply; [discriminate Habsent|reflexivity]. }
  destruct (String.eqb_spec ty "reaction") as [->|_].
  { destruct reaction; [discriminate Habsent|reflexivity]. }
  reflexivity.
Qed.

Lemma nil_payload_skipped_witness :
  processMessage allHandlers (bareMessage "image" "999")
    (sampleValue [alice] [] []) = [].
Proof.
  apply (@nil_payload_skipped allHandlers (bareMessage "image" "999")
           (sampleValue [alice] [] [])).
  reflexivity.
Defined.

(** C6. For a status update with status "failed", the only handler
    [processStatus] can invoke is the failed-status handler (once when
    registered, never the sent, delivered or read handlers), and the
    event it receives carries the update's error list.  For any other
    status, every status event delivered has an empty error list. *)
Theorem failed_status_dispatch (handlers : EventHandlers)
  (status : MessageStatusUpdate) (value : WebhookValue) :
  (MessageStatusUpdate_Status status = StatusFailed ->
     Forall (fun c => exists ev,
                 c = CallOnMessageFailed ev
                 /\ MessageStatusEvent_Errors ev
                    = MessageStatusUpdate_Errors status
                 /\ MessageStatusEvent_MessageID ev
                    = MessageStatusUpdate_ID status)
       (processStatus handlers status value)
     /\ List.length (processStatus handlers status value)
        = if OnMessageFailed handlers then 1 else 0)
  /\ (MessageStatusUpdate_Status status <> StatusFailed ->
        Forall (fun c => forall ev, statusEventOf c = Some ev ->
                           MessageStatusEvent_Errors ev = [])
          (processStatus handlers status value)).
Proof.
  unfold processStatus. cbv zeta. split.
  - intros ->. cbn -[statusEvent set_Errors].
    destruct (OnMessageFailed handlers); split; try reflexivity;
      repeat constructor.
    eexists. repeat split.
  - intros Hne. apply String.eqb_neq in Hne. rewrite Hne.
    dispatch_cases; repeat constructor; intros ev [= <-]; reflexivity.
Qed.

Lemma failed_status_dispatch_witness :
  Forall (fun c => exists ev,
              c = CallOnMessageFailed ev
              /\ MessageStatusEvent_Errors ev
                 = MessageStatusUpdate_Errors failedStatus
              /\ MessageStatusEvent_MessageID ev
                 = MessageStatusUpdate_ID failedStatus)
    (processStatus allHandlers failedStatus (sampleValue [] [] [failedStatus]))
  /\ List.length
       (processStatus allHandlers failedStatus (sampleValue [] [] [failedStatus]))
     = 1.
Proof.
  apply (proj1 (@failed_status_dispatch allHandlers failedStatus
                  (sampleValue [] [] [failedStatus]))).
  reflexivity.
Defined.

Example delivered_status_has_no_errors :
  processStatus allHandlers deliveredStatus (sampleValue [] [] [])
  = [CallOnMessageDelivered (statusEvent deliveredStatus (sampleValue [] [] []))]
  /\ MessageStatusEvent_Errors
       (statusEvent deliveredStatus (sampleValue [] [] [])) = [].
Proof. split; reflexivity. Qed.

Lemma findContact_miss (contacts : list WebhookContact) (from : string) :
  (forall c, In c contacts -> WebhookContact_WaID c <> from) ->
  findContact contacts from = None.
Proof.
  induction contacts as [|c rest IH]; intros Hmiss; [reflexivity|].
  cbn. destruct (String.eqb_spec (WebhookContact_WaID c) from) as [Heq|_].
  - exfalso. apply (Hmiss c); [now left|exact Heq].
  - apply IH. intros c' Hin. apply Hmiss. now right.
Qed.

Lemma findContact_first (before after : list WebhookContact)
  (c : WebhookContact) (from : string) :
  (forall c', In c' before -> WebhookContact_WaID c' <> from) ->
  WebhookContact_WaID c = from ->
  findContact (before ++ c :: after) from = Some c.
Proof.
  intros Hbefore Hc.
  induction before as [|b before IH]; cbn.
  - apply String.eqb_eq in Hc. now rewrite Hc.
  - destruct (String.eqb_spec (WebhookContact_WaID b) from) as [Heq|_].
    + exfalso. apply (Hbefore b); [now left|exact Heq].
    + apply IH. intros c' Hin. apply Hbefore. now right.
Qed.

(** Every event [processMessage] delivers embeds the base event. *)
Lemma processMessage_base handlers msg value :
  Forall (fun call => callBase call = Some (baseEvent msg value))
    (processMessage handlers msg value).
Proof.
  unfold processMessage, dispatch. cbv zeta.
  generalize (baseEvent msg value). intros base.
  dispatch_cases; repeat constructor.
Qed.

(** Which handler runs does not depend on the contact list. *)
Lemma processMessage_handler_contacts handlers msg value contacts :
  map calledHandler (processMessage handlers msg (withContacts contacts value))
  = map calledHandler (processMessage handlers msg value).
Proof.
  unfold processMessage, dispatch. cbv zeta.
  generalize (baseEvent msg value),
             (baseEvent msg (withContacts contacts value)).
  intros base base'.
  dispatch_cases; reflexivity.
Qed.

(** What [processMessage] does with a message, by the handler the
    message is meant for: one invocation of that handler, with the base
    event embedded, when the handler is registered, and nothing
    otherwise. *)
Lemma processMessage_matching (handlers : EventHandlers)
  (msg : IncomingMessage) (value : WebhookValue) :
  match matchingHandler msg with
  | Some f =>
      if isSet handlers f
      then exists call,
             processMessage handlers msg value = [call]
             /\ calledHandler call = f
             /\ callBase call = Some (baseEvent msg value)
      else processMessage handlers msg value = []
  | None => processMessage handlers msg value = []
  end.
Proof.
  unfold matchingHandler, processMessage, dispatch, payloadAbsent. cbv zeta.
  generalize (baseEvent msg value). intros base.
  destruct msg as [id from ts ty ctx errs text image audio video document
                   sticker location contacts interactive button reaction
                   referral system].
  cbn [IncomingMessage_Type IncomingMessage_Text IncomingMessage_Image
       IncomingMessage_Audio IncomingMessage_Video IncomingMessage_Document
       IncomingMessage_Sticker IncomingMessage_Location
       IncomingMessage_Contacts IncomingMessage_Interactive
       IncomingMessage_Reaction IncomingMessage_Button
       IncomingMessage_System].
  unfold MessageTypeText, MessageTypeImage, MessageTypeVideo, MessageTypeAudio,
    MessageTypeDocument, MessageTypeSticker, MessageTypeLocation,
    MessageTypeContacts, MessageTypeInteractive, MessageTypeReaction.
  destruct (String.eqb_spec ty "text") as [->|_].
  { destruct text; cbn; [|reflexivity].
    destruct (OnTextMessage handlers); eauto. }
  destruct (String.eqb_spec ty "image") as [->|_].
  { destruct image; cbn; [|reflexivity].
    destruct (OnImageMessage handlers); eauto. }
  destruct (String.eqb_spec ty "video") as [->|_].
  { destruct video; cbn; [|reflexivity].
    destruct (OnVideoMessage handlers); eauto. }
  destruct (String.eqb_spec ty "audio") as [->|_].
  { destruct audio; cbn; [|reflexivity].
    destruct (OnAudioMessage handlers); eauto. }
  destruct (String.eqb_spec ty "document") as [->|_].
  { destruct document; cbn; [|reflexivity].
    destruct (OnDocumentMessage handlers); eauto. }
  destruct (String.eqb_spec ty "sticker") as [->|_].
  { destruct sticker; cbn; [|reflexivity].
    destruct (OnStickerMessage handlers); eauto. }
  destruct (String.eqb_spec ty "location") as [->|_].
  { destruct location; cbn; [|reflexivity].
    destruct (OnLocationMessage handlers); eauto. }
  destruct (String.eqb_spec ty "contacts") as [->|_].
  { destruct contacts; cbn; [now rewrite andb_false_r|].
    destruct (OnContactsMessage handlers); cbn [andb]; eauto. }
  destruct (String.eqb_spec ty "interactive") as [->|_].
  { destruct interactive as [[ity breply lreply]|]; cbn; [|reflexivity].
    destruct (String.eqb_spec ity "button_reply") as [->|_].
    - destruct breply; cbn; [|reflexivity].
      destruct (OnButtonReply handlers); eauto.
    - destruct (String.eqb_spec ity "list_reply") as [->|_]; [|reflexivity].
      destruct lreply; cbn; [|reflexivity].
      destruct (OnListReply handlers); eauto. }
  destruct (String.eqb_spec ty "reaction") as [->|_].
  { destruct reaction; cbn; [|reflexivity].
    destruct (OnReactionMessage handlers); eauto. }
  cbn [andb orb].
  now destruct ((ty =? "button") && isNil button
                || (ty =? "system") && isNil system).
Qed.

(** C7. A message whose handler is registered is delivered to that
    handler, once, whether or not the batch knows its sender.  When no
    contact of the batch has the sender's wa_id, the event is built and
    delivered all the same, with the empty string as its ContactName;
    when contacts match, the first one in list order provides the
    ContactName.  The contact list has no influence on which handler
    runs, and a message with no registered handler of its own is
    delivered to none. *)
Theorem contact_lookup (handlers : EventHandlers) (msg : IncomingMessage)
  (value : WebhookValue) :
  (forall f,
     matchingHandler msg = Some f ->
     isSet handlers f = true ->
     (forall c, In c (WebhookValue_Contacts value) ->
                WebhookContact_WaID c <> IncomingMessage_From msg) ->
     exists call base,
       processMessage handlers msg value = [call]
       /\ calledHandler call = f
       /\ callBase call = Some base
       /\ BaseMessageEvent_ContactName base = ""
       /\ BaseMessageEvent_From base = IncomingMessage_From msg
       /\ BaseMessageEvent_MessageID base = IncomingMessage_ID msg)
  /\ (forall f before c after,
        matchingHandler msg = Some f ->
        isSet handlers f = true ->
        WebhookValue_Contacts value = before ++ c :: after ->
        (forall c', In c' before ->
                    WebhookContact_WaID c' <> IncomingMessage_From msg) ->
        WebhookContact_WaID c = IncomingMessage_From msg ->
        exists call base,
          processMessage handlers msg value = [call]
          /\ calledHandler call = f
          /\ callBase call = Some base
          /\ BaseMessageEvent_ContactName base
             = ContactProfile_Name (WebhookContact_Profile c)
          /\ BaseMessageEvent_From base = IncomingMessage_From msg
          /\ BaseMessageEvent_MessageID base = IncomingMessage_ID msg)
  /\ (forall contacts,
        map calledHandler
          (processMessage handlers msg (withContacts contacts value))
        = map calledHandler (processMessage handlers msg value))
  /\ ((forall f, matchingHandler msg = Some f -> isSet handlers f = false) ->
      processMessage handlers msg value = []).
Proof.
  pose proof (processMessage_matching handlers msg value) as Hrun.
  split; [|split; [|split]].
  - intros f Hf Hset Hmiss. rewrite Hf, Hset in Hrun.
    destruct Hrun as (call & Hcall & Hfield & Hbase).
    exists call, (baseEvent msg value).
    split; [exact Hcall|]. split; [exact Hfield|]. split; [exact Hbase|].
    unfold baseEvent. rewrite findContact_miss by exact Hmiss.
    repeat split.
  - intros f before c after Hf Hset Hcontacts Hbefore Hc.
    rewrite Hf, Hset in Hrun.
    destruct Hrun as (call & Hcall & Hfield & Hbase).
    exists call, (baseEvent msg value).
    split; [exact Hcall|]. split; [exact Hfield|]. split; [exact Hbase|].
    unfold baseEvent. rewrite Hcontacts.
    rewrite findContact_first by assumption. repeat split.
  - intros contacts. apply processMessage_handler_contacts.
  - intros Hnone. destruct (matchingHandler msg) as [f|]; [|exact Hrun].
    now rewrite (Hnone f eq_refl) in Hrun.
Qed.

Lemma contact_lookup_witness :
  exists call base,
    processMessage allHandlers (textMessage "999" "hi") (sampleValue [] [] [])
    = [call]
    /\ calledHandler call = FieldOnTextMessage
    /\ callBase call = Some base
    /\ BaseMessageEvent_ContactName base = ""
    /\ BaseMessageEvent_From base
       = IncomingMessage_From (textMessage "999" "hi")
    /\ BaseMessageEvent_MessageID base
       = IncomingMessage_ID (textMessage "999" "hi").
Proof.
  refine (proj1 (@contact_lookup allHandlers (textMessage "999" "hi")
                   (sampleValue [] [] [])) FieldOnTextMessage _ _ _).
  - reflexivity.
  - reflexivity.
  - intros c [].
Defined.

(** With three contacts, two of them with the sender's wa_id, the
    first of the two gives the name. *)
Example first_matching_contact :
  processMessage allHandlers (textMessage "999" "hi")
    (sampleValue [{| WebhookContact_WaID := "111";
                     WebhookContact_Profile :=
                       {| ContactProfile_Name := "Carol" |} |};
                  alice; bob] [] [])
  = [CallOnTextMessage {| TextMessageEvent_Base := sampleBase "Alice";
                          TextMessageEvent_Body := "hi" |}].
Proof. reflexivity. Qed.

(** A sender the batch does not know, and no text handler: nothing is
    delivered, to the raw handler neither. *)
Example unknown_sender_no_handler :
  processMessage noHandlers (textMessage "999" "hi") (sampleValue [] [] [])
  = [].
Proof. reflexivity. Qed.

(** ** Webhook: the scenarios of the specification *)

(** Scenario A: one text message from a known contact. *)
Example scenario_A :
  processPayload (sampleHandler allHandlers)
    (samplePayload "messages"
       (sampleValue [alice] [textMessage "999" "hi"] []))
  = Some [CallOnRawWebhook
            (samplePayload "messages"
               (sampleValue [alice] [textMessage "999" "hi"] []));
          CallOnTextMessage {| TextMessageEvent_Base := sampleBase "Alice";
                               TextMessageEvent_Body := "hi" |}].
Proof. reflexivity. Qed.

(** Scenario B: a button reply reaches the button-reply handler only. *)
Example scenario_B :
  processMessage allHandlers
    (interactiveMessage "999"
       {| IncomingInteractive_Type := "button_reply";
          IncomingInteractive_ButtonReply :=
            Some {| InteractiveReply_ID := "b1";
                    InteractiveReply_Title := "Yes" |};
          IncomingInteractive_ListReply := None |})
    (sampleValue [alice] [] [])
  = [CallOnButtonReply {| ButtonReplyEvent_Base := sampleBase "Alice";
                          ButtonReplyEvent_ButtonID := "b1";
                          ButtonReplyEvent_ButtonTitle := "Yes" |}].
Proof. reflexivity. Qed.

(** Scenario C: a failed status reaches the failed-status handler with
    its errors. *)
Example scenario_C :
  processEntries allHandlers
    (samplePayload "messages" (sampleValue [] [] [failedStatus]))
  = [CallOnMessageFailed
       (set_Errors (MessageStatusUpdate_Errors failedStatus)
          (statusEvent failedStatus (sampleValue [] [] [failedStatus])))].
Proof. reflexivity. Qed.

(** An unknown sender: the text handler still runs, with no name. *)
Example unknown_sender :
  processMessage allHandlers (textMessage "999" "hi")
    (sampleValue [] [] [])
  = [CallOnTextMessage {| TextMessageEvent_Base := sampleBase "";
                          TextMessageEvent_Body := "hi" |}].
Proof. reflexivity. Qed.

(** ** Outbound client: local validation *)

Section ClientProperties.

Variable newRequest : string -> string -> option string.
Variable httpDo : NetCall -> PostOutcome.
Variable c : Client.

Let url := GetMessagesURL (Client_config c).

Lemma sendMessage_empty_recipient req log :
  MessageRequest_To req = "" ->
  sendMessage newRequest httpDo c req log = (Err missingRecipient, log).
Proof.
  intros Hto. unfold sendMessage. now rewrite Hto.
Qed.

Lemma sendMessage_posts req log :
  MessageRequest_To req <> "" ->
  json_Marshal_error req = None ->
  newRequest "POST" url = None ->
  sendMessage newRequest httpDo c req log
  = (outcomeResult (httpDo (postCall url req)), log ++ [postCall url req]).
Proof.
  intros Hto Hjson Hnew. unfold sendMessage, bind, Post, ret.
  apply String.eqb_neq in Hto. rewrite Hto, Hjson. fold url. rewrite Hnew.
  now destruct (httpDo (postCall url req)).
Qed.

Lemma sendMessage_create_error req log err :
  MessageRequest_To req <> "" ->
  json_Marshal_error req = None ->
  newRequest "POST" url = Some err ->
  sendMessage newRequest httpDo c req log
  = (Err (Errorf ("failed to create request: " ++ err)), log).
Proof.
  intros Hto Hjson Hnew. unfold sendMessage, bind, Post, ret.
  apply String.eqb_neq in Hto. rewrite Hto, Hjson. fold url.
  now rewrite Hnew.
Qed.

Lemma sendMessage_marshal_error req log err :
  MessageRequest_To req <> "" ->
  json_Marshal_error req = Some err ->
  sendMessage newRequest httpDo c req log
  = (Err (Errorf ("failed to marshal request body: " ++ err)), log).
Proof.
  intros Hto Hjson. unfold sendMessage, bind, Post, ret.
  apply String.eqb_neq in Hto. now rewrite Hto, Hjson.
Qed.

Lemma outcomeResult_not_validation o e :
  outcomeResult o <> Err (IsValidationError e).
Proof. now destruct o. Qed.

(** [sendMessage] reports a validation error only for an empty
    recipient, and then without a network call. *)
Lemma sendMessage_validation req log e :
  fst (sendMessage newRequest httpDo c req log) = Err (IsValidationError e) ->
  snd (sendMessage newRequest httpDo c req log) = log
  /\ Field e = "to" /\ MessageRequest_To req = "".
Proof.
  destruct (String.eqb_spec (MessageRequest_To req) "") as [Hto|Hto].
  - rewrite (sendMessage_empty_recipient _ log Hto). cbn.
    intros [= <-]. auto.
  - destruct (json_Marshal_error req) as [err|] eqn:Hjson.
    + rewrite (sendMessage_marshal_error _ log Hto Hjson). discriminate.
    + destruct (newRequest "POST" url) as [err|] eqn:Hnew.
      * rewrite (sendMessage_create_error _ log Hto Hjson Hnew). discriminate.
      * rewrite (sendMessage_posts _ log Hto Hjson Hnew). cbn. intros H.
        now apply outcomeResult_not_validation in H.
Qed.

(** A send performs at most one network call. *)
Lemma sendMessage_log req log :
  snd (sendMessage newRequest httpDo c req log) = log
  \/ snd (sendMessage newRequest httpDo c req log) = log ++ [postCall url req].
Proof.
  destruct (String.eqb_spec (MessageRequest_To req) "") as [Hto|Hto].
  - left. now rewrite (sendMessage_empty_recipient _ log Hto).
  - destruct (json_Marshal_error req) as [err|] eqn:Hjson.
    + left. now rewrite (sendMessage_marshal_error _ log Hto Hjson).
    + destruct (newRequest "POST" url) as [err|] eqn:Hnew.
      * left. now rewrite (sendMessage_create_error _ log Hto Hjson Hnew).
      * right. now rewrite (sendMessage_posts _ log Hto Hjson Hnew).
Qed.

Lemma validateMediaContent_field media err :
  validateMediaContent media = Some err -> Field err = "media".
Proof.
  unfold validateMediaContent. destruct media as [m|].
  - destruct (_ && _); [|discriminate]. now intros [= <-].
  - now intros [= <-].
Qed.

Lemma checkContacts_field contacts i err :
  checkContacts i contacts = Some err -> Field err = "contacts".
Proof.
  revert i. induction contacts as [|contact rest IH]; intros i; cbn.
  - discriminate.
  - destruct (_ =? ""); [now intros [= <-]|apply IH].
Qed.

End ClientProperties.

(** Case analysis along the validation steps of a send function. *)
Ltac validation_cases :=
  repeat match goal with
         | |- context [if ?b then _ else _] => destruct b eqn:?
         | |- context [match ?o with Some _ => _ | None => _ end] =>
             destruct o eqn:?
         end.

Ltac validation_leaf :=
  match goal with
  | |- fst (sendMessage _ _ _ _ _) = _ -> _ =>
      let H := fresh in
      intros H; apply sendMessage_validation in H;
      destruct H as (? & -> & ?); cbn in *
  | |- fst (_, _) = _ -> _ =>
      let H := fresh in
      cbn [fst snd]; intros H; injection H as <-; cbn
  end;
  repeat match goal with
         | H : (_ =? _) = true |- _ => apply String.eqb_eq in H
         | H : Field _ = _ |- _ => rewrite H
         end;
  split; [assumption || reflexivity|];
  split; [tauto|];
  let Heq := fresh in
  intros Heq; first [discriminate Heq | assumption | now subst].

Ltac violation_leaf Hviol :=
  match goal with
  | |- exists e, sendMessage _ _ _ ?req _ = _ /\ _ =>
      destruct (String.eqb_spec (MessageRequest_To req) "") as [Hto|Hto];
      [ rewrite sendMessage_empty_recipient by exact Hto;
        eexists; split; [reflexivity|cbn; tauto]
      | exfalso; cbn in Hto; apply String.eqb_neq in Hto;
        repeat match goal with
               | E : validateMediaContent ?m = None |- _ =>
                   unfold validateMediaContent in E;
                   destruct m; [|discriminate E]
               | E : (if ?b then _ else _) = None |- _ =>
                   destruct b eqn:?; [discriminate E|clear E]
               | E : _ = false |- _ => rewrite E in Hviol; clear E
               end;
        cbn in Hviol; discriminate Hviol ]
  | |- exists e, (Err (IsValidationError ?v), _) = _ /\ _ =>
      repeat match goal with
             | E : validateMediaContent _ = Some _ |- _ =>
                 apply validateMediaContent_field in E
             | E : checkContacts _ _ = Some _ |- _ =>
                 apply checkContacts_field in E
             end;
      exists v; split;
      [reflexivity|repeat match goal with E : Field _ = _ |- _ => rewrite E end;
                   cbn; tauto]
  end.

Lemma checkContacts_unnamed (i : nat) (contacts : list ContactContent) :
  match checkContacts i contacts with
  | Some _ => existsb unnamed contacts = true
  | None => existsb unnamed contacts = false
  end.
Proof.
  revert i. induction contacts as [|contact rest IH]; intros i;
    [reflexivity|].
  cbn [checkContacts existsb].
  change (unnamed contact)
    with (ContactName_FormattedName (ContactContent_Name contact) =? "").
  destruct (ContactName_FormattedName (ContactContent_Name contact) =? "");
    [reflexivity|].
  cbn [orb]. apply IH.
Qed.

Ltac offending_leaf :=
  cbn [option_map find fst snd];
  match goal with
  | |- exists e, (Err (IsValidationError ?v), ?log) = _ /\ _ =>
      exists v; split; [reflexivity|];
      repeat match goal with
             | E : validateMediaContent _ = Some _ |- _ =>
                 apply validateMediaContent_field in E; rewrite E
             | E : checkContacts _ _ = Some _ |- _ =>
                 apply checkContacts_field in E; rewrite E
             end;
      reflexivity
  | Hto : (?to =? "") = true
    |- exists e, sendMessage _ _ _ ?req ?log = _ /\ _ =>
      rewrite (@sendMessage_empty_recipient _ _ _ req log)
        by (apply String.eqb_eq in Hto; exact Hto);
      eexists; split; reflexivity
  | Hto : (?to =? "") = false
    |- forall e, fst (sendMessage _ _ _ ?req ?log) <> _ =>
      let e := fresh "e" in
      let H := fresh "H" in
      intros e H; apply sendMessage_validation in H;
      destruct H as (_ & _ & H); cbn in H;
      apply String.eqb_eq in H; rewrite H in Hto; discriminate Hto
  end.

(** C9. [SendText] with an empty recipient returns a ValidationError
    on field "to" and performs no network call; with an empty body (and
    a recipient, which is checked first) it returns a ValidationError
    on field "body" and performs no network call.  In general a send
    operation returns a ValidationError exactly when one of its local
    checks fails; the error is tagged with the field of the first
    check that fails, the argument that field names is the offending
    one, and no network call is made.  Every violation of the
    required-field rules of the specification is answered in this
    way. *)
Theorem local_validation
  (newRequest : string -> string -> option string)
  (httpDo : NetCall -> PostOutcome) (c : Client) :
  (forall body previewURL log,
     SendText newRequest httpDo c "" body previewURL log
     = (Err missingRecipient, log))
  /\ (forall to previewURL log,
        to <> "" ->
        SendText newRequest httpDo c to "" previewURL log
        = (Err (IsValidationError
                  (NewValidationError "body" "message body is required")),
           log))
  /\ (forall op log,
        match offendingField op with
        | Some field =>
            exists e,
              invoke newRequest httpDo c op log
              = (Err (IsValidationError e), log)
              /\ Field e = field
        | None =>
            forall e,
              fst (invoke newRequest httpDo c op log)
              <> Err (IsValidationError e)
        end)
  /\ (forall op log e,
        fst (invoke newRequest httpDo c op log) = Err (IsValidationError e) ->
        snd (invoke newRequest httpDo c op log) = log
        /\ In (Field e) (validatedFields op)
        /\ (Field e = "to" -> recipient op = ""))
  /\ (forall op log,
        violatesRequiredFields op = true ->
        exists e,
          invoke newRequest httpDo c op log = (Err (IsValidationError e), log)
          /\ In (Field e) (validatedFields op)).
Proof.
  split; [|split; [|split; [|split]]].
  - reflexivity.
  - intros to previewURL log Hto. unfold SendText.
    apply String.eqb_neq in Hto. now rewrite Hto.
  - intros op log. unfold offendingField.
    destruct op; cbn [invoke localChecks];
      unfold SendText, SendTextReply, SendImage, SendVideo, SendAudio,
        SendDocument, SendSticker, SendLocation, SendContacts,
        RemoveReaction, SendReaction, SendInteractiveButtons,
        SendInteractiveList, SendCTAButton, SendSimpleTemplate,
        SendTemplate, SendMessage, invalid, ret, validateMediaContent;
      cbn [TemplateContent_Name TemplateContent_Language
           TemplateLanguage_Code isNil].
    all: repeat match goal with
                | |- context [match ?o with Some _ => _ | None => _ end] =>
                    is_var o; destruct o
                end;
      cbn [TemplateContent_Name TemplateContent_Language
           TemplateLanguage_Code isNil];
      repeat match goal with
             | |- context [?a =? ""] => destruct (a =? "") eqn:?
             | |- context [float64_is_zero ?x] =>
                 destruct (float64_is_zero x) eqn:?
             | |- context [(?n =? 0)%nat] => destruct (n =? 0)%nat eqn:?
             | |- context [(3 <? ?n)%nat] => destruct (3 <? n)%nat eqn:?
             | |- context [checkContacts 0 ?l] =>
                 let H := fresh "Hcheck" in
                 pose proof (checkContacts_unnamed 0 l) as H;
                 destruct (checkContacts 0 l) eqn:?; rewrite H
             end;
      cbn [andb orb];
      offending_leaf.
  - intros op log e.
    destruct op; cbn [invoke recipient validatedFields];
      unfold SendText, SendTextReply, SendImage, SendVideo, SendAudio,
        SendDocument, SendSticker, SendLocation, SendContacts,
        RemoveReaction, SendReaction, SendInteractiveButtons,
        SendInteractiveList, SendCTAButton, SendSimpleTemplate,
        SendTemplate, SendMessage, invalid, ret;
      validation_cases;
      repeat match goal with
             | H : validateMediaContent _ = Some _ |- _ =>
                 apply validateMediaContent_field in H
             | H : checkContacts _ _ = Some _ |- _ =>
                 apply checkContacts_field in H
             end;
      validation_leaf.
  - intros op log Hviol. unfold violatesRequiredFields in Hviol.
    destruct op; cbn [invoke recipient validatedFields] in *;
      unfold SendText, SendTextReply, SendImage, SendVideo, SendAudio,
        SendDocument, SendSticker, SendLocation, SendContacts,
        RemoveReaction, SendReaction, SendInteractiveButtons,
        SendInteractiveList, SendCTAButton, SendSimpleTemplate,
        SendTemplate, SendMessage, invalid, ret;
      cbn [TemplateContent_Name TemplateContent_Language TemplateLanguage_Code];
      validation_cases;
      violation_leaf Hviol.
Qed.

Lemma local_validation_witness :
  SendText validRequest okTransport sampleClient "15551234567" "" false []
  = (Err (IsValidationError
            (NewValidationError "body" "message body is required")), []).
Proof.
  refine (proj1 (proj2 (@local_validation validRequest okTransport
                          sampleClient)) "15551234567" false [] _).
  discriminate.
Defined.

(** Recipient and body both empty: the recipient is checked first, so
    the error is on field "to". *)
Example send_text_both_empty :
  SendText validRequest okTransport sampleClient "" "" false []
  = (Err (IsValidationError
            (NewValidationError "to" "recipient phone number is required")),
     [])
  /\ offendingField (CallSendText "" "" false) = Some "to".
Proof. split; reflexivity. Qed.

Example send_text_no_recipient :
  SendText validRequest okTransport sampleClient "" "x" false []
  = (Err (IsValidationError
            (NewValidationError "to" "recipient phone number is required")),
     []).
Proof. reflexivity. Qed.

Example send_text_sent :
  SendText validRequest okTransport sampleClient "15551234567" "Hello!" false []
  = (Ok sampleResponse,
     [postCall sampleURL (text_request "15551234567" "Hello!" false)]).
Proof. reflexivity. Qed.

Lemma not_sends_unchanged {A} (m : M A) (log : list NetCall) :
  snd (m log) = log -> ~ sends m log.
Proof.
  intros Hlog [call Hcall]. rewrite Hlog in Hcall.
  apply (f_equal (@List.length NetCall)) in Hcall.
  rewrite length_app in Hcall. cbn in Hcall. lia.
Qed.

(** C8 (amended). [SendInteractiveButtons] with no button or with more
    than three returns a ValidationError on field "buttons" without a
    network call.  With one to three buttons the request is built and
    handed to [sendMessage]: with an empty recipient it is rejected
    with a ValidationError on field "to", again without a network call;
    with a non-empty recipient it is sent when net/http can create the
    HTTP request for the messages URL, and otherwise the error of the
    creation is returned and no network call is made. *)
Theorem buttons_validation (newRequest : string -> string -> option string)
  (httpDo : NetCall -> PostOutcome) (c : Client)
  (to bodyText : string) (buttons : list InteractiveButton)
  (opts : option InteractiveOptions) (log : list NetCall) :
  let run :=
    SendInteractiveButtons newRequest httpDo c to bodyText buttons opts log in
  let url := GetMessagesURL (Client_config c) in
  let call := postCall url (buttons_request to bodyText buttons opts) in
  (List.length buttons = 0 \/ 3 < List.length buttons ->
     exists msg,
       run = (Err (IsValidationError (NewValidationError "buttons" msg)), log))
  /\ (1 <= List.length buttons <= 3 ->
        (to = "" -> run = (Err missingRecipient, log))
        /\ (to <> "" -> newRequest "POST" url = None ->
            run = (outcomeResult (httpDo call), log ++ [call]))
        /\ (to <> "" -> forall err, newRequest "POST" url = Some err ->
            run = (Err (Errorf ("failed to create request: " ++ err)), log))).
Proof.
  intros run url call. subst run.
  unfold SendInteractiveButtons, invalid, ret.
  split.
  - intros [Hnone|Hmany].
    + rewrite Hnone. cbn. eauto.
    + apply Nat.ltb_lt in Hmany. rewrite Hmany.
      destruct (List.length buttons =? 0)%nat; eauto.
  - intros [Hlo Hhi].
    assert (H0 : (List.length buttons =? 0)%nat = false)
      by (apply Nat.eqb_neq; lia).
    assert (H3 : (3 <? List.length buttons)%nat = false)
      by (apply Nat.ltb_ge; lia).
    rewrite H0, H3. split; [|split].
    + intros Hto. now apply sendMessage_empty_recipient.
    + intros Hto Hnew.
      apply sendMessage_posts; [exact Hto|reflexivity|exact Hnew].
    + intros Hto err Hnew.
      apply sendMessage_create_error; [exact Hto|reflexivity|exact Hnew].
Qed.

Lemma buttons_validation_witness :
  SendInteractiveButtons validRequest okTransport sampleClient "15551234567"
    "Do you agree?" [yesButton] None []
  = (Ok sampleResponse,
     [postCall sampleURL
        (buttons_request "15551234567" "Do you agree?" [yesButton] None)]).
Proof.
  refine (proj1 (proj2 (proj2 (@buttons_validation validRequest okTransport
    sampleClient "15551234567" "Do you agree?" [yesButton] None []) _)) _ _).
  - cbn. lia.
  - discriminate.
  - reflexivity.
Defined.

(** One button, empty recipient: a ValidationError and no network
    call, where C8 as stated promises that the request is sent. *)
Lemma buttons_empty_recipient_not_sent :
  1 <= List.length [yesButton] <= 3
  /\ SendInteractiveButtons validRequest okTransport sampleClient ""
       "Do you agree?" [yesButton] None []
     = (Err missingRecipient, [])
  /\ ~ sends (SendInteractiveButtons validRequest okTransport sampleClient ""
                "Do you agree?" [yesButton] None) [].
Proof.
  split; [cbn; lia|]. split; [reflexivity|].
  now apply not_sends_unchanged.
Qed.

(** One button and a recipient, but a messages URL that net/http
    cannot make a request for: the error is returned and nothing is
    sent. *)
Example buttons_request_not_created :
  SendInteractiveButtons rejectedRequest okTransport sampleClient
    "15551234567" "Do you agree?" [yesButton] None []
  = (Err (Errorf
       "failed to create request: net/url: invalid control character in URL"),
     []).
Proof. reflexivity. Qed.

Example four_buttons_rejected :
  SendInteractiveButtons validRequest okTransport sampleClient "15551234567"
    "Do you agree?" [yesButton; yesButton; yesButton; yesButton] None []
  = (Err (IsValidationError
            (NewValidationError "buttons" "maximum 3 buttons allowed")), []).
Proof. reflexivity. Qed.

Example no_button_rejected :
  SendInteractiveButtons validRequest okTransport sampleClient "15551234567"
    "Do you agree?" [] None []
  = (Err (IsValidationError
            (NewValidationError "buttons" "at least one button is required")),
     []).
Proof. reflexivity. Qed.

(** C4 (amended). [SendInteractiveList] returns a ValidationError
    without a network call when the sections list is empty (field
    "sections"), when the button text is empty (field "buttonText"),
    or when the recipient is empty (field "to").  In every other case
    the request is built, and it is sent when net/http can create the
    HTTP request for the messages URL; otherwise the error of the
    creation is returned and no network call is made.  The rows of the
    sections are not inspected. *)
Theorem list_validation (newRequest : string -> string -> option string)
  (httpDo : NetCall -> PostOutcome) (c : Client)
  (to bodyText buttonText : string) (sections : list InteractiveSection)
  (opts : option InteractiveOptions) (log : list NetCall) :
  let run :=
    SendInteractiveList newRequest httpDo c to bodyText buttonText sections
      opts log in
  let url := GetMessagesURL (Client_config c) in
  let call := postCall url
                (list_request to bodyText buttonText sections opts) in
  (sections = [] ->
     run = (Err (IsValidationError
                   (NewValidationError "sections"
                      "at least one section is required")), log))
  /\ (sections <> [] -> buttonText = "" ->
      run = (Err (IsValidationError
                    (NewValidationError "buttonText"
                       "button text is required")), log))
  /\ (sections <> [] -> buttonText <> "" -> to = "" ->
      run = (Err missingRecipient, log))
  /\ (sections <> [] -> buttonText <> "" -> to <> "" ->
      newRequest "POST" url = None ->
      run = (outcomeResult (httpDo call), log ++ [call]))
  /\ (sections <> [] -> buttonText <> "" -> to <> "" ->
      forall err, newRequest "POST" url = Some err ->
      run = (Err (Errorf ("failed to create request: " ++ err)), log)).
Proof.
  intros run url call. subst run. unfold SendInteractiveList, invalid, ret.
  split; [|split; [|split; [|split]]].
  - now intros ->.
  - intros Hsec ->. now destruct sections.
  - intros Hsec Hbtn Hto. apply String.eqb_neq in Hbtn. rewrite Hbtn.
    destruct sections; [easy|]. now apply sendMessage_empty_recipient.
  - intros Hsec Hbtn Hto Hnew. apply String.eqb_neq in Hbtn. rewrite Hbtn.
    destruct sections; [easy|].
    apply sendMessage_posts; [exact Hto|reflexivity|exact Hnew].
  - intros Hsec Hbtn Hto err Hnew. apply String.eqb_neq in Hbtn. rewrite Hbtn.
    destruct sections; [easy|].
    apply sendMessage_create_error; [exact Hto|reflexivity|exact Hnew].
Qed.

Lemma list_validation_witness :
  SendInteractiveList validRequest okTransport sampleClient "15551234567"
    "Choose an option:" "" [emptySection] None []
  = (Err (IsValidationError
            (NewValidationError "buttonText" "button text is required")), []).
Proof.
  refine (proj1 (proj2 (@list_validation validRequest okTransport sampleClient
    "15551234567" "Choose an option:" "" [emptySection] None [])) _ _).
  - discriminate.
  - reflexivity.
Defined.

(** A list whose only section has no rows is sent, where C4 as stated
    promises a ValidationError before any network call. *)
Lemma list_empty_section_sent :
  InteractiveSection_Rows emptySection = []
  /\ SendInteractiveList validRequest okTransport sampleClient "15551234567"
       "Choose an option:" "View Options" [emptySection] None []
     = (Ok sampleResponse,
        [postCall sampleURL
           (list_request "15551234567" "Choose an option:" "View Options"
              [emptySection] None)]).
Proof. split; reflexivity. Qed.

Lemma float64_is_zero_iff (x : float64) :
  float64_is_zero x = true <-> exists s, x = S754_zero s.
Proof.
  split.
  - destruct x as [s|[]| |[] m e]; try discriminate. eauto.
  - intros [s ->]. reflexivity.
Qed.

(** C10 (amended). [SendLocation] returns a ValidationError on field
    "location" without a network call for every location whose
    latitude and longitude both compare equal to 0, the coordinate
    (0, 0) included.  A location with a coordinate that is not 0 passes
    this check and is handed to [sendMessage]: an empty recipient gives
    a ValidationError on field "to", and a NaN or infinite coordinate
    makes the marshalling fail, in both cases without a network call;
    with a non-empty recipient and finite coordinates the request is
    sent when net/http can create the HTTP request for the messages
    URL, and otherwise the error of the creation is returned and no
    network call is made. *)
Theorem location_validation (newRequest : string -> string -> option string)
  (httpDo : NetCall -> PostOutcome) (c : Client)
  (to : string) (l : LocationContent) (log : list NetCall) :
  let run := SendLocation newRequest httpDo c to (Some l) log in
  let lat := LocationContent_Latitude l in
  let lon := LocationContent_Longitude l in
  let url := GetMessagesURL (Client_config c) in
  let call := postCall url (location_request to l) in
  (float64_is_zero lat = true /\ float64_is_zero lon = true ->
     run = (Err (IsValidationError
                   (NewValidationError "location"
                      "latitude and longitude are required")), log))
  /\ (float64_is_zero lat = false \/ float64_is_zero lon = false ->
        run = sendMessage newRequest httpDo c (location_request to l) log
        /\ (to = "" -> run = (Err missingRecipient, log))
        /\ (to <> "" ->
            unsupportedFloat lat <> None \/ unsupportedFloat lon <> None ->
            exists err,
              run = (Err (Errorf ("failed to marshal request body: " ++ err)),
                     log))
        /\ (to <> "" -> unsupportedFloat lat = None ->
            unsupportedFloat lon = None ->
            newRequest "POST" url = None ->
            run = (outcomeResult (httpDo call), log ++ [call]))
        /\ (to <> "" -> unsupportedFloat lat = None ->
            unsupportedFloat lon = None ->
            forall err, newRequest "POST" url = Some err ->
            run = (Err (Errorf ("failed to create request: " ++ err)), log))).
Proof.
  intros run lat lon url call. subst run. unfold SendLocation, invalid, ret.
  fold lat lon. split.
  - intros [-> ->]. reflexivity.
  - intros Hnz.
    assert (Hcheck : float64_is_zero lat && float64_is_zero lon = false).
    { destruct Hnz as [-> | ->]; [reflexivity|apply andb_false_r]. }
    assert (Hfinite : unsupportedFloat lat = None ->
                      unsupportedFloat lon = None ->
                      json_Marshal_error (location_request to l) = None).
    { intros Hlat Hlon. unfold json_Marshal_error. cbn. fold lat lon.
      now rewrite Hlat, Hlon. }
    rewrite Hcheck. split; [reflexivity|]. split; [|split; [|split]].
    + intros Hto. now apply sendMessage_empty_recipient.
    + intros Hto Hbad.
      destruct (json_Marshal_error (location_request to l)) as [err|] eqn:Hjson.
      * exists err. apply sendMessage_marshal_error; [exact Hto|exact Hjson].
      * exfalso. unfold json_Marshal_error in Hjson. cbn in Hjson.
        fold lat lon in Hjson.
        destruct (unsupportedFloat lat); [discriminate|].
        destruct (unsupportedFloat lon); [discriminate|].
        destruct Hbad as [Hbad|Hbad]; now apply Hbad.
    + intros Hto Hlat Hlon Hnew.
      apply sendMessage_posts; [exact Hto|now apply Hfinite|exact Hnew].
    + intros Hto Hlat Hlon err Hnew.
      apply sendMessage_create_error; [exact Hto|now apply Hfinite|exact Hnew].
Qed.

Lemma location_validation_witness :
  SendLocation validRequest okTransport sampleClient "15551234567"
    (Some (sampleLocation float_zero (S754_zero true))) []
  = (Err (IsValidationError
            (NewValidationError "location"
               "latitude and longitude are required")), []).
Proof.
  refine (proj1 (@location_validation validRequest okTransport sampleClient
    "15551234567" (sampleLocation float_zero (S754_zero true)) []) _).
  split; reflexivity.
Defined.

(** A location with latitude 1 and an empty recipient, and one with a
    NaN latitude: neither is sent, where C10 as stated promises that a
    location with a non-zero coordinate is sent. *)
Lemma location_nonzero_not_sent :
  float64_is_zero float_one = false
  /\ SendLocation validRequest okTransport sampleClient ""
       (Some (sampleLocation float_one float_zero)) []
     = (Err missingRecipient, [])
  /\ ~ sends (SendLocation validRequest okTransport sampleClient ""
                (Some (sampleLocation float_one float_zero))) []
  /\ float64_is_zero S754_nan = false
  /\ SendLocation validRequest okTransport sampleClient "15551234567"
       (Some (sampleLocation S754_nan float_zero)) []
     = (Err (Errorf
          "failed to marshal request body: json: unsupported value: NaN"),
        []).
Proof.
  split; [reflexivity|]. split; [reflexivity|].
  split; [now apply not_sends_unchanged|].
  split; reflexivity.
Qed.

Example location_sent :
  SendLocation validRequest okTransport sampleClient "15551234567"
    (Some (sampleLocation float_one float_zero)) []
  = (Ok sampleResponse,
     [postCall sampleURL
        (location_request "15551234567"
           (sampleLocation float_one float_zero))]).
Proof. reflexivity. Qed.

Example nil_location_rejected :
  SendLocation validRequest okTransport sampleClient "15551234567" None []
  = (Err (IsValidationError
            (NewValidationError "location" "location content is required")),
     []).
Proof. reflexivity. Qed.

(* ===================================================================== *)
(** * Further properties                                                   *)
(* ===================================================================== *)

(** ** Webhook: which signatures pass *)

Lemma substring_all (s : string) : substring 0 (String.length s) s = s.
Proof.
  induction s as [|ch s IH]; [reflexivity|]. cbn. now rewrite IH.
Qed.

Lemma prefix_split (p s : string) :
  prefix p s = true ->
  s = (p ++ substring (String.length p) (String.length s - String.length p) s)%string.
Proof.
  revert s. induction p as [|a p IH]; intros s Hp.
  - cbn. rewrite Nat.sub_0_r. symmetry. apply substring_all.
  - destruct s as [|b s]; [discriminate|]. cbn in Hp.
    destruct (ascii_dec a b) as [->|]; [|discriminate].
    cbn. f_equal. now apply IH.
Qed.

Lemma prefix_app (p s : string) : prefix p (p ++ s) = true.
Proof.
  induction p as [|a p IH]; [now destruct s|].
  cbn. now destruct (ascii_dec a a).
Qed.

Lemma digit_not_s (z : Z) : hex.digit z <> "s"%char.
Proof.
  unfold hex.digit, hex.hextable.
  destruct (Z.to_nat z) as [|n]; [discriminate|].
  do 15 (destruct n as [|n]; [discriminate|]).
  discriminate.
Qed.

Lemma EncodeToString_prefix (src : list byte) :
  prefix "sha256=" (hex.EncodeToString src) = false.
Proof.
  destruct src as [|v rest]; [reflexivity|].
  cbn [hex.EncodeToString prefix].
  destruct (ascii_dec _ _) as [Heq|]; [|reflexivity].
  exfalso. symmetry in Heq. now apply digit_not_s in Heq.
Qed.

(** X1. [VerifyWebhookSignature] accepts exactly two strings for a
    body: the lowercase hex HMAC-SHA256 of the body under the app
    secret, and that value preceded by [sha256=]; with an empty app
    secret it accepts nothing. *)
Theorem accepted_signature_forms (c : Client) (body : list byte)
  (signature : string) :
  VerifyWebhookSignature c body signature = true
  <-> AppSecret (Client_config c) <> ""
      /\ (signature = expectedSignature (AppSecret (Client_config c)) body
          \/ signature
             = ("sha256="
                ++ expectedSignature (AppSecret (Client_config c)) body)%string).
Proof.
  destruct (String.eqb_spec (AppSecret (Client_config c)) "") as [Hs|Hs].
  - unfold VerifyWebhookSignature. rewrite Hs, String.eqb_refl.
    split; [discriminate|]. intros [H _]. now elim H.
  - rewrite VerifyWebhookSignature_spec by exact Hs.
    remember (expectedSignature (AppSecret (Client_config c)) body)
      as expected eqn:Hexpected.
    unfold stripSignaturePrefix.
    destruct (prefix "sha256=" signature) eqn:Hp.
    + pose proof (prefix_split _ _ Hp) as Hsplit.
      change (String.length "sha256=") with 7 in Hsplit.
      split.
      * intros Heq. apply String.eqb_eq in Heq.
        split; [exact Hs|]. right. rewrite <- Heq. exact Hsplit.
      * intros [_ [H|H]].
        -- exfalso. rewrite H, Hexpected in Hp. unfold expectedSignature in Hp.
           rewrite EncodeToString_prefix in Hp. discriminate.
        -- apply String.eqb_eq. rewrite H.
           cbn [append String.length Nat.sub substring].
           rewrite Nat.sub_0_r. apply substring_all.
    + split.
      * intros Heq. apply String.eqb_eq in Heq. auto.
      * intros [_ [H|H]]; [now apply String.eqb_eq|].
        exfalso. rewrite H in Hp.
        rewrite prefix_app in Hp. discriminate.
Qed.

Lemma accepted_signature_forms_witness :
  VerifyWebhookSignature sampleClient (list_byte_of_string "{}")
    "adbde1ce40c89c14215687d5d762a47df6dfaefcfad61e2e86718ffc8498571b"
  = true.
Proof.
  apply (proj2 (accepted_signature_forms sampleClient
                  (list_byte_of_string "{}")
                  "adbde1ce40c89c14215687d5d762a47df6dfaefcfad61e2e86718ffc8498571b")).
  split; [discriminate|]. left. vm_compute. reflexivity.
Defined.

(** ** Webhook: construction and routing *)

Lemma fold_applyOption (opts : list Option) (h : Handler) :
  Handler_config (fold_left applyOption opts h) = Handler_config h
  /\ Handler_client (fold_left applyOption opts h) = Handler_client h
  /\ Handler_handlers (fold_left applyOption opts h) = Handler_handlers h.
Proof.
  revert h. induction opts as [|opt opts IH]; intros h; [auto|].
  cbn [fold_left]. destruct (IH (applyOption h opt)) as (H1 & H2 & H3).
  rewrite H1, H2, H3. now destruct opt.
Qed.

Lemma last_cons {A} (v : A) (l : list A) (d : A) :
  last (v :: l) d = last l v.
Proof.
  revert v d. induction l as [|w l IH]; intros v d; [reflexivity|].
  change (last (w :: l) d = last (w :: l) v). now rewrite !IH.
Qed.

Lemma fold_applyOption_validateSig (opts : list Option) (h : Handler) :
  Handler_validateSig (fold_left applyOption opts h)
  = last (flat_map (fun opt =>
                      match opt with
                      | WithSignatureValidation validate => [validate]
                      | WithLogger => []
                      end) opts) (Handler_validateSig h).
Proof.
  revert h. induction opts as [|opt opts IH]; intros h; [reflexivity|].
  cbn [fold_left flat_map]. rewrite IH. destruct opt as [|validate].
  - reflexivity.
  - cbn [applyOption Handler_validateSig app]. now rewrite last_cons.
Qed.

(** X2. [NewHandler] succeeds exactly when the phone number ID, the
    access token and the webhook verify token are all non-empty.  The
    handler it returns holds the configuration and the client it was
    given, an empty handler table and the configured verify token;
    signature validation is on unless the last
    [WithSignatureValidation] option says otherwise. *)
Theorem NewHandler_result (cfg : Config) (cl : option Client)
  (opts : list Option) :
  match NewHandler cfg cl opts with
  | inl _ =>
      PhoneNumberID cfg = "" \/ AccessToken cfg = ""
      \/ WebhookVerifyToken cfg = ""
  | inr h =>
      PhoneNumberID cfg <> "" /\ AccessToken cfg <> ""
      /\ WebhookVerifyToken cfg <> ""
      /\ h = {| Handler_config := cfg;
                Handler_client := cl;
                Handler_handlers := Some noHandlers;
                Handler_verifyToken := WebhookVerifyToken cfg;
                Handler_validateSig := requestedValidation opts |}
  end.
Proof.
  unfold NewHandler, ValidateForWebhook, Validate.
  destruct (String.eqb_spec (PhoneNumberID cfg) "") as [Hp|Hp]; [auto|].
  destruct (String.eqb_spec (AccessToken cfg) "") as [Ha|Ha]; [auto|].
  destruct (String.eqb_spec (WebhookVerifyToken cfg) "") as [Hv|Hv]; [auto|].
  repeat (split; [assumption|]).
  match goal with |- ?h = _ => set (built := h) end.
  destruct (fold_applyOption opts
    {| Handler_config := cfg; Handler_client := cl;
       Handler_handlers := Some noHandlers;
       Handler_verifyToken := WebhookVerifyToken cfg;
       Handler_validateSig := true |}) as (H1 & H2 & H3).
  pose proof (applyOption_verifyToken
    {| Handler_config := cfg; Handler_client := cl;
       Handler_handlers := Some noHandlers;
       Handler_verifyToken := WebhookVerifyToken cfg;
       Handler_validateSig := true |} opts) as H4.
  pose proof (fold_applyOption_validateSig opts
    {| Handler_config := cfg; Handler_client := cl;
       Handler_handlers := Some noHandlers;
       Handler_verifyToken := WebhookVerifyToken cfg;
       Handler_validateSig := true |}) as H5.
  fold built in H1, H2, H3, H4, H5. cbn in H1, H2, H3, H4, H5.
  unfold requestedValidation. destruct built. cbn in *. congruence.
Qed.

Lemma NewHandler_config (cfg : Config) (cl : option Client)
  (opts : list Option) (h : Handler) :
  NewHandler cfg cl opts = inr h ->
  Handler_config h = cfg /\ Handler_handlers h = Some noHandlers.
Proof.
  unfold NewHandler. destruct (ValidateForWebhook cfg); [discriminate|].
  intros [= <-].
  destruct (fold_applyOption opts
    {| Handler_config := cfg; Handler_client := cl;
       Handler_handlers := Some noHandlers;
       Handler_verifyToken := WebhookVerifyToken cfg;
       Handler_validateSig := true |}) as (H1 & _ & H3).
  now rewrite H1, H3.
Qed.

(** X3. A handler built from a configuration without an app secret
    never checks a signature, whatever options and client it was given:
    every POST whose body decodes is answered 200 and its payload is
    processed, whatever the signature header says. *)
Theorem no_secret_no_signature_check
  (dec : list byte -> option WebhookPayload) (cfg : Config)
  (cl : option Client) (opts : list Option) (h : Handler)
  (r : http.Request) (body : list byte) (payload : WebhookPayload) :
  NewHandler cfg cl opts = inr h ->
  AppSecret cfg = "" ->
  http.Request_Method r = "POST" ->
  http.Request_Body r = Some body ->
  dec body = Some payload ->
  ServeHTTP dec h r
  = Responded {| http.Response_StatusCode := http.StatusOK;
                 http.Response_Body := "" |} (Some payload).
Proof.
  intros Hnew Hsecret Hmethod Hbody Hdec.
  apply NewHandler_config in Hnew. destruct Hnew as [Hcfg _].
  unfold ServeHTTP, handleWebhook, parseAndAcknowledge.
  rewrite Hmethod, Hbody, Hcfg, Hsecret, Hdec, !String.eqb_refl.
  cbn [negb]. now rewrite Bool.andb_false_r.
Qed.

Lemma no_secret_no_signature_check_witness :
  ServeHTTP sampleDecoder
    (fold_left applyOption [WithSignatureValidation true]
       {| Handler_config := sampleConfigWithSecret "";
          Handler_client := None;
          Handler_handlers := Some noHandlers;
          Handler_verifyToken := "verify-me";
          Handler_validateSig := true |})
    (samplePost "{}" "sha256=00")
  = Responded {| http.Response_StatusCode := http.StatusOK;
                 http.Response_Body := "" |} (Some emptyPayload).
Proof.
  apply (@no_secret_no_signature_check sampleDecoder
           (sampleConfigWithSecret "") None [WithSignatureValidation true]
           _ (samplePost "{}" "sha256=00") (list_byte_of_string "{}")
           emptyPayload); reflexivity.
Defined.

(** X4. A payload is handed to processing only by a POST whose body
    decodes to it, and the response is then 200 with an empty body: a
    GET, another method, an unreadable or undecodable body and a
    rejected signature dispatch nothing. *)
Theorem dispatch_only_after_ok (dec : list byte -> option WebhookPayload)
  (h : Handler) (r : http.Request) (resp : http.Response)
  (payload : WebhookPayload) :
  ServeHTTP dec h r = Responded resp (Some payload) ->
  http.Request_Method r = "POST"
  /\ (exists body, http.Request_Body r = Some body /\ dec body = Some payload)
  /\ resp = {| http.Response_StatusCode := http.StatusOK;
               http.Response_Body := "" |}.
Proof.
  unfold ServeHTTP, handleVerification, handleWebhook, parseAndAcknowledge.
  destruct (String.eqb_spec (http.Request_Method r) http.MethodGet) as [|_].
  { destruct (_ && _); discriminate. }
  destruct (String.eqb_spec (http.Request_Method r) http.MethodPost) as [Hm|_];
    [|discriminate].
  destruct (http.Request_Body r) as [body|]; [|discriminate].
  assert (Hack : match dec body with
                 | Some payload0 =>
                     Responded {| http.Response_StatusCode := http.StatusOK;
                                  http.Response_Body := "" |} (Some payload0)
                 | None =>
                     Responded (http.Error "Bad request" http.StatusBadRequest)
                       None
                 end = Responded resp (Some payload) ->
                 http.Request_Method r = "POST"
                 /\ (exists body0, Some body = Some body0
                                   /\ dec body0 = Some payload)
                 /\ resp = {| http.Response_StatusCode := http.StatusOK;
                              http.Response_Body := "" |}).
  { destruct (dec body) as [p|] eqn:Hdec; [|discriminate].
    intros [= <- <-]. split; [exact Hm|]. split; [|reflexivity].
    exists body. auto. }
  destruct (_ && _); [|exact Hack].
  destruct (Handler_client h); [|discriminate].
  destruct (negb _); [discriminate|exact Hack].
Qed.

Lemma dispatch_only_after_ok_witness :
  http.Request_Method (samplePost "{}" sampleSignature) = "POST"
  /\ (exists body,
        http.Request_Body (samplePost "{}" sampleSignature) = Some body
        /\ sampleDecoder body = Some emptyPayload)
  /\ {| http.Response_StatusCode := http.StatusOK; http.Response_Body := "" |}
     = {| http.Response_StatusCode := http.StatusOK; http.Response_Body := "" |}.
Proof.
  apply (@dispatch_only_after_ok sampleDecoder (sampleHandler noHandlers)
           (samplePost "{}" sampleSignature)).
  vm_compute. reflexivity.
Defined.

(** ** Webhook: which handlers run *)

Lemma processMessage_registered handlers msg value :
  Forall (fun c => isSet handlers (calledHandler c) = true)
    (processMessage handlers msg value).
Proof.
  unfold processMessage, dispatch. cbv zeta.
  dispatch_cases; repeat constructor; cbn;
    try assumption;
    match goal with
    | H : (_ && _) = true |- _ => now apply Bool.andb_true_iff in H
    end.
Qed.

Lemma processStatus_registered handlers status value :
  Forall (fun c => isSet handlers (calledHandler c) = true)
    (processStatus handlers status value).
Proof.
  unfold processStatus. cbv zeta.
  dispatch_cases; repeat constructor; cbn; assumption.
Qed.

Lemma processEntries_registered handlers payload :
  Forall (fun c => isSet handlers (calledHandler c) = true)
    (processEntries handlers payload).
Proof.
  unfold processEntries.
  apply Forall_flat_map, Forall_forall. intros entry _.
  apply Forall_flat_map, Forall_forall. intros change _.
  unfold processChange.
  destruct (negb (WebhookChange_Field change =? "messages")); [constructor|].
  repeat (apply Forall_app; split); apply Forall_flat_map, Forall_forall.
  - intros msg _. apply processMessage_registered.
  - intros status _. apply processStatus_registered.
  - intros err _. destruct (OnError handlers) eqn:He; repeat constructor.
    exact He.
Qed.

(** X5. Once a handler table is installed with [SetHandlers], a
    delivery is processed without a panic and invokes only handlers
    that are set in that table; a nil field is never called. *)
Theorem only_registered_handlers_run (h : Handler) (handlers : EventHandlers)
  (payload : WebhookPayload) :
  exists calls,
    processPayload (SetHandlers h (Some handlers)) payload = Some calls
    /\ Forall (fun c => isSet handlers (calledHandler c) = true) calls.
Proof.
  unfold processPayload, SetHandlers. cbn [Handler_handlers].
  eexists. split; [reflexivity|].
  apply Forall_app. split; [|apply processEntries_registered].
  destruct (OnRawWebhook handlers) eqn:Hraw; repeat constructor.
  exact Hraw.
Qed.

Lemma flat_map_length_le {A B} (f : A -> list B) (l : list A) :
  (forall x, List.length (f x) <= 1) ->
  List.length (flat_map f l) <= List.length l.
Proof.
  intros Hf. induction l as [|x l IH]; [reflexivity|].
  cbn. rewrite length_app. specialize (Hf x). lia.
Qed.

Lemma flat_map_length_sum {A B} (f : A -> list B) (g : A -> nat) (l : list A) :
  (forall x, List.length (f x) <= g x) ->
  List.length (flat_map f l) <= list_sum (map g l).
Proof.
  intros Hf. unfold list_sum. induction l as [|x l IH]; [reflexivity|].
  cbn [flat_map map fold_right]. rewrite length_app. specialize (Hf x). lia.
Qed.

Lemma processMessage_length handlers msg value :
  List.length (processMessage handlers msg value) <= 1.
Proof.
  unfold processMessage, dispatch. cbv zeta.
  dispatch_cases; cbn; lia.
Qed.

Lemma processStatus_length handlers status value :
  List.length (processStatus handlers status value) <= 1.
Proof.
  unfold processStatus. cbv zeta.
  dispatch_cases; cbn; lia.
Qed.

(** X6. Each message, status update and error of a delivery leads to at
    most one handler invocation, and the raw handler to at most one per
    delivery; changes of a field other than [messages] lead to none. *)
Theorem at_most_one_call_per_item (h : Handler) (handlers : EventHandlers)
  (payload : WebhookPayload) :
  (exists calls,
     processPayload (SetHandlers h (Some handlers)) payload = Some calls
     /\ List.length calls <= 1 + deliveredItems payload)
  /\ (forall msg value,
        List.length (processMessage handlers msg value) <= 1)
  /\ (forall status value,
        List.length (processStatus handlers status value) <= 1)
  /\ (forall change,
        WebhookChange_Field change <> "messages" ->
        processChange handlers change = []).
Proof.
  split; [|split; [|split]];
    [|intros msg value; apply processMessage_length
     |intros status value; apply processStatus_length
     |intros change Hfield; unfold processChange;
      apply String.eqb_neq in Hfield; now rewrite Hfield].
  unfold processPayload, SetHandlers. cbn [Handler_handlers].
  eexists. split; [reflexivity|].
  rewrite length_app.
  assert (Hraw : List.length (if OnRawWebhook handlers
                              then [CallOnRawWebhook payload] else []) <= 1)
    by (destruct (OnRawWebhook handlers); cbn; lia).
  enough (List.length (processEntries handlers payload)
          <= deliveredItems payload) by lia.
  clear Hraw. unfold processEntries, deliveredItems.
  apply flat_map_length_sum. intros entry.
  apply flat_map_length_sum. intros change.
  unfold processChange.
  destruct (WebhookChange_Field change =? "messages"); [|reflexivity].
  cbn [negb]. rewrite !length_app.
  pose proof (flat_map_length_le
    (fun msg => processMessage handlers msg (WebhookChange_Value change))
    (WebhookValue_Messages (WebhookChange_Value change))
    (fun msg => processMessage_length handlers msg _)).
  pose proof (flat_map_length_le
    (fun status => processStatus handlers status (WebhookChange_Value change))
    (WebhookValue_Statuses (WebhookChange_Value change))
    (fun status => processStatus_length handlers status _)).
  pose proof (flat_map_length_le
    (fun err =>
       if OnError handlers
       then [CallOnError {| WebhookErrorEvent_Error := err;
                            WebhookErrorEvent_Metadata :=
                              WebhookValue_Metadata (WebhookChange_Value change) |}]
       else [])
    (WebhookValue_Errors (WebhookChange_Value change))
    (fun err => ltac:(destruct (OnError handlers); cbn; lia))).
  lia.
Qed.

(** X7. A handler as [NewHandler] returns it has an empty handler
    table: until [SetHandlers] is called every delivery is processed
    without invoking anything.  After [SetHandlers(nil)] processing any
    delivery panics on the nil table. *)
Theorem fresh_handler_is_silent (cfg : Config) (cl : option Client)
  (opts : list Option) (h : Handler) (payload : WebhookPayload) :
  NewHandler cfg cl opts = inr h ->
  processPayload h payload = Some []
  /\ processPayload (SetHandlers h None) payload = None.
Proof.
  intros Hnew. apply NewHandler_config in Hnew. destruct Hnew as [_ Hh].
  split; [|reflexivity].
  unfold processPayload. rewrite Hh. cbn [OnRawWebhook noHandlers app].
  f_equal.
  pose proof (processEntries_registered noHandlers payload) as Hreg.
  destruct (processEntries noHandlers payload) as [|call calls];
    [reflexivity|].
  inversion Hreg as [|? ? Hcall _]. now destruct call.
Qed.

Lemma fresh_handler_is_silent_witness :
  processPayload
    (fold_left applyOption []
       {| Handler_config := sampleConfig;
          Handler_client := Some sampleClient;
          Handler_handlers := Some noHandlers;
          Handler_verifyToken := WebhookVerifyToken sampleConfig;
          Handler_validateSig := true |})
    (samplePayload "messages" (sampleValue [alice] [textMessage "999" "hi"] []))
  = Some []
  /\ processPayload
       (SetHandlers
          (fold_left applyOption []
             {| Handler_config := sampleConfig;
                Handler_client := Some sampleClient;
                Handler_handlers := Some noHandlers;
                Handler_verifyToken := WebhookVerifyToken sampleConfig;
                Handler_validateSig := true |}) None)
       (samplePayload "messages" (sampleValue [alice] [textMessage "999" "hi"] []))
     = None.
Proof.
  apply (@fresh_handler_is_silent sampleConfig (Some sampleClient) []).
  reflexivity.
Defined.

(** ** Webhook: routing *)

Lemma processMessage_typed handlers msg value :
  Forall (fun c => In (calledHandler c)
                     (handlersOfType (IncomingMessage_Type msg)))
    (processMessage handlers msg value).
Proof.
  unfold processMessage, dispatch, handlersOfType. cbv zeta.
  dispatch_cases; repeat (apply Forall_cons || apply Forall_nil); cbn; auto.
Qed.

Lemma processStatus_typed handlers status value :
  Forall (fun c => In (calledHandler c)
                     (handlersOfStatus (MessageStatusUpdate_Status status)))
    (processStatus handlers status value).
Proof.
  unfold processStatus, handlersOfStatus. cbv zeta.
  dispatch_cases; repeat (apply Forall_cons || apply Forall_nil); cbn; auto.
Qed.

Lemma baseEvent_fields (msg : IncomingMessage) (value : WebhookValue) :
  BaseMessageEvent_MessageID (baseEvent msg value) = IncomingMessage_ID msg
  /\ BaseMessageEvent_From (baseEvent msg value) = IncomingMessage_From msg
  /\ BaseMessageEvent_Timestamp (baseEvent msg value)
     = IncomingMessage_Timestamp msg
  /\ BaseMessageEvent_Context (baseEvent msg value)
     = IncomingMessage_Context msg
  /\ BaseMessageEvent_PhoneNumber (baseEvent msg value)
     = WebhookMetadata_DisplayPhoneNumber (WebhookValue_Metadata value)
  /\ BaseMessageEvent_PhoneID (baseEvent msg value)
     = WebhookMetadata_PhoneNumberID (WebhookValue_Metadata value).
Proof.
  unfold baseEvent. cbv zeta.
  destruct (findContact _ _); repeat split; reflexivity.
Qed.

(** X8. A message is routed by its declared type alone: it reaches
    only the handler of that type (for [interactive], the button or
    the list reply handler), never a status, error or raw handler, and
    a type without a case reaches none.  The event delivered carries
    the message's ID, sender, timestamp and context and the phone
    number and phone number ID of the change's metadata.  A status
    update is routed by its status in the same way, and an unknown
    status reaches no handler. *)
Theorem routing_follows_declared_type (handlers : EventHandlers)
  (value : WebhookValue) :
  (forall msg,
     Forall (fun c =>
               In (calledHandler c) (handlersOfType (IncomingMessage_Type msg))
               /\ exists base,
                    callBase c = Some base
                    /\ BaseMessageEvent_MessageID base = IncomingMessage_ID msg
                    /\ BaseMessageEvent_From base = IncomingMessage_From msg
                    /\ BaseMessageEvent_Timestamp base
                       = IncomingMessage_Timestamp msg
                    /\ BaseMessageEvent_Context base
                       = IncomingMessage_Context msg
                    /\ BaseMessageEvent_PhoneNumber base
                       = WebhookMetadata_DisplayPhoneNumber
                           (WebhookValue_Metadata value)
                    /\ BaseMessageEvent_PhoneID base
                       = WebhookMetadata_PhoneNumberID
                           (WebhookValue_Metadata value))
       (processMessage handlers msg value))
  /\ (forall status,
        Forall (fun c =>
                  In (calledHandler c)
                    (handlersOfStatus (MessageStatusUpdate_Status status))
                  /\ callBase c = None)
          (processStatus handlers status value)).
Proof.
  split.
  - intros msg.
    pose proof (processMessage_typed handlers msg value) as Htyped.
    pose proof (processMessage_base handlers msg value) as Hbase.
    rewrite Forall_forall in *. intros c Hc. split; [now apply Htyped|].
    exists (baseEvent msg value). split; [now apply Hbase|].
    apply baseEvent_fields.
  - intros status.
    pose proof (processStatus_typed handlers status value) as Htyped.
    rewrite Forall_forall in *. intros c Hc. split; [now apply Htyped|].
    revert Hc. unfold processStatus. cbv zeta.
    dispatch_cases; cbn; intros Hc; intuition (subst; reflexivity).
Qed.

Example text_type_with_image_payload :
  processMessage allHandlers
    {| IncomingMessage_ID := "m1";
       IncomingMessage_From := "999";
       IncomingMessage_Timestamp := "1700000000";
       IncomingMessage_Type := "text";
       IncomingMessage_Context := None;
       IncomingMessage_Errors := [];
       IncomingMessage_Text := None;
       IncomingMessage_Image :=
         Some {| IncomingMedia_ID := "media.1";
                 IncomingMedia_MimeType := "image/png";
                 IncomingMedia_SHA256 := "";
                 IncomingMedia_Caption := "" |};
       IncomingMessage_Audio := None;
       IncomingMessage_Video := None;
       IncomingMessage_Document := None;
       IncomingMessage_Sticker := None;
       IncomingMessage_Location := None;
       IncomingMessage_Contacts := [];
       IncomingMessage_Interactive := None;
       IncomingMessage_Button := None;
       IncomingMessage_Reaction := None;
       IncomingMessage_Referral := None;
       IncomingMessage_System := None |}
    (sampleValue [] [] [])
  = [].
Proof. reflexivity. Qed.

(** X9. Whether a signature is checked is decided by the app secret of
    the handler's configuration, but the check itself uses the app
    secret of the client's configuration.  On a handler built with
    validation on and a non-empty app secret, a client whose own
    configuration has no app secret makes every POST with a readable
    body end in 403, whatever its signature; and without a client
    (nil) every such POST panics before a response is written. *)
Theorem signature_check_uses_client_secret
  (dec : list byte -> option WebhookPayload) (cfg : Config)
  (cl : option Client) (opts : list Option) (h : Handler)
  (r : http.Request) (body : list byte) :
  NewHandler cfg cl opts = inr h ->
  requestedValidation opts = true ->
  AppSecret cfg <> "" ->
  http.Request_Method r = "POST" ->
  http.Request_Body r = Some body ->
  match cl with
  | None => ServeHTTP dec h r = Panicked
  | Some c =>
      AppSecret (Client_config c) = "" -> ServeHTTP dec h r = forbidden
  end.
Proof.
  intros Hnew Hopts Hsecret Hmethod Hbody.
  assert (Hh : Handler_config h = cfg /\ Handler_client h = cl
               /\ Handler_validateSig h = true).
  { unfold NewHandler in Hnew.
    destruct (ValidateForWebhook cfg); [discriminate|].
    injection Hnew as <-.
    destruct (fold_applyOption opts
      {| Handler_config := cfg; Handler_client := cl;
         Handler_handlers := Some noHandlers;
         Handler_verifyToken := WebhookVerifyToken cfg;
         Handler_validateSig := true |}) as (H1 & H2 & _).
    rewrite H1, H2, fold_applyOption_validateSig. auto. }
  destruct Hh as (Hcfg & Hcl & Hval).
  assert (Hserve : ServeHTTP dec h r = handleWebhook dec h r).
  { unfold ServeHTTP. now rewrite Hmethod. }
  rewrite <- Hcfg in Hsecret.
  destruct (client_without_secret dec h
              (match cl with Some c => c | None => sampleClient end)
              r Hval Hsecret Hbody) as [Hempty Hnil].
  rewrite Hserve. destruct cl as [c|].
  - intros Hc. now apply Hempty.
  - now apply Hnil.
Qed.

Lemma signature_check_uses_client_secret_witness :
  ServeHTTP sampleDecoder
    (fold_left applyOption []
       {| Handler_config := sampleConfig;
          Handler_client :=
            Some {| Client_config := sampleConfigWithSecret "" |};
          Handler_handlers := Some noHandlers;
          Handler_verifyToken := WebhookVerifyToken sampleConfig;
          Handler_validateSig := true |})
    (samplePost "{}" sampleSignature)
  = forbidden.
Proof.
  apply (@signature_check_uses_client_secret sampleDecoder sampleConfig
           (Some {| Client_config := sampleConfigWithSecret "" |}) []
           _ (samplePost "{}" sampleSignature) (list_byte_of_string "{}"));
    reflexivity || discriminate.
Defined.

(** ** Outbound client: what a send operation puts on the wire *)

Lemma sendMessage_outcome (newRequest : string -> string -> option string)
  (httpDo : NetCall -> PostOutcome) (c : Client)
  (req : MessageRequest) (log : list NetCall) :
  (exists e, sendMessage newRequest httpDo c req log = (Err e, log))
  \/ (MessageRequest_To req <> ""
      /\ sendMessage newRequest httpDo c req log
         = (outcomeResult
              (httpDo (postCall (GetMessagesURL (Client_config c)) req)),
            log ++ [postCall (GetMessagesURL (Client_config c)) req])).
Proof.
  destruct (String.eqb_spec (MessageRequest_To req) "") as [Hto|Hto].
  - left. eexists. apply sendMessage_empty_recipient. exact Hto.
  - destruct (json_Marshal_error req) as [err|] eqn:Hjson.
    + left. eexists. apply sendMessage_marshal_error; [exact Hto|exact Hjson].
    + destruct (newRequest "POST" (GetMessagesURL (Client_config c)))
        as [err|] eqn:Hnew.
      * left. eexists.
        apply sendMessage_create_error; [exact Hto|exact Hjson|exact Hnew].
      * right. split; [exact Hto|].
        apply sendMessage_posts; [exact Hto|exact Hjson|exact Hnew].
Qed.

(** X10. Every send operation makes at most one network call and never
    retries.  Either it returns an error and leaves the network alone,
    or it issues a single POST to the messages URL of the configured
    phone number, addressed to the operation's non-empty recipient, and
    returns what that exchange produced. *)
Theorem send_posts_at_most_once
  (newRequest : string -> string -> option string)
  (httpDo : NetCall -> PostOutcome) (c : Client)
  (op : SendCall) (log : list NetCall) :
  (exists e, invoke newRequest httpDo c op log = (Err e, log))
  \/ (exists req,
        MessageRequest_To req = recipient op
        /\ recipient op <> ""
        /\ invoke newRequest httpDo c op log
           = (outcomeResult
                (httpDo (postCall (GetMessagesURL (Client_config c)) req)),
              log ++ [postCall (GetMessagesURL (Client_config c)) req])).
Proof.
  destruct op; cbn [invoke recipient];
    unfold SendText, SendTextReply, SendImage, SendVideo, SendAudio,
      SendDocument, SendSticker, SendLocation, SendContacts,
      RemoveReaction, SendReaction, SendInteractiveButtons,
      SendInteractiveList, SendCTAButton, SendSimpleTemplate,
      SendTemplate, SendMessage, invalid, ret;
    validation_cases;
    try (left; eexists; reflexivity);
    match goal with
    | |- context [sendMessage newRequest httpDo c ?r log] =>
        destruct (sendMessage_outcome newRequest httpDo c r log)
          as [[e He]|[Hto He]];
        [left; exists e; exact He
        |right; exists r; split; [reflexivity|split; [exact Hto|exact He]]]
    end.
Qed.

Lemma app_one_neq {A} (l : list A) (x : A) : l <> l ++ [x].
Proof.
  intros H. apply (f_equal (@List.length A)) in H.
  rewrite length_app in H. cbn in H. lia.
Qed.

Lemma sendMessage_call (newRequest : string -> string -> option string)
  (httpDo : NetCall -> PostOutcome) (c : Client)
  (req : MessageRequest) (log : list NetCall) (call : NetCall) :
  snd (sendMessage newRequest httpDo c req log) = log ++ [call] ->
  call = postCall (GetMessagesURL (Client_config c)) req.
Proof.
  destruct (sendMessage_log newRequest httpDo c req log) as [H|H];
    rewrite H; intros Heq.
  - now apply app_one_neq in Heq.
  - apply app_inv_head in Heq. now injection Heq.
Qed.

(** X11. A request put on the wire by a send operation that builds the
    request itself is a POST to the messages URL with messaging product
    [whatsapp], recipient type [individual], the operation's recipient,
    and content for exactly the message type it declares. *)
Theorem sent_request_is_wellformed
  (newRequest : string -> string -> option string)
  (httpDo : NetCall -> PostOutcome)
  (c : Client) (op : SendCall) (log : list NetCall) (call : NetCall) :
  buildsRequest op = true ->
  snd (invoke newRequest httpDo c op log) = log ++ [call] ->
  NetCall_Method call = "POST"
  /\ NetCall_URL call = GetMessagesURL (Client_config c)
  /\ MessageRequest_MessagingProduct (NetCall_Body call) = "whatsapp"
  /\ MessageRequest_RecipientType (NetCall_Body call) = "individual"
  /\ MessageRequest_To (NetCall_Body call) = recipient op
  /\ populatedPayloads (NetCall_Body call)
     = [MessageRequest_Type (NetCall_Body call)].
Proof.
  intros Hop.
  destruct op; try discriminate Hop; clear Hop; cbn [invoke recipient];
    unfold SendText, SendTextReply, SendImage, SendVideo, SendAudio,
      SendDocument, SendSticker, SendLocation, SendContacts,
      RemoveReaction, SendReaction, SendInteractiveButtons,
      SendInteractiveList, SendCTAButton, SendSimpleTemplate,
      SendTemplate, invalid, ret;
    validation_cases;
    intros Hcall;
    try (cbn [snd] in Hcall; now apply app_one_neq in Hcall);
    apply sendMessage_call in Hcall; subst call;
    repeat match goal with
           | E : validateMediaContent ?m = None |- _ =>
               unfold validateMediaContent in E;
               destruct m; [clear E|discriminate E]
           | o : option InteractiveOptions |- _ => destruct o
           end;
    unfold populatedPayloads;
    cbn [postCall NetCall_Method NetCall_URL NetCall_Body request
         text_request location_request interactive_request buttons_request
         list_request applyOptions
         set_Context set_Text set_Image set_Audio set_Video set_Document
         set_Sticker set_Location set_Contacts set_Interactive set_Template
         set_Reaction
         MessageRequest_MessagingProduct MessageRequest_RecipientType
         MessageRequest_To MessageRequest_Type MessageRequest_Text
         MessageRequest_Image MessageRequest_Audio MessageRequest_Video
         MessageRequest_Document MessageRequest_Sticker
         MessageRequest_Location MessageRequest_Contacts
         MessageRequest_Interactive MessageRequest_Template
         MessageRequest_Reaction isNil List.length Nat.eqb app];
    repeat match goal with
           | E : (List.length ?l =? 0)%nat = false |- _ =>
               rewrite E; clear E
           end;
    cbn [app]; auto 10.
Qed.

Lemma sent_request_is_wellformed_witness :
  NetCall_Method (postCall sampleURL (text_request "15551234567" "hi" false))
  = "POST"
  /\ NetCall_URL (postCall sampleURL (text_request "15551234567" "hi" false))
     = GetMessagesURL (Client_config sampleClient)
  /\ MessageRequest_MessagingProduct
       (NetCall_Body (postCall sampleURL (text_request "15551234567" "hi" false)))
     = "whatsapp"
  /\ MessageRequest_RecipientType
       (NetCall_Body (postCall sampleURL (text_request "15551234567" "hi" false)))
     = "individual"
  /\ MessageRequest_To
       (NetCall_Body (postCall sampleURL (text_request "15551234567" "hi" false)))
     = recipient (CallSendText "15551234567" "hi" false)
  /\ populatedPayloads
       (NetCall_Body (postCall sampleURL (text_request "15551234567" "hi" false)))
     = [MessageRequest_Type
          (NetCall_Body
             (postCall sampleURL (text_request "15551234567" "hi" false)))].
Proof.
  apply (@sent_request_is_wellformed validRequest okTransport sampleClient
           (CallSendText "15551234567" "hi" false) []);
    reflexivity.
Defined.

(** X12. [SendTextReply] does not look at the body: with a recipient
    and a message ID to reply to, and a messages URL that net/http can
    create a request for, the reply is posted whatever the body is, the
    empty string included, with the preview switched off; [SendText]
    rejects the empty body. *)
Theorem reply_body_is_not_validated
  (newRequest : string -> string -> option string)
  (httpDo : NetCall -> PostOutcome)
  (c : Client) (to body replyToMessageID : string) (log : list NetCall) :
  to <> "" ->
  replyToMessageID <> "" ->
  newRequest "POST" (GetMessagesURL (Client_config c)) = None ->
  (exists req,
     SendTextReply newRequest httpDo c to body replyToMessageID log
     = (outcomeResult
          (httpDo (postCall (GetMessagesURL (Client_config c)) req)),
        log ++ [postCall (GetMessagesURL (Client_config c)) req])
     /\ MessageRequest_Text req
        = Some {| TextContent_Body := body; TextContent_PreviewURL := false |}
     /\ MessageRequest_Context req
        = Some {| Context_MessageID := replyToMessageID |})
  /\ SendText newRequest httpDo c to "" false log
     = (Err (IsValidationError
               (NewValidationError "body" "message body is required")), log).
Proof.
  intros Hto Hreply Hnew. split.
  - unfold SendTextReply. apply String.eqb_neq in Hreply. rewrite Hreply.
    exists (set_Text (Some {| TextContent_Body := body;
                              TextContent_PreviewURL := false |})
              (set_Context (Some {| Context_MessageID := replyToMessageID |})
                 (request to MessageTypeText))).
    split; [|split; reflexivity].
    apply sendMessage_posts; [exact Hto|reflexivity|exact Hnew].
  - unfold SendText. apply String.eqb_neq in Hto. now rewrite Hto.
Qed.

Lemma reply_body_is_not_validated_witness :
  (exists req,
     SendTextReply validRequest okTransport sampleClient "15551234567" ""
       "wamid.1" []
     = (outcomeResult
          (okTransport
             (postCall (GetMessagesURL (Client_config sampleClient)) req)),
        [] ++ [postCall (GetMessagesURL (Client_config sampleClient)) req])
     /\ MessageRequest_Text req
        = Some {| TextContent_Body := ""; TextContent_PreviewURL := false |}
     /\ MessageRequest_Context req
        = Some {| Context_MessageID := "wamid.1" |})
  /\ SendText validRequest okTransport sampleClient "15551234567" "" false []
     = (Err (IsValidationError
               (NewValidationError "body" "message body is required")), []).
Proof.
  apply (@reply_body_is_not_validated validRequest okTransport sampleClient
           "15551234567" "" "wamid.1" []);
    discriminate || reflexivity.
Defined.

Lemma checkContacts_first (i : nat) (before after : list ContactContent)
  (contact : ContactContent) :
  Forall (fun k => ContactName_FormattedName (ContactContent_Name k) <> "")
    before ->
  ContactName_FormattedName (ContactContent_Name contact) = "" ->
  checkContacts i (before ++ contact :: after)
  = Some (NewValidationError "contacts"
            ("contact " ++ itoa (i + List.length before)
             ++ ": formatted_name is required")%string).
Proof.
  intros Hbefore Hcontact. revert i.
  induction Hbefore as [|k before Hk _ IH]; intros i.
  - cbn. rewrite Hcontact, Nat.add_0_r. reflexivity.
  - cbn [app checkContacts List.length]. apply String.eqb_neq in Hk.
    rewrite Hk, IH. now rewrite Nat.add_succ_r.
Qed.

(** X13. [SendContacts] names the first contact without a formatted
    name by its index in the list, counting from zero, and makes no
    network call; the contacts after it and the recipient are not
    looked at. *)
Theorem first_unnamed_contact_is_reported
  (newRequest : string -> string -> option string)
  (httpDo : NetCall -> PostOutcome)
  (c : Client) (to : string) (before after : list ContactContent)
  (contact : ContactContent) (log : list NetCall) :
  Forall (fun k => ContactName_FormattedName (ContactContent_Name k) <> "")
    before ->
  ContactName_FormattedName (ContactContent_Name contact) = "" ->
  SendContacts newRequest httpDo c to (before ++ contact :: after) log
  = (Err (IsValidationError
            (NewValidationError "contacts"
               ("contact " ++ itoa (List.length before)
                ++ ": formatted_name is required")%string)), log).
Proof.
  intros Hbefore Hcontact. unfold SendContacts.
  rewrite length_app. cbn [List.length].
  replace (List.length before + S (List.length after) =? 0)%nat with false
    by (symmetry; apply Nat.eqb_neq; lia).
  rewrite (@checkContacts_first 0 before after contact Hbefore Hcontact).
  reflexivity.
Qed.

Lemma first_unnamed_contact_is_reported_witness :
  SendContacts validRequest okTransport sampleClient "15551234567"
    ([sampleContact "Ann"] ++ sampleContact "" :: [sampleContact "Bob"]) []
  = (Err (IsValidationError
            (NewValidationError "contacts"
               "contact 1: formatted_name is required")), []).
Proof.
  apply (@first_unnamed_contact_is_reported validRequest okTransport
           sampleClient "15551234567" [sampleContact "Ann"] [sampleContact "Bob"]
           (sampleContact "") []).
  - repeat constructor. discriminate.
  - reflexivity.
Defined.

(** ** HTTP layer: requests and errors *)

(** Case analysis along the steps of a request: marshalling, creating
    the request, the exchange, reading the body, the status test. *)
Ltac wire_cases :=
  repeat (match goal with
          | |- context [bodyReader ?e ?b] => destruct (bodyReader e b) eqn:?
          | |- context [newRequestError ?e ?m ?u] =>
              destruct (newRequestError e m u) eqn:?
          | |- context [roundTrip ?e ?l ?r] => destruct (roundTrip e l r) eqn:?
          | |- context [HTTPResponse_Body ?r] =>
              destruct (HTTPResponse_Body r) as [? [?|]] eqn:?
          | |- context [(400 <=? ?z)%Z] => destruct (400 <=? z)%Z eqn:?
          end; cbv beta iota zeta).

(** X14. A call through [doRequestJSON] takes three steps in order.
    When the body cannot be marshalled, that error is returned and
    nothing is sent.  Otherwise, when the request cannot be created,
    that error is returned and nothing is sent.  Otherwise exactly one
    request is sent, with the given method and URL, the bearer token of
    the configuration, the JSON content type (with or without a body)
    and the marshalled body, and a failure of the exchange is returned
    as it is. *)
Theorem json_request_shape {T} (env : Env) (c : Client) (method url : string)
  (body : option Body) (decode : option (list byte -> sum string T))
  (log : list HTTPRequest) :
  let run := doRequestJSON env c method url body decode log in
  let created (reqBody : RequestBody) : Prop :=
    match newRequestError env method url with
    | Some err =>
        run = (Err (Errorf ("failed to create request: " ++ err)), log)
    | None =>
        snd run = log ++ [jsonRequest c method url reqBody]
        /\ forall err,
             roundTrip env log (jsonRequest c method url reqBody) = inl err ->
             fst run = Err (Errorf err)
    end in
  match body with
  | None => created NoBody
  | Some b =>
      match json_Marshal env b with
      | inl err =>
          run = (Err (Errorf ("failed to marshal request body: " ++ err)), log)
      | inr jsonBody => created (JSONBody jsonBody)
      end
  end.
Proof.
  cbv zeta.
  assert (Hcreated : forall reqBody,
            bodyReader env body = inr reqBody ->
            match newRequestError env method url with
            | Some err =>
                doRequestJSON env c method url body decode log
                = (Err (Errorf ("failed to create request: " ++ err)), log)
            | None =>
                snd (doRequestJSON env c method url body decode log)
                = log ++ [jsonRequest c method url reqBody]
                /\ forall err,
                     roundTrip env log (jsonRequest c method url reqBody)
                     = inl err ->
                     fst (doRequestJSON env c method url body decode log)
                     = Err (Errorf err)
            end).
  { intros reqBody Hbody.
    unfold doRequestJSON, doRequestRaw, doRequest, jsonRequest.
    rewrite Hbody.
    destruct (newRequestError env method url) as [err|]; [reflexivity|].
    split.
    - wire_cases; try reflexivity;
        destruct decode as [unmarshal|]; try reflexivity;
        now destruct (unmarshal _).
    - intros err ->. reflexivity. }
  destruct body as [b|].
  - destruct (json_Marshal env b) as [err|jsonBody] eqn:Hjson.
    + unfold doRequestJSON, doRequestRaw, doRequest, bodyReader.
      now rewrite Hjson.
    + apply Hcreated. unfold bodyReader. now rewrite Hjson.
  - now apply Hcreated.
Qed.

(** A POST with a body to a remote end that answers: one request, with
    the bearer token and the JSON content type. *)
Example json_request_sent :
  snd (PostJSON sampleEnv sampleClient "https://graph.facebook.com/v18.0/100"
         (MapBody [("pin", "123456")])
         (Some (json_Unmarshal_Success sampleEnv)) [])
  = [{| HTTPRequest_Method := "POST";
        HTTPRequest_URL := "https://graph.facebook.com/v18.0/100";
        HTTPRequest_Header := [("Authorization", "Bearer token");
                               ("Content-Type", "application/json")];
        HTTPRequest_Body :=
          JSONBody (list_byte_of_string (jsonObject [("pin", "123456")])) |}].
Proof. reflexivity. Qed.

Lemma parseError_status (env : Env) (body : list byte) (statusCode : Z) :
  APIError_HTTPStatusCode (parseError env body statusCode) = statusCode.
Proof.
  unfold parseError. now destruct (json_Unmarshal_ErrorResponse env body).
Qed.

(** X15. An [APIError] comes out of [doRequestJSON] only after one
    request was sent and answered with a status of 400 or more, and it
    carries that status.  When the response body is not an error
    object, the HTTP status also becomes the error code and the body
    the message: such an error is never classified as an
    authentication or permission error, nor, for a status below 1000,
    as a rate limit. *)
Theorem api_error_carries_status {T} (env : Env) (c : Client)
  (method url : string) (body : option Body)
  (decode : option (list byte -> sum string T))
  (log log' : list HTTPRequest) (e : APIError) :
  doRequestJSON env c method url body decode log = (Err (IsAPIError e), log') ->
  exists req resp,
    log' = log ++ [req]
    /\ roundTrip env log req = inr resp
    /\ snd (HTTPResponse_Body resp) = None
    /\ (400 <= HTTPResponse_StatusCode resp)%Z
    /\ APIError_HTTPStatusCode e = HTTPResponse_StatusCode resp
    /\ (json_Unmarshal_ErrorResponse env (fst (HTTPResponse_Body resp)) = None ->
        APIError_Code e = HTTPResponse_StatusCode resp
        /\ APIError_Message e
           = string_of_list_byte (fst (HTTPResponse_Body resp))
        /\ IsAuthError e = false
        /\ IsPermissionError e = false
        /\ ((HTTPResponse_StatusCode resp < 1000)%Z -> IsRateLimit e = false)).
Proof.
  unfold doRequestJSON, doRequestRaw, doRequest.
  wire_cases; try discriminate;
    try (destruct decode as [unmarshal|];
         [destruct (unmarshal _)|]; discriminate).
  intros H. injection H as He Hlog. subst e log'.
  match goal with
  | Hrt : roundTrip env log ?req = inr ?resp,
    Hst : (400 <=? _)%Z = true |- _ =>
      exists req, resp; apply Z.leb_le in Hst
  end.
  rewrite Heqp. cbn [fst snd].
  do 4 (split; [reflexivity || assumption|]).
  split; [apply parseError_status|].
  intros Hparse. unfold parseError. rewrite Hparse.
  unfold IsAuthError, IsPermissionError, IsRateLimit.
  cbn [APIError_Code APIError_Message APIError_Type].
  repeat split.
  - apply Bool.orb_false_iff. split; [apply Z.eqb_neq; lia|reflexivity].
  - apply Bool.orb_false_iff. split; apply Z.eqb_neq; lia.
  - intros Hlt. apply Bool.orb_false_iff. split; apply Z.eqb_neq; lia.
Qed.

Lemma api_error_carries_status_witness :
  exists req resp,
    [jsonRequest sampleClient "GET" "https://graph.facebook.com/v18.0/zz" NoBody]
    = [] ++ [req]
    /\ roundTrip sampleEnv [] req = inr resp
    /\ snd (HTTPResponse_Body resp) = None
    /\ (400 <= HTTPResponse_StatusCode resp)%Z
    /\ APIError_HTTPStatusCode
         {| APIError_Code := 404; APIError_Message := "not found";
            APIError_Type := ""; APIError_ErrorSubcode := 0;
            APIError_FBTraceID := ""; APIError_ErrorData := None;
            APIError_HTTPStatusCode := 404 |}
       = HTTPResponse_StatusCode resp
    /\ (json_Unmarshal_ErrorResponse sampleEnv (fst (HTTPResponse_Body resp))
        = None ->
        APIError_Code
          {| APIError_Code := 404; APIError_Message := "not found";
             APIError_Type := ""; APIError_ErrorSubcode := 0;
             APIError_FBTraceID := ""; APIError_ErrorData := None;
             APIError_HTTPStatusCode := 404 |}
        = HTTPResponse_StatusCode resp
        /\ APIError_Message
             {| APIError_Code := 404; APIError_Message := "not found";
                APIError_Type := ""; APIError_ErrorSubcode := 0;
                APIError_FBTraceID := ""; APIError_ErrorData := None;
                APIError_HTTPStatusCode := 404 |}
           = string_of_list_byte (fst (HTTPResponse_Body resp))
        /\ IsAuthError
             {| APIError_Code := 404; APIError_Message := "not found";
                APIError_Type := ""; APIError_ErrorSubcode := 0;
                APIError_FBTraceID := ""; APIError_ErrorData := None;
                APIError_HTTPStatusCode := 404 |} = false
        /\ IsPermissionError
             {| APIError_Code := 404; APIError_Message := "not found";
                APIError_Type := ""; APIError_ErrorSubcode := 0;
                APIError_FBTraceID := ""; APIError_ErrorData := None;
                APIError_HTTPStatusCode := 404 |} = false
        /\ ((HTTPResponse_StatusCode resp < 1000)%Z ->
            IsRateLimit
              {| APIError_Code := 404; APIError_Message := "not found";
                 APIError_Type := ""; APIError_ErrorSubcode := 0;
                 APIError_FBTraceID := ""; APIError_ErrorData := None;
                 APIError_HTTPStatusCode := 404 |} = false)).
Proof.
  apply (@api_error_carries_status MediaURLResponse sampleEnv sampleClient
           "GET" "https://graph.facebook.com/v18.0/zz" None
           (Some (json_Unmarshal_MediaURLResponse sampleEnv)) []).
  reflexivity.
Defined.

(** ** Media: types and transfers *)

(** Case analysis on the comparisons of a table lookup with [key]. *)
Ltac table_cases key :=
  repeat match goal with
         | |- context [?k =? key] =>
             destruct (String.eqb_spec k key) as [<-|?]; cbn [orb]
         end.

Ltac try_extensions l :=
  match l with
  | ?k :: ?rest => solve [exists k; reflexivity] || try_extensions rest
  end.

(** X16. An extension that [detectMIMEType] knows gets the MIME type
    of the first table listing it, and [GetMediaTypeFromMIME] maps
    that MIME type back to the message type of a table listing the
    extension: image, document, audio or video.  The sticker table
    adds nothing, its only extension being an image extension.
    Conversely every MIME type that [GetMediaTypeFromMIME] classifies
    is detected for some extension. *)
Theorem detected_type_is_classified :
  (forall ext,
     detectMIMEType ext <> "" ->
     exists table type,
       In (table, type) mediaTables
       /\ index table ext = Some (detectMIMEType ext)
       /\ GetMediaTypeFromMIME (detectMIMEType ext) = type)
  /\ (forall ext,
        index StickerMIMETypes ext <> None ->
        GetMediaTypeFromMIME (detectMIMEType ext) = MessageTypeImage)
  /\ (forall mimeType,
        GetMediaTypeFromMIME mimeType <> "" ->
        exists ext, detectMIMEType ext = mimeType).
Proof.
  split; [|split].
  - intros ext. unfold detectMIMEType.
    unfold ImageMIMETypes, DocumentMIMETypes, AudioMIMETypes,
      VideoMIMETypes, StickerMIMETypes.
    cbn [index]. table_cases ext; intros Hext; try congruence;
      first [ exists ImageMIMETypes, MessageTypeImage;
              split; [cbn; auto 10|split; reflexivity]
            | exists DocumentMIMETypes, MessageTypeDocument;
              split; [cbn; auto 10|split; reflexivity]
            | exists AudioMIMETypes, MessageTypeAudio;
              split; [cbn; auto 10|split; reflexivity]
            | exists VideoMIMETypes, MessageTypeVideo;
              split; [cbn; auto 10|split; reflexivity] ].
  - intros ext. unfold StickerMIMETypes. cbn [index].
    destruct (String.eqb_spec ".webp" ext) as [<-|_]; [reflexivity|].
    intros H. now elim H.
  - intros mimeType. unfold GetMediaTypeFromMIME, hasValue.
    unfold ImageMIMETypes, DocumentMIMETypes, AudioMIMETypes, VideoMIMETypes.
    cbn [existsb snd]. table_cases mimeType; intros Hm; try congruence;
      let keys := eval compute in
        (map fst (ImageMIMETypes ++ DocumentMIMETypes ++ AudioMIMETypes
                  ++ VideoMIMETypes)) in
      try_extensions keys.
Qed.

Lemma detected_type_is_classified_witness :
  exists table type,
    In (table, type) mediaTables
    /\ index table ".pdf" = Some (detectMIMEType ".pdf")
    /\ GetMediaTypeFromMIME (detectMIMEType ".pdf") = type.
Proof.
  apply (proj1 detected_type_is_classified ".pdf"). discriminate.
Defined.

Lemma scanExt_plain (rest before suffix : list ascii) :
  forallb (fun ch => negb (Ascii.eqb ch "/") && negb (Ascii.eqb ch ".")) rest
  = true ->
  filepath.scanExt (rev rest ++ "."%char :: before) suffix
  = string_of_list_ascii ("."%char :: rest ++ suffix).
Proof.
  revert suffix. induction rest as [|ch rest IH] using rev_ind; intros suffix Hrest.
  - reflexivity.
  - rewrite forallb_app in Hrest. apply Bool.andb_true_iff in Hrest.
    destruct Hrest as [Hrest Hch]. cbn in Hch.
    rewrite Bool.andb_true_r in Hch. apply Bool.andb_true_iff in Hch.
    destruct Hch as [Hslash Hdot].
    apply Bool.negb_true_iff in Hslash, Hdot.
    rewrite rev_app_distr. cbn [rev app filepath.scanExt].
    rewrite Hslash, Hdot, IH by exact Hrest.
    now rewrite <- app_assoc.
Qed.

Lemma list_ascii_of_string_app (a b : string) :
  list_ascii_of_string (a ++ b) = list_ascii_of_string a ++ list_ascii_of_string b.
Proof.
  induction a as [|ch a IH]; [reflexivity|]. cbn. now rewrite IH.
Qed.

Lemma Ext_plain (stem ext : string) :
  plainExtension ext = true -> filepath.Ext (stem ++ ext) = ext.
Proof.
  destruct ext as [|ch rest]; [discriminate|]. cbn [plainExtension].
  intros H. apply Bool.andb_true_iff in H. destruct H as [Hdot Hrest].
  apply Ascii.eqb_eq in Hdot. subst ch.
  unfold filepath.Ext. rewrite list_ascii_of_string_app. cbn [list_ascii_of_string].
  rewrite rev_app_distr. cbn [rev]. rewrite <- app_assoc. cbn [app].
  rewrite scanExt_plain by exact Hrest.
  rewrite app_nil_r. cbn [string_of_list_ascii].
  now rewrite string_of_list_ascii_of_string.
Qed.

Lemma detected_extension_is_plain (ext : string) :
  detectMIMEType ext <> "" -> plainExtension ext = true.
Proof.
  unfold detectMIMEType.
  unfold ImageMIMETypes, DocumentMIMETypes, AudioMIMETypes,
    VideoMIMETypes, StickerMIMETypes.
  cbn [index]. table_cases ext; intros Hext; congruence || reflexivity.
Qed.

(** X17. [UploadMedia] takes the MIME type from the extension of the
    path alone.  For a file that opens and reads, at a path ending in
    an extension of the media tables, one multipart POST goes to the
    media URL with the fields [messaging_product], [file] (the file's
    name and bytes) and [type] (the MIME type of that extension), in
    this order.  With an extension the tables do not list, the upload
    is refused with a ValidationError on [file] before any request,
    whatever the file contains. *)
Theorem upload_type_follows_extension (env : Env) (c : Client)
  (file : File) (name : string) (log : list HTTPRequest) :
  File_Stat file = inr name ->
  (forall stem ext data,
     detectMIMEType ext <> "" ->
     os_Open env (stem ++ ext) = inr file ->
     File_Content file = inr data ->
     newRequestError env "POST" (config.GetMediaURL (Client_config c)) = None ->
     snd (UploadMedia env c (stem ++ ext) log)
     = log ++ [uploadRequest env c data name (detectMIMEType ext)])
  /\ (forall filePath,
        os_Open env filePath = inr file ->
        detectMIMEType (filepath.Ext filePath) = "" ->
        UploadMedia env c filePath log
        = (Err (IsValidationError
                  (NewValidationError "file"
                     ("unsupported file type: " ++ filepath.Ext filePath))),
           log)).
Proof.
  intros Hstat. split.
  - intros stem ext data Hext Hopen Hdata Hnew.
    unfold UploadMedia. rewrite Hopen, Hstat.
    rewrite (@Ext_plain stem ext (@detected_extension_is_plain ext Hext)).
    apply String.eqb_neq in Hext. rewrite Hext.
    unfold UploadMediaReader. rewrite Hext, Hdata, Hnew. reflexivity.
  - intros filePath Hopen Hext.
    unfold UploadMedia. rewrite Hopen, Hstat, Hext. reflexivity.
Qed.

Lemma upload_type_follows_extension_witness :
  snd (UploadMedia sampleEnv sampleClient ("/tmp/photo" ++ ".png") [])
  = [] ++ [uploadRequest sampleEnv sampleClient (list_byte_of_string "PNG")
             "photo.png" (detectMIMEType ".png")].
Proof.
  apply (proj1 (@upload_type_follows_extension sampleEnv sampleClient
                  {| File_Stat := inr "photo.png";
                     File_Content := inr (list_byte_of_string "PNG") |}
                  "photo.png" [] eq_refl) "/tmp/photo" ".png");
    [discriminate|reflexivity|reflexivity|reflexivity].
Defined.

(** X18. [DownloadMediaByID] makes at most two requests, in this
    order: the lookup of the media ID at the API, then a GET of the URL
    the lookup returned, which carries the bearer token as its only
    header.  It succeeds only when both were made and the second was
    answered below 400 and read to the end; the data is that body and
    the MIME type is the one the lookup reported.  In every failure
    the requests made are a prefix of these two. *)
Theorem download_by_id_requests (env : Env) (c : Client) (mediaID : string)
  (log : list HTTPRequest) :
  match DownloadMediaByID env c mediaID log with
  | (Ok (data, mimeType), log') =>
      exists lookup info resp,
        mediaID <> ""
        /\ roundTrip env log (lookupRequest c mediaID) = inr lookup
        /\ json_Unmarshal_MediaURLResponse env (fst (HTTPResponse_Body lookup))
           = inr info
        /\ MediaURLResponse_URL info <> ""
        /\ mimeType = MediaURLResponse_MimeType info
        /\ log' = log ++ [lookupRequest c mediaID;
                          downloadRequest c (MediaURLResponse_URL info)]
        /\ roundTrip env (log ++ [lookupRequest c mediaID])
             (downloadRequest c (MediaURLResponse_URL info)) = inr resp
        /\ (HTTPResponse_StatusCode resp < 400)%Z
        /\ HTTPResponse_Body resp = (data, None)
  | (Err _, log') =>
      log' = log
      \/ log' = log ++ [lookupRequest c mediaID]
      \/ exists lookup info,
           roundTrip env log (lookupRequest c mediaID) = inr lookup
           /\ json_Unmarshal_MediaURLResponse env
                (fst (HTTPResponse_Body lookup)) = inr info
           /\ log' = log ++ [lookupRequest c mediaID;
                             downloadRequest c (MediaURLResponse_URL info)]
  end.
Proof.
  unfold DownloadMediaByID, GetMediaURL, invalidR, Get, doRequestJSON,
    doRequestRaw, doRequest, bodyReader, DownloadMedia, lookupRequest,
    downloadRequest, jsonRequest, stored.
  destruct (String.eqb_spec mediaID "") as [Hid|Hid]; [now left|].
  destruct (newRequestError env "GET" _) eqn:Hnew1; [now left|].
  destruct (roundTrip env log _) as [err|lookup] eqn:Hrt1;
    [right; now left|].
  destruct (HTTPResponse_Body lookup) as [body1 [err|]] eqn:Hbody1;
    [right; now left|].
  destruct (400 <=? HTTPResponse_StatusCode lookup)%Z; [right; now left|].
  destruct (json_Unmarshal_MediaURLResponse env body1) as [err|info] eqn:Hdec;
    [right; now left|].
  destruct (String.eqb_spec (MediaURLResponse_URL info) "") as [Hurl|Hurl];
    [right; now left|].
  destruct (newRequestError env "GET" (MediaURLResponse_URL info));
    [right; now left|].
  rewrite <- app_assoc. cbn [app].
  assert (Hdec' : json_Unmarshal_MediaURLResponse env
                    (fst (HTTPResponse_Body lookup)) = inr info)
    by now rewrite Hbody1.
  destruct (roundTrip env (log ++ _) _) as [err|resp] eqn:Hrt2;
    [right; right; exists lookup, info; auto|].
  destruct (400 <=? HTTPResponse_StatusCode resp)%Z eqn:Hst;
    [right; right; exists lookup, info; auto|].
  destruct (HTTPResponse_Body resp) as [data [err|]] eqn:Hbody2;
    [right; right; exists lookup, info; auto|].
  exists lookup, info, resp. rewrite Hbody1. cbn [fst].
  apply Z.leb_gt in Hst. repeat split; assumption || reflexivity.
Qed.

(** X19. When the lookup succeeds but names no URL, [DownloadMediaByID]
    fails with a ValidationError on [mediaURL]; the lookup request has
    been made by then, so this validation error does not mean that the
    network was left alone. *)
Theorem download_without_url_fails_late (env : Env) (c : Client)
  (mediaID : string) (log : list HTTPRequest) (lookup : HTTPResponse)
  (body : list byte) (info : MediaURLResponse) :
  mediaID <> "" ->
  newRequestError env "GET" (GetAPIURL (Client_config c) ++ "/" ++ mediaID)
  = None ->
  roundTrip env log (lookupRequest c mediaID) = inr lookup ->
  HTTPResponse_Body lookup = (body, None) ->
  (HTTPResponse_StatusCode lookup < 400)%Z ->
  json_Unmarshal_MediaURLResponse env body = inr info ->
  MediaURLResponse_URL info = "" ->
  DownloadMediaByID env c mediaID log
  = (Err (IsValidationError
            (NewValidationError "mediaURL" "media URL is required")),
     log ++ [lookupRequest c mediaID]).
Proof.
  intros Hid Hnew Hrt Hbody Hst Hdec Hurl.
  unfold DownloadMediaByID, GetMediaURL, Get, doRequestJSON,
    doRequestRaw, doRequest, bodyReader, DownloadMedia, stored.
  apply String.eqb_neq in Hid. apply Z.leb_gt in Hst.
  unfold lookupRequest, jsonRequest in Hrt.
  now rewrite Hid, Hnew, Hrt, Hbody, Hst, Hdec, Hurl.
Qed.

Lemma download_without_url_fails_late_witness :
  DownloadMediaByID sampleEnv sampleClient "m0" []
  = (Err (IsValidationError
            (NewValidationError "mediaURL" "media URL is required")),
     [] ++ [lookupRequest sampleClient "m0"]).
Proof.
  apply (@download_without_url_fails_late sampleEnv sampleClient "m0" []
           {| HTTPResponse_StatusCode := 200;
              HTTPResponse_Body := (list_byte_of_string "{}", None) |}
           (list_byte_of_string "{}") emptyMediaInfo);
    (discriminate || reflexivity).
Defined.

Example download_by_id_succeeds :
  DownloadMediaByID sampleEnv sampleClient "m1" []
  = (Ok (list_byte_of_string "PNG", "image/png"),
     [lookupRequest sampleClient "m1";
      downloadRequest sampleClient "https://cdn.example/m1"]).
Proof. reflexivity. Qed.

(** X20. [DeleteMedia] reports success only when it sent one DELETE for
    the media ID, the answer came with a status below 400 and was read
    to the end, and the decoded body says [success: true]; an answer
    of 200 without that flag is a failure. *)
Theorem delete_needs_success_flag (env : Env) (c : Client)
  (mediaID : string) (log log' : list HTTPRequest) :
  DeleteMedia env c mediaID log = (None, log') ->
  exists resp body,
    mediaID <> ""
    /\ log' = log ++ [jsonRequest c "DELETE"
                        (GetAPIURL (Client_config c) ++ "/" ++ mediaID) NoBody]
    /\ roundTrip env log
         (jsonRequest c "DELETE"
            (GetAPIURL (Client_config c) ++ "/" ++ mediaID) NoBody) = inr resp
    /\ HTTPResponse_Body resp = (body, None)
    /\ (HTTPResponse_StatusCode resp < 400)%Z
    /\ json_Unmarshal_Success env body = inr true.
Proof.
  unfold DeleteMedia, Delete, doRequestJSON, doRequestRaw, doRequest,
    bodyReader, jsonRequest, stored.
  destruct (String.eqb_spec mediaID "") as [Hid|Hid]; [discriminate|].
  destruct (newRequestError env "DELETE" _); [discriminate|].
  destruct (roundTrip env log _) as [err|resp] eqn:Hrt; [discriminate|].
  destruct (HTTPResponse_Body resp) as [body [err|]] eqn:Hbody;
    [discriminate|].
  destruct (400 <=? HTTPResponse_StatusCode resp)%Z eqn:Hst; [discriminate|].
  destruct (json_Unmarshal_Success env body) as [err|[|]] eqn:Hdec;
    try discriminate.
  intros [= <-]. exists resp, body. apply Z.leb_gt in Hst.
  repeat split; assumption || reflexivity.
Qed.

Lemma delete_needs_success_flag_witness :
  exists resp body,
    "m1" <> ""
    /\ [jsonRequest sampleClient "DELETE"
          "https://graph.facebook.com/v18.0/m1" NoBody]
       = [] ++ [jsonRequest sampleClient "DELETE"
                  (GetAPIURL (Client_config sampleClient) ++ "/" ++ "m1") NoBody]
    /\ roundTrip sampleEnv []
         (jsonRequest sampleClient "DELETE"
            (GetAPIURL (Client_config sampleClient) ++ "/" ++ "m1") NoBody)
       = inr resp
    /\ HTTPResponse_Body resp = (body, None)
    /\ (HTTPResponse_StatusCode resp < 400)%Z
    /\ json_Unmarshal_Success sampleEnv body = inr true.
Proof.
  apply (@delete_needs_success_flag sampleEnv sampleClient "m1" []).
  reflexivity.
Defined.

(** ** Account operations *)

(** X21. [SetTwoStepVerificationPin] checks the length of the PIN and
    nothing else: a PIN of another length is refused without a request,
    and any string of six bytes, digits or not, is posted as the value
    of [pin] to the URL of the phone number. *)
Theorem pin_is_checked_by_length_only (env : Env) (c : Client) (pin : string)
  (log : list HTTPRequest) :
  (String.length pin <> 6 ->
   SetTwoStepVerificationPin env c pin log
   = (Some (Errorf "PIN must be exactly 6 digits"), log))
  /\ (String.length pin = 6 ->
      forall jsonBody,
        json_Marshal env (MapBody [("pin", pin)]) = inr jsonBody ->
        newRequestError env "POST"
          (GetAPIURL (Client_config c) ++ "/" ++ PhoneNumberID (Client_config c))
        = None ->
        snd (SetTwoStepVerificationPin env c pin log)
        = log ++ [jsonRequest c "POST"
                    (GetAPIURL (Client_config c) ++ "/"
                     ++ PhoneNumberID (Client_config c))
                    (JSONBody jsonBody)]).
Proof.
  unfold SetTwoStepVerificationPin. split.
  - intros Hlen. apply Nat.eqb_neq in Hlen. now rewrite Hlen.
  - intros Hlen jsonBody Hjson Hnew. rewrite Hlen. cbn [Nat.eqb negb].
    unfold PostJSON, doRequestJSON, doRequestRaw, doRequest, bodyReader,
      jsonRequest.
    rewrite Hjson, Hnew.
    wire_cases; try reflexivity;
      destruct (json_Unmarshal_Success env _) as [|[|]]; reflexivity.
Qed.

Lemma pin_is_checked_by_length_only_witness :
  snd (SetTwoStepVerificationPin sampleEnv sampleClient "abcdef" [])
  = [] ++ [jsonRequest sampleClient "POST"
             (GetAPIURL (Client_config sampleClient) ++ "/"
              ++ PhoneNumberID (Client_config sampleClient))
             (JSONBody (list_byte_of_string (jsonObject [("pin", "abcdef")])))].
Proof.
  apply (proj2 (pin_is_checked_by_length_only sampleEnv sampleClient
                  "abcdef" [])); reflexivity.
Defined.

Lemma findTemplate_first (before after : list Template) (t : Template)
  (templateName : string) :
  Forall (fun k => Template_Name k <> templateName) before ->
  Template_Name t = templateName ->
  findTemplate (before ++ t :: after) templateName = Some t.
Proof.
  intros Hbefore Ht. induction Hbefore as [|k before Hk _ IH]; cbn.
  - now rewrite Ht, String.eqb_refl.
  - apply String.eqb_neq in Hk. now rewrite Hk.
Qed.

Lemma findTemplate_none (templates : list Template) (templateName : string) :
  Forall (fun k => Template_Name k <> templateName) templates ->
  findTemplate templates templateName = None.
Proof.
  induction 1 as [|k templates Hk _ IH]; [reflexivity|].
  cbn. apply String.eqb_neq in Hk. now rewrite Hk.
Qed.

(** X22. [GetTemplate] makes the requests of [GetTemplates] and passes
    its error on.  From the list received it returns the first
    template of the given name, also when later ones carry the same
    name, and reports [template '...' not found] when there is none. *)
Theorem template_lookup_takes_first_match (env : Env) (c : Client)
  (templateName : string) (log : list HTTPRequest) :
  match GetTemplates env c log with
  | (Err err, log') => GetTemplate env c templateName log = (Err err, log')
  | (Ok templates, log') =>
      (forall before t after,
         TemplatesResponse_Data templates = before ++ t :: after ->
         Forall (fun k => Template_Name k <> templateName) before ->
         Template_Name t = templateName ->
         GetTemplate env c templateName log = (Ok t, log'))
      /\ (Forall (fun k => Template_Name k <> templateName)
            (TemplatesResponse_Data templates) ->
          GetTemplate env c templateName log
          = (Err (Errorf ("template '" ++ templateName ++ "' not found")),
             log'))
  end.
Proof.
  unfold GetTemplate.
  destruct (GetTemplates env c log) as [[templates|err] log'];
    [|reflexivity].
  split.
  - intros before t after Hdata Hbefore Ht.
    rewrite Hdata, findTemplate_first; [reflexivity|exact Hbefore|exact Ht].
  - intros Hnone. rewrite findTemplate_none; [reflexivity|exact Hnone].
Qed.

Lemma template_lookup_takes_first_match_witness :
  GetTemplate sampleEnv sampleClient "welcome" []
  = (Ok (sampleTemplate "t2" "welcome"),
     [jsonRequest sampleClient "GET"
        "https://graph.facebook.com/v18.0/acct/message_templates" NoBody]).
Proof.
  apply (proj1 (template_lookup_takes_first_match sampleEnv sampleClient
                  "welcome" [])
           [sampleTemplate "t1" "hello"] (sampleTemplate "t2" "welcome")
           [sampleTemplate "t3" "welcome"]).
  - reflexivity.
  - repeat constructor. discriminate.
  - reflexivity.
Defined.

Example first_template_of_a_name :
  GetTemplate sampleEnv sampleClient "welcome" []
  = (Ok (sampleTemplate "t2" "welcome"),
     [jsonRequest sampleClient "GET"
        "https://graph.facebook.com/v18.0/acct/message_templates" NoBody])
  /\ fst (GetTemplate sampleEnv sampleClient "goodbye" [])
     = Err (Errorf "template 'goodbye' not found").
Proof. split; reflexivity. Qed.

Lemma append_assoc (a b c : string) :
  ((a ++ b) ++ c)%string = (a ++ b ++ c)%string.
Proof.
  induction a as [|ch a IH]; [reflexivity|]. cbn. now rewrite IH.
Qed.

Lemma append_empty_r (s : string) : (s ++ "")%string = s.
Proof.
  induction s as [|ch s IH]; [reflexivity|]. cbn. now rewrite IH.
Qed.

Lemma concat_empty_cons (x : string) (xs : list string) :
  String.concat "" (x :: xs) = (x ++ String.concat "" xs)%string.
Proof.
  destruct xs; cbn; [now rewrite append_empty_r|reflexivity].
Qed.

Lemma appendFields_rest (i : nat) (fields : list string) (url : string) :
  appendFields (S i) fields url
  = (url ++ String.concat "" (map (fun field => "," ++ field) fields))%string.
Proof.
  revert i url. induction fields as [|field rest IH]; intros i url.
  - cbn [appendFields map String.concat]. now rewrite append_empty_r.
  - cbn [appendFields map]. change (0 <? S i)%nat with true. cbv iota.
    rewrite IH, concat_empty_cons, !append_assoc. reflexivity.
Qed.

Lemma concat_comma (field : string) (rest : list string) :
  String.concat "," (field :: rest)
  = (field ++ String.concat "" (map (fun f => "," ++ f) rest))%string.
Proof.
  revert field. induction rest as [|next rest IH]; intros field.
  - cbn. now rewrite append_empty_r.
  - change (String.concat "," (field :: next :: rest))
      with (field ++ "," ++ String.concat "," (next :: rest))%string.
    rewrite IH. cbn [map]. rewrite concat_empty_cons. reflexivity.
Qed.

(** X23. The request of [GetBusinessProfile] goes to the business
    profile URL with the query [?fields=] followed by the given field
    names joined by commas, as they are, or by the seven default
    fields when none is given. *)
Theorem profile_request_lists_fields (env : Env) (c : Client)
  (fields : list string) (log : list HTTPRequest) (req : HTTPRequest) :
  snd (GetBusinessProfile env c fields log) = log ++ [req] ->
  req = jsonRequest c "GET"
          (GetBusinessProfileURL (Client_config c) ++ "?fields="
           ++ fieldsQuery fields) NoBody.
Proof.
  assert (Hurl :
    (if (0 <? List.length fields)%nat
     then appendFields 0 fields
            (GetBusinessProfileURL (Client_config c) ++ "?fields=")
     else (GetBusinessProfileURL (Client_config c)
           ++ "?fields=about,address,description,email,profile_picture_url,websites,vertical"))%string
    = (GetBusinessProfileURL (Client_config c) ++ "?fields="
       ++ fieldsQuery fields)%string).
  { destruct fields as [|field rest].
    - reflexivity.
    - change (0 <? List.length (field :: rest))%nat with true. cbv iota.
      cbn [appendFields]. change (0 <? 0)%nat with false. cbv iota.
      rewrite appendFields_rest. unfold fieldsQuery.
      rewrite concat_comma. now rewrite !append_assoc. }
  unfold GetBusinessProfile, Get, doRequestJSON, doRequestRaw, doRequest,
    bodyReader, jsonRequest, stored.
  cbv zeta. rewrite Hurl.
  set (url := (GetBusinessProfileURL (Client_config c) ++ "?fields="
               ++ fieldsQuery fields)%string).
  assert (Hno : log = log ++ [req] -> req = {|
            HTTPRequest_Method := "GET"; HTTPRequest_URL := url;
            HTTPRequest_Header := [bearer c; ("Content-Type", "application/json")];
            HTTPRequest_Body := NoBody |})
    by (intros H; now apply app_one_neq in H).
  assert (Hyes : forall r, log ++ [r] = log ++ [req] -> req = r)
    by (intros r H; apply app_inv_head in H; now injection H).
  destruct (newRequestError env "GET" url); [exact Hno|].
  destruct (roundTrip env log _) as [err|resp]; [apply Hyes|].
  destruct (HTTPResponse_Body resp) as [body [err|]]; [apply Hyes|].
  destruct (400 <=? HTTPResponse_StatusCode resp)%Z; [apply Hyes|].
  destruct (json_Unmarshal_BusinessProfileResponse env body) as [err|decoded];
    [apply Hyes|].
  cbn [BusinessProfileResponse_Data].
  destruct (BusinessProfileResponse_Data decoded); apply Hyes.
Qed.

Lemma profile_request_lists_fields_witness :
  jsonRequest sampleClient "GET"
    "https://graph.facebook.com/v18.0/100/whatsapp_business_profile?fields=about,email"
    NoBody
  = jsonRequest sampleClient "GET"
      (GetBusinessProfileURL (Client_config sampleClient) ++ "?fields="
       ++ fieldsQuery ["about"; "email"]) NoBody.
Proof.
  apply (@profile_request_lists_fields sampleEnv sampleClient
           ["about"; "email"] []).
  reflexivity.
Defined.

(** X24. A client that [client.New] accepted holds the configuration
    it was built from, with a non-empty phone number ID and access
    token.  On such a client [GetPhoneNumber] with an empty ID asks for
    the configured phone number.  [New] does not ask for a business
    account ID, but the template operations do: without one,
    [GetTemplates], [GetTemplate] and [DeleteTemplate] fail with the
    same error and make no request. *)
Theorem operations_on_a_new_client (env : Env) (cfg : Config) (c : Client)
  (log : list HTTPRequest) :
  New cfg = inr c ->
  Client_config c = cfg
  /\ PhoneNumberID cfg <> "" /\ AccessToken cfg <> ""
  /\ GetPhoneNumber env c "" log = GetPhoneNumber env c (PhoneNumberID cfg) log
  /\ (BusinessAccountID cfg = "" ->
      forall templateName,
        GetTemplates env c log = (Err accountRequired, log)
        /\ GetTemplate env c templateName log = (Err accountRequired, log)
        /\ DeleteTemplate env c templateName log = (Some accountRequired, log)).
Proof.
  unfold New, Validate.
  destruct (String.eqb_spec (PhoneNumberID cfg) "") as [|Hid]; [discriminate|].
  destruct (String.eqb_spec (AccessToken cfg) "") as [|Htoken]; [discriminate|].
  intros [= <-]. repeat (split; [reflexivity || assumption|]). split.
  - unfold GetPhoneNumber. cbn [Client_config].
    apply String.eqb_neq in Hid. now rewrite Hid, String.eqb_refl.
  - intros Hacct templateName.
    unfold GetTemplate, GetTemplates, DeleteTemplate.
    cbn [Client_config]. now rewrite Hacct.
Qed.

Lemma operations_on_a_new_client_witness :
  Client_config {| Client_config := fst (LoadFromEnv sampleGetenv) |}
  = fst (LoadFromEnv sampleGetenv)
  /\ PhoneNumberID (fst (LoadFromEnv sampleGetenv)) <> ""
  /\ AccessToken (fst (LoadFromEnv sampleGetenv)) <> ""
  /\ GetPhoneNumber sampleEnv
       {| Client_config := fst (LoadFromEnv sampleGetenv) |} "" []
     = GetPhoneNumber sampleEnv
         {| Client_config := fst (LoadFromEnv sampleGetenv) |}
         (PhoneNumberID (fst (LoadFromEnv sampleGetenv))) []
  /\ (BusinessAccountID (fst (LoadFromEnv sampleGetenv)) = "" ->
      forall templateName,
        GetTemplates sampleEnv
          {| Client_config := fst (LoadFromEnv sampleGetenv) |} []
        = (Err accountRequired, [])
        /\ GetTemplate sampleEnv
             {| Client_config := fst (LoadFromEnv sampleGetenv) |}
             templateName []
           = (Err accountRequired, [])
        /\ DeleteTemplate sampleEnv
             {| Client_config := fst (LoadFromEnv sampleGetenv) |}
             templateName []
           = (Some accountRequired, [])).
Proof.
  apply (@operations_on_a_new_client sampleEnv
           (fst (LoadFromEnv sampleGetenv))).
  reflexivity.
Defined.

(** ** Media and account operations: requests and validation errors *)

Lemma issues_none (c : Client) (log : list HTTPRequest) (n : nat) :
  issues c log log n.
Proof.
  exists []. rewrite app_nil_r. repeat split; [cbn; lia|constructor].
Qed.

Lemma issues_one (c : Client) (log : list HTTPRequest) (req : HTTPRequest)
  (n : nat) :
  authorized c req -> 1 <= n -> issues c log (log ++ [req]) n.
Proof.
  intros Hreq Hn. exists [req]. repeat split; [exact Hn|].
  now constructor.
Qed.

Lemma issues_trans (c : Client) (log log' log'' : list HTTPRequest) (n m : nat) :
  issues c log log' n -> issues c log' log'' m -> issues c log log'' (n + m).
Proof.
  intros (s1 & -> & H1 & F1) (s2 & -> & H2 & F2).
  exists (s1 ++ s2). rewrite app_assoc, length_app.
  repeat split; [lia|]. now apply Forall_app.
Qed.

Lemma doRequest_issues (env : Env) (c : Client) (method url : string)
  (body : option Body) (log : list HTTPRequest) :
  issues c log (snd (doRequest env c method url body log)) 1.
Proof.
  unfold doRequest.
  destruct (bodyReader env body); [apply issues_none|].
  destruct (newRequestError env method url); [apply issues_none|].
  apply issues_one; [reflexivity|lia].
Qed.

Lemma doRequestRaw_issues (env : Env) (c : Client) (method url : string)
  (body : option Body) (log : list HTTPRequest) :
  issues c log (snd (doRequestRaw env c method url body log)) 1.
Proof.
  unfold doRequestRaw.
  pose proof (doRequest_issues env c method url body log) as H.
  destruct (doRequest env c method url body log) as [[resp|err] log'];
    [|exact H].
  destruct (HTTPResponse_Body resp) as [respBody [err|]]; [exact H|].
  destruct (400 <=? HTTPResponse_StatusCode resp)%Z; exact H.
Qed.

Lemma doRequestJSON_issues {T} (env : Env) (c : Client) (method url : string)
  (body : option Body) (decode : option (list byte -> sum string T))
  (log : list HTTPRequest) :
  issues c log (snd (doRequestJSON env c method url body decode log)) 1.
Proof.
  unfold doRequestJSON.
  pose proof (doRequestRaw_issues env c method url body log) as H.
  destruct (doRequestRaw env c method url body log) as [[respBody|err] log'];
    [|exact H].
  destruct decode as [unmarshal|]; [|exact H].
  destruct (unmarshal respBody); exact H.
Qed.

Lemma doRequestJSON_not_validation {T} (env : Env) (c : Client)
  (method url : string) (body : option Body)
  (decode : option (list byte -> sum string T)) (log : list HTTPRequest)
  (e : ValidationError) :
  fst (doRequestJSON env c method url body decode log)
  <> Err (IsValidationError e).
Proof.
  unfold doRequestJSON, doRequestRaw, doRequest.
  destruct (bodyReader env body); [discriminate|].
  destruct (newRequestError env method url); [discriminate|].
  destruct (roundTrip env log _) as [err|resp]; [discriminate|].
  destruct (HTTPResponse_Body resp) as [respBody [err|]]; [discriminate|].
  destruct (400 <=? HTTPResponse_StatusCode resp)%Z; [discriminate|].
  destruct decode as [unmarshal|]; [|discriminate].
  destruct (unmarshal respBody); discriminate.
Qed.

Lemma UploadMediaReader_issues (env : Env) (c : Client)
  (reader : option (sum string (list byte))) (filename mimeType : string)
  (log : list HTTPRequest) :
  issues c log (snd (UploadMediaReader env c reader filename mimeType log)) 1.
Proof.
  unfold UploadMediaReader, invalidR.
  destruct reader as [[err|data]|]; destruct (mimeType =? "");
    try apply issues_none.
  destruct (newRequestError env "POST" _); [apply issues_none|].
  apply issues_one; [reflexivity|lia].
Qed.

Lemma GetMediaURL_issues (env : Env) (c : Client) (mediaID : string)
  (log : list HTTPRequest) :
  issues c log (snd (client.GetMediaURL env c mediaID log)) 1.
Proof.
  unfold client.GetMediaURL, invalidR, Get.
  destruct (mediaID =? ""); [apply issues_none|].
  match goal with
  | |- context [doRequestJSON env c ?m ?u ?b ?d log] =>
      pose proof (doRequestJSON_issues env c m u b d log) as H;
      destruct (doRequestJSON env c m u b d log) as [[decoded|err] log']
  end; exact H.
Qed.

Lemma DownloadMedia_issues (env : Env) (c : Client) (mediaURL : string)
  (log : list HTTPRequest) :
  issues c log (snd (DownloadMedia env c mediaURL log)) 1.
Proof.
  unfold DownloadMedia.
  destruct (mediaURL =? ""); [apply issues_none|].
  destruct (newRequestError env "GET" mediaURL); [apply issues_none|].
  apply issues_one; [reflexivity|lia].
Qed.

Lemma GetTemplates_issues (env : Env) (c : Client) (log : list HTTPRequest) :
  issues c log (snd (GetTemplates env c log)) 1.
Proof.
  unfold GetTemplates, Get.
  destruct (BusinessAccountID (Client_config c) =? ""); [apply issues_none|].
  match goal with
  | |- context [doRequestJSON env c ?m ?u ?b ?d log] =>
      pose proof (doRequestJSON_issues env c m u b d log) as H;
      destruct (doRequestJSON env c m u b d log) as [[decoded|err] log']
  end; exact H.
Qed.

(** One call through [doRequestJSON] followed by steps that send
    nothing. *)
Ltac one_json_call env c log :=
  match goal with
  | |- context [doRequestJSON env c ?m ?u ?b ?d log] =>
      let H := fresh "H" in
      pose proof (doRequestJSON_issues env c m u b d log) as H;
      destruct (doRequestJSON env c m u b d log) as [[? | ?] ?];
      cbn [snd] in H |- *;
      repeat match goal with
             | |- context [match ?x with _ => _ end] => destruct x
             end;
      exact H
  end.

(** X25. No media or account operation ever removes or rewrites a
    logged request, and each makes at most one request, except
    [DownloadMediaByID], which makes at most two.  Every request made
    carries the access token of the configuration as a bearer token;
    this holds for the second request of [DownloadMediaByID] and for
    [DownloadMedia] too, whatever host their URL names. *)
Theorem every_request_carries_the_token (env : Env) (c : Client)
  (op : ApiCall) (log : list HTTPRequest) :
  issues c log (requestsAfter env c op log) (maxRequests op).
Proof.
  destruct op; cbn [requestsAfter maxRequests].
  - unfold UploadMedia, invalidR.
    destruct (os_Open env filePath) as [err|file]; [apply issues_none|].
    destruct (File_Stat file) as [err|name]; [apply issues_none|].
    cbv zeta. destruct (_ =? ""); [apply issues_none|].
    apply UploadMediaReader_issues.
  - apply UploadMediaReader_issues.
  - apply UploadMediaReader_issues.
  - apply GetMediaURL_issues.
  - apply DownloadMedia_issues.
  - unfold DownloadMediaByID.
    pose proof (GetMediaURL_issues env c mediaID log) as H1.
    destruct (client.GetMediaURL env c mediaID log) as [[mediaInfo|err] log'];
      cbn [snd] in H1 |- *.
    + pose proof (DownloadMedia_issues env c
                    (MediaURLResponse_URL mediaInfo) log') as H2.
      destruct (DownloadMedia env c (MediaURLResponse_URL mediaInfo) log')
        as [[data [err|]] log'']; cbn [snd] in H2 |- *;
        exact (issues_trans H1 H2).
    + destruct H1 as (sent & -> & Hlen & Hall).
      exists sent. repeat split; [lia|exact Hall].
  - unfold DeleteMedia, Delete.
    destruct (mediaID =? ""); [apply issues_none|].
    one_json_call env c log.
  - unfold GetBusinessProfile, Get. cbv zeta.
    one_json_call env c log.
  - unfold GetPhoneNumber, Get. cbv zeta.
    one_json_call env c log.
  - apply GetTemplates_issues.
  - unfold GetTemplate.
    pose proof (GetTemplates_issues env c log) as H.
    destruct (GetTemplates env c log) as [[templates|err] log'];
      cbn [snd] in H |- *; [|exact H].
    destruct (findTemplate _ _); exact H.
  - unfold DeleteTemplate, Delete.
    destruct (BusinessAccountID (Client_config c) =? "");
      [apply issues_none|].
    cbv zeta. one_json_call env c log.
  - unfold SetTwoStepVerificationPin, PostJSON.
    destruct (negb _); [apply issues_none|].
    cbv zeta. one_json_call env c log.
  - unfold MarkMessageAsRead, PostJSON.
    destruct (messageID =? ""); [apply issues_none|].
    cbv zeta. one_json_call env c log.
Qed.

Example download_forwards_the_token :
  requestsAfter sampleEnv sampleClient (CallDownloadMediaByID "m1") []
  = [lookupRequest sampleClient "m1";
     {| HTTPRequest_Method := "GET";
        HTTPRequest_URL := "https://cdn.example/m1";
        HTTPRequest_Header := [("Authorization", "Bearer token")];
        HTTPRequest_Body := NoBody |}].
Proof. reflexivity. Qed.

(** A call through [doRequestJSON], which returns no ValidationError. *)
Ltac json_not_validation env c log :=
  match goal with
  | |- context [doRequestJSON env c ?m ?u ?b ?d log] =>
      let H := fresh "Hjson" in
      pose proof (fun e => @doRequestJSON_not_validation _ env c m u b d log e)
        as H;
      destruct (doRequestJSON env c m u b d log) as [[? | ?] ?];
      cbn [fst snd] in H |- *;
      repeat match goal with
             | |- context [match ?x with _ => _ end] => destruct x
             end;
      cbn [fst snd];
      try discriminate;
      try (let Heq := fresh in
           intros Heq; exfalso; injection Heq as Heq;
           match goal with
           | _ : _ |- _ => eapply H; rewrite Heq; reflexivity
           end)
  end.

Lemma UploadMediaReader_validation (env : Env) (c : Client)
  (reader : option (sum string (list byte))) (filename mimeType : string)
  (log : list HTTPRequest) (e : ValidationError) :
  fst (UploadMediaReader env c reader filename mimeType log)
  = Err (IsValidationError e) ->
  (reader = None /\ Field e = "reader"
   \/ reader <> None /\ mimeType = "" /\ Field e = "mimeType")
  /\ snd (UploadMediaReader env c reader filename mimeType log) = log.
Proof.
  unfold UploadMediaReader, invalidR.
  destruct reader as [content|]; [|intros [= <-]; auto].
  destruct (String.eqb_spec mimeType "") as [->|Hmime].
  - intros [= <-]. split; [right|reflexivity]. now repeat split.
  - destruct content as [err|data]; [discriminate|].
    destruct (newRequestError env "POST" _); [discriminate|].
    cbn [fst snd].
    destruct (roundTrip env log _) as [err|resp]; [discriminate|].
    destruct (HTTPResponse_Body resp) as [respBody [err|]]; [discriminate|].
    destruct (400 <=? HTTPResponse_StatusCode resp)%Z; [discriminate|].
    destruct (json_Unmarshal_MediaUploadResponse env respBody); discriminate.
Qed.

Lemma GetMediaURL_validation (env : Env) (c : Client) (mediaID : string)
  (log : list HTTPRequest) (e : ValidationError) :
  fst (client.GetMediaURL env c mediaID log) = Err (IsValidationError e) ->
  mediaID = "" /\ Field e = "mediaID"
  /\ snd (client.GetMediaURL env c mediaID log) = log.
Proof.
  unfold client.GetMediaURL, invalidR, Get.
  destruct (String.eqb_spec mediaID "") as [->|Hid];
    [cbn [fst snd]; now intros [= <-]|json_not_validation env c log].
Qed.

Lemma GetMediaURL_sent (env : Env) (c : Client) (mediaID : string)
  (log log' : list HTTPRequest) (info : MediaURLResponse) :
  client.GetMediaURL env c mediaID log = (Ok info, log') ->
  mediaID <> "" /\ log' = log ++ [lookupRequest c mediaID].
Proof.
  unfold client.GetMediaURL, invalidR, Get, lookupRequest, jsonRequest,
    doRequestJSON, doRequestRaw, doRequest, bodyReader.
  destruct (String.eqb_spec mediaID "") as [->|Hid]; [discriminate|].
  cbv zeta.
  destruct (newRequestError env "GET" _); [discriminate|].
  destruct (roundTrip env log _) as [err|resp]; [discriminate|].
  destruct (HTTPResponse_Body resp) as [respBody [err|]]; [discriminate|].
  destruct (400 <=? HTTPResponse_StatusCode resp)%Z; [discriminate|].
  destruct (json_Unmarshal_MediaURLResponse env respBody); [discriminate|].
  intros [= _ <-]. split; [exact Hid|reflexivity].
Qed.

Lemma DownloadMedia_validation (env : Env) (c : Client) (mediaURL : string)
  (log : list HTTPRequest) (e : ValidationError) :
  snd (fst (DownloadMedia env c mediaURL log)) = Some (IsValidationError e) ->
  mediaURL = "" /\ Field e = "mediaURL"
  /\ snd (DownloadMedia env c mediaURL log) = log.
Proof.
  unfold DownloadMedia.
  destruct (String.eqb_spec mediaURL "") as [->|Hurl];
    [cbn [fst snd]; now intros [= <-]|].
  destruct (newRequestError env "GET" mediaURL); [discriminate|].
  cbn [fst snd].
  destruct (roundTrip env log _) as [err|resp]; [discriminate|].
  destruct (400 <=? HTTPResponse_StatusCode resp)%Z; [discriminate|].
  destruct (HTTPResponse_Body resp) as [data [err|]]; discriminate.
Qed.

(** X26. Where the ValidationErrors of the media operations come from.
    From [GetMediaURL], [DeleteMedia], [DownloadMedia],
    [UploadMediaReader], [UploadMediaBytes] and [UploadMedia] a
    ValidationError comes only from the check of the operation's own
    arguments, and then no request has been made: it means an empty
    media ID, an empty URL, a nil reader or, with a reader, an empty
    MIME type, or an extension the media tables do not list.
    [DownloadMediaByID] is different: its ValidationError is that of
    an empty media ID, with no request made, or that of an empty URL in
    the answer to the lookup, after the lookup request has been made.
    [MarkMessageAsRead] and [SetTwoStepVerificationPin] never return a
    ValidationError: they report a bad argument with a plain error. *)
Theorem validation_error_origins (env : Env) (c : Client)
  (log : list HTTPRequest) (e : ValidationError) :
  (forall mediaID,
     fst (client.GetMediaURL env c mediaID log) = Err (IsValidationError e) ->
     mediaID = "" /\ Field e = "mediaID"
     /\ snd (client.GetMediaURL env c mediaID log) = log)
  /\ (forall mediaID,
        fst (DeleteMedia env c mediaID log) = Some (IsValidationError e) ->
        mediaID = "" /\ Field e = "mediaID"
        /\ snd (DeleteMedia env c mediaID log) = log)
  /\ (forall mediaURL,
        snd (fst (DownloadMedia env c mediaURL log))
        = Some (IsValidationError e) ->
        mediaURL = "" /\ Field e = "mediaURL"
        /\ snd (DownloadMedia env c mediaURL log) = log)
  /\ (forall reader filename mimeType,
        fst (UploadMediaReader env c reader filename mimeType log)
        = Err (IsValidationError e) ->
        (reader = None /\ Field e = "reader"
         \/ reader <> None /\ mimeType = "" /\ Field e = "mimeType")
        /\ snd (UploadMediaReader env c reader filename mimeType log) = log)
  /\ (forall data filename mimeType,
        fst (UploadMediaBytes env c data filename mimeType log)
        = Err (IsValidationError e) ->
        mimeType = "" /\ Field e = "mimeType"
        /\ snd (UploadMediaBytes env c data filename mimeType log) = log)
  /\ (forall filePath,
        fst (UploadMedia env c filePath log) = Err (IsValidationError e) ->
        detectMIMEType (filepath.Ext filePath) = "" /\ Field e = "file"
        /\ snd (UploadMedia env c filePath log) = log)
  /\ (forall mediaID,
        fst (DownloadMediaByID env c mediaID log)
        = Err (IsValidationError e) ->
        (mediaID = "" /\ Field e = "mediaID"
         /\ snd (DownloadMediaByID env c mediaID log) = log)
        \/ (mediaID <> "" /\ Field e = "mediaURL"
            /\ snd (DownloadMediaByID env c mediaID log)
               = log ++ [lookupRequest c mediaID]
            /\ exists info,
                 fst (client.GetMediaURL env c mediaID log) = Ok info
                 /\ MediaURLResponse_URL info = ""))
  /\ (forall messageID,
        fst (MarkMessageAsRead env c messageID log)
        <> Some (IsValidationError e))
  /\ (forall pin,
        fst (SetTwoStepVerificationPin env c pin log)
        <> Some (IsValidationError e)).
Proof.
  split; [|split; [|split; [|split; [|split; [|split; [|split; [|split]]]]]]].
  - intros mediaID. apply GetMediaURL_validation.
  - intros mediaID. unfold DeleteMedia, Delete.
    destruct (String.eqb_spec mediaID "") as [->|Hid];
      [cbn [fst snd]; now intros [= <-]|].
    cbv zeta. json_not_validation env c log.
  - intros mediaURL. apply DownloadMedia_validation.
  - intros reader filename mimeType. apply UploadMediaReader_validation.
  - intros data filename mimeType H. unfold UploadMediaBytes in *.
    apply UploadMediaReader_validation in H.
    destruct H as [[[Hreader _]|(_ & Hempty & Hfield)] Hlog];
      [discriminate Hreader|auto].
  - intros filePath. unfold UploadMedia, invalidR.
    destruct (os_Open env filePath) as [err|file]; [discriminate|].
    destruct (File_Stat file) as [err|name]; [discriminate|].
    cbv zeta.
    destruct (String.eqb_spec (detectMIMEType (filepath.Ext filePath)) "")
      as [Hmime|Hmime];
      [cbn [fst snd]; now intros [= <-]|].
    intros H. apply UploadMediaReader_validation in H.
    destruct H as [[[Hreader _]|(_ & Hempty & _)] _];
      [discriminate Hreader|now elim Hmime].
  - intros mediaID. unfold DownloadMediaByID.
    pose proof (@GetMediaURL_validation env c mediaID log e) as Hinvalid.
    pose proof (@GetMediaURL_sent env c mediaID log) as Hsent.
    destruct (client.GetMediaURL env c mediaID log) as [[info|err] log'].
    + destruct (Hsent log' info eq_refl) as [Hid ->].
      pose proof (@DownloadMedia_validation env c (MediaURLResponse_URL info)
                    (log ++ [lookupRequest c mediaID]) e) as Hurl.
      destruct (DownloadMedia env c (MediaURLResponse_URL info) _)
        as [[data [err|]] log'']; [|discriminate].
      cbn [fst snd] in *. intros [= ->].
      destruct (Hurl eq_refl) as (Hempty & Hfield & ->).
      right. repeat split; [exact Hid|exact Hfield|].
      exists info. split; [reflexivity|exact Hempty].
    + cbn [fst snd] in *. intros [= ->]. left. now apply Hinvalid.
  - intros messageID. unfold MarkMessageAsRead, PostJSON.
    destruct (messageID =? ""); [discriminate|].
    cbv zeta. json_not_validation env c log.
  - intros pin. unfold SetTwoStepVerificationPin, PostJSON.
    destruct (negb _); [discriminate|].
    cbv zeta. json_not_validation env c log.
Qed.

Lemma validation_error_origins_witness :
  "" = ""
  /\ Field (NewValidationError "mediaID" "media ID is required") = "mediaID"
  /\ snd (client.GetMediaURL sampleEnv sampleClient "" []) = [].
Proof.
  apply (proj1 (validation_error_origins sampleEnv sampleClient []
                  (NewValidationError "mediaID" "media ID is required")) "").
  reflexivity.
Defined.

(** ** Configuration *)

(** X27. [LoadFromEnv] never fails and never changes the base URL;
    the API version and the webhook port fall back to [v18.0] and
    [8080] when their variables are empty.  The configuration it
    returns is accepted by [client.New] exactly when the phone number
    ID and the access token are set, and the messages URL of such a
    client is built from the base URL, the version and the phone
    number ID. *)
Theorem LoadFromEnv_defaults (getenv : string -> string) :
  let cfg := fst (LoadFromEnv getenv) in
  snd (LoadFromEnv getenv) = None
  /\ BaseURL cfg = "https://graph.facebook.com"
  /\ APIVersion cfg
     = (if getenv "WHATSAPP_API_VERSION" =? "" then "v18.0"
        else getenv "WHATSAPP_API_VERSION")
  /\ WebhookPort cfg
     = (if getenv "WEBHOOK_PORT" =? "" then "8080" else getenv "WEBHOOK_PORT")
  /\ APIVersion cfg <> "" /\ WebhookPort cfg <> ""
  /\ (New cfg = inr {| Client_config := cfg |}
      <-> getenv "WHATSAPP_PHONE_NUMBER_ID" <> ""
          /\ getenv "WHATSAPP_ACCESS_TOKEN" <> "")
  /\ GetMessagesURL cfg
     = ("https://graph.facebook.com/" ++ APIVersion cfg ++ "/"
        ++ getenv "WHATSAPP_PHONE_NUMBER_ID" ++ "/messages")%string.
Proof.
  cbv zeta. unfold LoadFromEnv, New, Validate, GetMessagesURL, GetAPIURL.
  cbn [fst snd BaseURL APIVersion WebhookPort PhoneNumberID AccessToken
       DefaultConfig].
  repeat split; try reflexivity.
  - destruct (String.eqb_spec (getenv "WHATSAPP_API_VERSION") "");
      [discriminate|assumption].
  - destruct (String.eqb_spec (getenv "WEBHOOK_PORT") "");
      [discriminate|assumption].
  - destruct (String.eqb_spec (getenv "WHATSAPP_PHONE_NUMBER_ID") "");
      [discriminate|assumption].
  - destruct (String.eqb_spec (getenv "WHATSAPP_PHONE_NUMBER_ID") "");
      [discriminate|].
    destruct (String.eqb_spec (getenv "WHATSAPP_ACCESS_TOKEN") "");
      [discriminate|assumption].
  - intros [Hp Ha]. apply String.eqb_neq in Hp, Ha. now rewrite Hp, Ha.
Qed.

Lemma LoadFromEnv_defaults_witness :
  New (fst (LoadFromEnv sampleGetenv))
  = inr {| Client_config := fst (LoadFromEnv sampleGetenv) |}.
Proof.
  destruct (LoadFromEnv_defaults sampleGetenv)
    as (_ & _ & _ & _ & _ & _ & Hnew & _).
  apply (proj2 Hnew). split; discriminate.
Defined.

Example LoadFromEnv_sample :
  New (fst (LoadFromEnv sampleGetenv))
  = inr {| Client_config :=
             {| BusinessAccountID := ""; PhoneNumberID := "100";
                AccessToken := "token"; WebhookVerifyToken := "";
                AppSecret := ""; APIVersion := "v19.0";
                BaseURL := "https://graph.facebook.com";
                WebhookPort := "8080" |} |}
  /\ ValidateForWebhook (fst (LoadFromEnv sampleGetenv))
     = Some "WHATSAPP_WEBHOOK_VERIFY_TOKEN is required for webhooks".
Proof. split; reflexivity. Qed.

(** ** Builders *)

Lemma ButtonMessageBuilder_Build_request (b : builders.ButtonMessageBuilder) :
  builders.ButtonMessageBuilder_Build b
  = buttons_request (builders.ButtonMessageBuilder_to b)
      (builders.ButtonMessageBuilder_body b)
      (builders.ButtonMessageBuilder_buttons b) (Some (buttonOptions b)).
Proof.
  unfold builders.ButtonMessageBuilder_Build, buttons_request,
    interactive_request, applyOptions, buttonOptions.
  cbn. destruct (builders.ButtonMessageBuilder_header b);
    destruct (builders.ButtonMessageBuilder_footer b =? ""); reflexivity.
Qed.

Lemma button_chain (calls : list ButtonBuilderCall)
  (b : builders.ButtonMessageBuilder) :
  List.length (builders.ButtonMessageBuilder_buttons b) <= 3 ->
  builders.ButtonMessageBuilder_to (fold_left buttonBuilderCall calls b)
  = builders.ButtonMessageBuilder_to b
  /\ builders.ButtonMessageBuilder_buttons (fold_left buttonBuilderCall calls b)
     = firstn 3 (builders.ButtonMessageBuilder_buttons b ++ addedButtons calls).
Proof.
  revert b. induction calls as [|call calls IH]; intros b Hlen.
  - cbn [fold_left addedButtons flat_map]. rewrite app_nil_r.
    split; [reflexivity|]. symmetry. now apply firstn_all2.
  - cbn [fold_left addedButtons flat_map].
    fold (addedButtons calls).
    destruct call as [body|text|mediaID|footer|id title];
      cbn [buttonBuilderCall app].
    1: exact (IH (builders.ButtonMessageBuilder_Body b body) Hlen).
    1: exact (IH (builders.ButtonMessageBuilder_Header b text) Hlen).
    1: exact (IH (builders.ButtonMessageBuilder_HeaderImage b mediaID) Hlen).
    1: exact (IH (builders.ButtonMessageBuilder_Footer b footer) Hlen).
    unfold builders.ButtonMessageBuilder_AddButton.
    destruct (List.length (builders.ButtonMessageBuilder_buttons b) <? 3)%nat
      eqn:Hfull.
    + apply Nat.ltb_lt in Hfull.
      destruct (IH {|
        builders.ButtonMessageBuilder_to := builders.ButtonMessageBuilder_to b;
        builders.ButtonMessageBuilder_body := builders.ButtonMessageBuilder_body b;
        builders.ButtonMessageBuilder_header :=
          builders.ButtonMessageBuilder_header b;
        builders.ButtonMessageBuilder_footer :=
          builders.ButtonMessageBuilder_footer b;
        builders.ButtonMessageBuilder_buttons :=
          builders.ButtonMessageBuilder_buttons b
          ++ [{| InteractiveButton_Type := "reply";
                 InteractiveButton_Reply :=
                   {| InteractiveReply_ID := id;
                      InteractiveReply_Title := title |} |}] |}) as [Hto Hbs].
      { cbn. rewrite length_app. cbn. lia. }
      rewrite Hto, Hbs. cbn [builders.ButtonMessageBuilder_to
                             builders.ButtonMessageBuilder_buttons].
      now rewrite <- app_assoc.
    + apply Nat.ltb_ge in Hfull.
      destruct (IH b Hlen) as [Hto Hbs]. rewrite Hto, Hbs.
      split; [reflexivity|].
      rewrite !firstn_app.
      replace (3 - List.length (builders.ButtonMessageBuilder_buttons b))
        with 0 by lia.
      reflexivity.
Qed.

(** X28. However many times [AddButton] is called on a button builder,
    the built message carries the first three buttons asked for, in
    call order, and is the request [SendInteractiveButtons] constructs
    from the same parts.  With at least one button, sending the built
    message with [SendMessage] does what [SendInteractiveButtons] does
    and the limit of three is never hit; with none,
    [SendInteractiveButtons] refuses the message, while [SendMessage]
    posts it to a non-empty recipient when net/http can create the
    HTTP request for the messages URL. *)
Theorem button_builder_keeps_first_three
  (newRequest : string -> string -> option string)
  (httpDo : NetCall -> PostOutcome)
  (c : Client) (to : string) (calls : list ButtonBuilderCall)
  (log : list NetCall) :
  let b := fold_left buttonBuilderCall calls (builders.NewButtonMessage to) in
  let body := builders.ButtonMessageBuilder_body b in
  builders.ButtonMessageBuilder_Build b
  = buttons_request to body (firstn 3 (addedButtons calls))
      (Some (buttonOptions b))
  /\ (addedButtons calls <> [] ->
      SendInteractiveButtons newRequest httpDo c to body
        (firstn 3 (addedButtons calls)) (Some (buttonOptions b)) log
      = SendMessage newRequest httpDo c
          (builders.ButtonMessageBuilder_Build b) log)
  /\ (addedButtons calls = [] ->
      SendInteractiveButtons newRequest httpDo c to body []
        (Some (buttonOptions b)) log
      = (Err (IsValidationError
                (NewValidationError "buttons" "at least one button is required")),
         log)
      /\ (to <> "" ->
          newRequest "POST" (GetMessagesURL (Client_config c)) = None ->
          snd (SendMessage newRequest httpDo c
                 (builders.ButtonMessageBuilder_Build b) log)
          = log ++ [postCall (GetMessagesURL (Client_config c))
                      (builders.ButtonMessageBuilder_Build b)])).
Proof.
  cbv zeta.
  destruct (@button_chain calls (builders.NewButtonMessage to)) as [Hto Hbs];
    [cbn; lia|].
  cbn [builders.NewButtonMessage builders.ButtonMessageBuilder_to
       builders.ButtonMessageBuilder_buttons app] in Hto, Hbs.
  set (b := fold_left buttonBuilderCall calls (builders.NewButtonMessage to))
    in *.
  assert (Hbuild : builders.ButtonMessageBuilder_Build b
                   = buttons_request to (builders.ButtonMessageBuilder_body b)
                       (firstn 3 (addedButtons calls)) (Some (buttonOptions b)))
    by (rewrite ButtonMessageBuilder_Build_request; now rewrite Hto, Hbs).
  split; [exact Hbuild|]. split.
  - intros Hsome. unfold SendInteractiveButtons, SendMessage.
    rewrite Hbuild.
    destruct (addedButtons calls) as [|b1 [|b2 [|b3 rest]]];
      [now elim Hsome|reflexivity..].
  - intros Hnone. split; [reflexivity|]. intros Hrecipient Hnew.
    unfold SendMessage. rewrite sendMessage_posts; [reflexivity| | |exact Hnew].
    + rewrite Hbuild. exact Hrecipient.
    + rewrite Hbuild. reflexivity.
Qed.

Lemma button_builder_keeps_first_three_witness :
  SendInteractiveButtons validRequest okTransport sampleClient "15551234567"
    (builders.ButtonMessageBuilder_body
       (fold_left buttonBuilderCall
          [ButtonAddButton "a" "A"; ButtonBody "Choose";
           ButtonAddButton "b" "B"; ButtonAddButton "c" "C";
           ButtonAddButton "d" "D"]
          (builders.NewButtonMessage "15551234567")))
    (firstn 3 (addedButtons
                 [ButtonAddButton "a" "A"; ButtonBody "Choose";
                  ButtonAddButton "b" "B"; ButtonAddButton "c" "C";
                  ButtonAddButton "d" "D"]))
    (Some (buttonOptions
             (fold_left buttonBuilderCall
                [ButtonAddButton "a" "A"; ButtonBody "Choose";
                 ButtonAddButton "b" "B"; ButtonAddButton "c" "C";
                 ButtonAddButton "d" "D"]
                (builders.NewButtonMessage "15551234567")))) []
  = SendMessage validRequest okTransport sampleClient
      (builders.ButtonMessageBuilder_Build
         (fold_left buttonBuilderCall
            [ButtonAddButton "a" "A"; ButtonBody "Choose";
             ButtonAddButton "b" "B"; ButtonAddButton "c" "C";
             ButtonAddButton "d" "D"]
            (builders.NewButtonMessage "15551234567"))) [].
Proof.
  apply (proj1 (proj2 (button_builder_keeps_first_three validRequest
                         okTransport sampleClient "15551234567"
                         [ButtonAddButton "a" "A"; ButtonBody "Choose";
                          ButtonAddButton "b" "B"; ButtonAddButton "c" "C";
                          ButtonAddButton "d" "D"] []))).
  discriminate.
Defined.

Example four_buttons_built :
  MessageRequest_Interactive
    (builders.ButtonMessageBuilder_Build
       (fold_left buttonBuilderCall
          [ButtonAddButton "a" "A"; ButtonBody "Choose";
           ButtonAddButton "b" "B"; ButtonAddButton "c" "C";
           ButtonAddButton "d" "D"]
          (builders.NewButtonMessage "15551234567")))
  = MessageRequest_Interactive
      (buttons_request "15551234567" "Choose"
         (addedButtons [ButtonAddButton "a" "A"; ButtonAddButton "b" "B";
                        ButtonAddButton "c" "C"]) None).
Proof. reflexivity. Qed.

(** X29. The other builders construct the requests of the typed send
    functions: a text builder without a reply target that of
    [SendText], with a reply target and no preview that of
    [SendTextReply]; a list builder that of [SendInteractiveList]; a
    template builder that of [SendTemplate].  Whenever the typed
    function's own checks pass, sending the built request with
    [SendMessage] does what the typed function does. *)
Theorem built_requests_match_typed_sends
  (newRequest : string -> string -> option string)
  (httpDo : NetCall -> PostOutcome)
  (c : Client) (log : list NetCall) :
  (forall b : builders.TextMessageBuilder,
     builders.TextMessageBuilder_to b <> "" ->
     (builders.TextMessageBuilder_replyTo b = "" ->
      builders.TextMessageBuilder_body b <> "" ->
      SendText newRequest httpDo c (builders.TextMessageBuilder_to b)
        (builders.TextMessageBuilder_body b)
        (builders.TextMessageBuilder_previewURL b) log
      = SendMessage newRequest httpDo c
          (builders.TextMessageBuilder_Build b) log)
     /\ (builders.TextMessageBuilder_replyTo b <> "" ->
         builders.TextMessageBuilder_previewURL b = false ->
         SendTextReply newRequest httpDo c (builders.TextMessageBuilder_to b)
           (builders.TextMessageBuilder_body b)
           (builders.TextMessageBuilder_replyTo b) log
         = SendMessage newRequest httpDo c
             (builders.TextMessageBuilder_Build b) log))
  /\ (forall b : builders.ListMessageBuilder,
        builders.ListMessageBuilder_sections b <> [] ->
        builders.ListMessageBuilder_buttonText b <> "" ->
        SendInteractiveList newRequest httpDo c
          (builders.ListMessageBuilder_to b)
          (builders.ListMessageBuilder_body b)
          (builders.ListMessageBuilder_buttonText b)
          (builders.ListMessageBuilder_sections b) (Some (listOptions b)) log
        = SendMessage newRequest httpDo c
            (builders.ListMessageBuilder_Build b) log)
  /\ (forall b : builders.TemplateMessageBuilder,
        builders.TemplateMessageBuilder_templateName b <> "" ->
        builders.TemplateMessageBuilder_languageCode b <> "" ->
        SendTemplate newRequest httpDo c
          (builders.TemplateMessageBuilder_to b)
          (Some {| TemplateContent_Name :=
                     builders.TemplateMessageBuilder_templateName b;
                   TemplateContent_Language :=
                     {| TemplateLanguage_Code :=
                          builders.TemplateMessageBuilder_languageCode b |};
                   TemplateContent_Components :=
                     builders.TemplateMessageBuilder_components b |}) log
        = SendMessage newRequest httpDo c
            (builders.TemplateMessageBuilder_Build b) log).
Proof.
  split; [|split].
  - intros [to body previewURL replyTo]. cbn. intros Hto. split.
    + intros -> Hbody. unfold SendText.
      apply String.eqb_neq in Hto, Hbody. now rewrite Hto, Hbody.
    + intros Hreply ->. unfold SendTextReply.
      apply String.eqb_neq in Hreply.
      unfold builders.TextMessageBuilder_Build. cbn. now rewrite Hreply.
  - intros [to body header footer buttonText sections]. cbn.
    intros Hsections Hbutton. unfold SendInteractiveList.
    destruct sections as [|section sections]; [now elim Hsections|].
    apply String.eqb_neq in Hbutton. cbn [List.length Nat.eqb].
    rewrite Hbutton. unfold SendMessage. f_equal.
    unfold builders.ListMessageBuilder_Build, list_request,
      interactive_request, applyOptions, listOptions.
    cbn. destruct header; destruct (footer =? ""); reflexivity.
  - intros [to templateName languageCode components]. cbn.
    intros Hname Hlang. unfold SendTemplate. cbn.
    apply String.eqb_neq in Hname, Hlang. now rewrite Hname, Hlang.
Qed.

Lemma built_requests_match_typed_sends_witness :
  SendText validRequest okTransport sampleClient
    (builders.TextMessageBuilder_to sampleTextBuilder)
    (builders.TextMessageBuilder_body sampleTextBuilder)
    (builders.TextMessageBuilder_previewURL sampleTextBuilder) []
  = SendMessage validRequest okTransport sampleClient
      (builders.TextMessageBuilder_Build sampleTextBuilder) []
  /\ SendInteractiveList validRequest okTransport sampleClient
       (builders.ListMessageBuilder_to sampleListBuilder)
       (builders.ListMessageBuilder_body sampleListBuilder)
       (builders.ListMessageBuilder_buttonText sampleListBuilder)
       (builders.ListMessageBuilder_sections sampleListBuilder)
       (Some (listOptions sampleListBuilder)) []
     = SendMessage validRequest okTransport sampleClient
         (builders.ListMessageBuilder_Build sampleListBuilder) []
  /\ SendTemplate validRequest okTransport sampleClient
       (builders.TemplateMessageBuilder_to sampleTemplateBuilder)
       (Some {| TemplateContent_Name :=
                  builders.TemplateMessageBuilder_templateName
                    sampleTemplateBuilder;
                TemplateContent_Language :=
                  {| TemplateLanguage_Code :=
                       builders.TemplateMessageBuilder_languageCode
                         sampleTemplateBuilder |};
                TemplateContent_Components :=
                  builders.TemplateMessageBuilder_components
                    sampleTemplateBuilder |}) []
     = SendMessage validRequest okTransport sampleClient
         (builders.TemplateMessageBuilder_Build sampleTemplateBuilder) [].
Proof.
  destruct (built_requests_match_typed_sends validRequest okTransport
              sampleClient [])
    as (Htext & Hlist & Htemplate).
  split; [|split].
  - apply (proj1 (Htext sampleTextBuilder ltac:(discriminate)));
      [reflexivity|discriminate].
  - apply (Hlist sampleListBuilder); discriminate.
  - apply (Htemplate sampleTemplateBuilder); discriminate.
Defined.

Lemma contact_chain (calls : list ContactBuilderCall)
  (b : builders.ContactBuilder) :
  ContactName_FormattedName
    (ContactContent_Name
       (builders.ContactBuilder_contact (fold_left contactBuilderCall calls b)))
  = ContactName_FormattedName
      (ContactContent_Name (builders.ContactBuilder_contact b)).
Proof.
  revert b. induction calls as [|call calls IH]; intros b; [reflexivity|].
  cbn [fold_left]. rewrite IH. now destruct call.
Qed.

Lemma checkContacts_named (i : nat) (contacts : list ContactContent) :
  Forall (fun k => ContactName_FormattedName (ContactContent_Name k) <> "")
    contacts ->
  checkContacts i contacts = None.
Proof.
  intros H. revert i. induction H as [|k contacts Hk _ IH]; intros i;
    [reflexivity|].
  cbn. apply String.eqb_neq in Hk. now rewrite Hk.
Qed.

(** X30. No method of the contact builder changes the formatted name
    given to [NewContact].  So contacts built from non-empty formatted
    names pass the check of [SendContacts], whatever else was set on
    them, and are posted to a non-empty recipient when net/http can
    create the HTTP request for the messages URL; and a contact built
    from an empty formatted name is refused even after [FirstName] and
    [LastName] are set. *)
Theorem built_contacts_keep_formatted_name
  (newRequest : string -> string -> option string)
  (httpDo : NetCall -> PostOutcome)
  (c : Client) (to : string) (specs : list (string * list ContactBuilderCall))
  (log : list NetCall) :
  (forall spec,
     ContactName_FormattedName (ContactContent_Name (builtContact spec))
     = fst spec)
  /\ (to <> "" -> specs <> [] ->
      Forall (fun spec => fst spec <> "") specs ->
      newRequest "POST" (GetMessagesURL (Client_config c)) = None ->
      snd (SendContacts newRequest httpDo c to (map builtContact specs) log)
      = log ++ [postCall (GetMessagesURL (Client_config c))
                  (set_Contacts (map builtContact specs)
                     (request to MessageTypeContacts))])
  /\ (forall calls,
        fst (SendContacts newRequest httpDo c to [builtContact ("", calls)] log)
        = Err (IsValidationError
                 (NewValidationError "contacts"
                    "contact 0: formatted_name is required"))).
Proof.
  assert (Hname : forall spec,
            ContactName_FormattedName (ContactContent_Name (builtContact spec))
            = fst spec).
  { intros [name calls]. unfold builtContact, builders.ContactBuilder_Build.
    cbn [fst snd]. now rewrite contact_chain. }
  split; [exact Hname|]. split.
  - intros Hto Hsome Hspecs Hnew. unfold SendContacts.
    destruct specs as [|spec specs]; [now elim Hsome|].
    cbn [map List.length Nat.eqb].
    rewrite checkContacts_named.
    + rewrite sendMessage_posts; [reflexivity|exact Hto|reflexivity|exact Hnew].
    + change (builtContact spec :: map builtContact specs)
        with (map builtContact (spec :: specs)).
      apply Forall_map. revert Hspecs. apply Forall_impl.
      intros s Hs. now rewrite Hname.
  - intros calls. unfold SendContacts. cbn [List.length Nat.eqb checkContacts].
    now rewrite Hname.
Qed.

Lemma built_contacts_keep_formatted_name_witness :
  snd (SendContacts validRequest okTransport sampleClient "15551234567"
         (map builtContact
            [("Ann", [ContactAddPhone "CELL" "15550001111";
                      ContactBirthday "1990-01-01"])]) [])
  = [] ++ [postCall (GetMessagesURL (Client_config sampleClient))
             (set_Contacts
                (map builtContact
                   [("Ann", [ContactAddPhone "CELL" "15550001111";
                             ContactBirthday "1990-01-01"])])
                (request "15551234567" MessageTypeContacts))].
Proof.
  apply (proj1 (proj2 (built_contacts_keep_formatted_name validRequest
                         okTransport sampleClient "15551234567"
                         [("Ann", [ContactAddPhone "CELL" "15550001111";
                                   ContactBirthday "1990-01-01"])] []))).
  - discriminate.
  - discriminate.
  - repeat constructor. discriminate.
  - reflexivity.
Defined.
